(** * ads-async: wire structures and asyncio client, embedded in Rocq

  The development follows [ads_async/structs.py] (the ctypes wire records
  and their enum-backed properties) and [ads_async/asyncio/client.py]
  (the asyncio client: request/response multiplexing, notifications,
  symbol cache).  Python objects that are shared and mutated live in an
  explicit store; coroutines are run to their next suspension point. *)

From Stdlib Require Import ZArith Lia List Ascii String Bool.
From stdpp Require Import base numbers option list strings gmap fin_maps pretty.

Local Open Scope Z_scope.

(** ** Python primitives used by the sources *)

Module Py.

(** The exceptions the two source files raise or catch. *)
Inductive exn : Type :=
| ValueError | TypeError | IndexError | KeyError | AttributeError
| NotImplementedError | OSError | MissingHandlerError | FailureResponse
| RuntimeError | OtherException.

Inductive result (A : Type) : Type :=
| Ok (a : A)
| Raise (e : exn).
Arguments Ok {A} a.
Arguments Raise {A} e.

Definition bind {A B} (r : result A) (k : A -> result B) : result B :=
  match r with
  | Ok a => k a
  | Raise e => Raise e
  end.

(** [s.split(sep)] for a one-character separator: never returns the empty
    list; the empty string splits to one empty part. *)
Fixpoint split (sep : ascii) (s : string) : list string :=
  match s with
  | EmptyString => [EmptyString]
  | String c rest =>
      if Ascii.eqb c sep then EmptyString :: split sep rest
      else match split sep rest with
           | p :: ps => String c p :: ps
           | [] => [String c EmptyString]
           end
  end.

(** [sep.join(parts)]. *)
Definition join (sep : string) (parts : list string) : string :=
  String.concat sep parts.

(** The code points below 256 that [int()] strips on both sides of a
    string: tab to carriage return and the space, and the two blanks above
    ASCII, which [int()] first turns into spaces.  The separators U+001C
    to U+001F are blanks for [str.isspace] but not for [int()]. *)
Definition is_space (c : ascii) : bool :=
  let n := Z.of_nat (nat_of_ascii c) in
  ((9 <=? n) && (n <=? 13)) || (n =? 32) || (n =? 133) || (n =? 160).

Fixpoint lstrip (s : list ascii) : list ascii :=
  match s with
  | c :: rest => if is_space c then lstrip rest else s
  | [] => []
  end.

Definition strip (s : list ascii) : list ascii :=
  rev (lstrip (rev (lstrip s))).

Definition digit_val (c : ascii) : option Z :=
  let n := Z.of_nat (nat_of_ascii c) in
  if (48 <=? n) && (n <=? 57) then Some (n - 48) else None.

(** Decimal digits, with single underscores allowed between two digits
    only.  [prev] tells whether the previous character was a digit. *)
Fixpoint parse_digits (s : list ascii) (acc : Z) (prev : bool) : option Z :=
  match s with
  | [] => if prev then Some acc else None
  | c :: rest =>
      if Ascii.eqb c "_"%char then
        if prev then parse_digits rest acc false else None
      else
        match digit_val c with
        | Some d => parse_digits rest (10 * acc + d) true
        | None => None
        end
  end.

(** [sys.get_int_max_str_digits()] as the interpreter starts: a longer
    decimal string is refused with [ValueError]. *)
Definition int_max_str_digits : Z := 4300.

(** The digits of a string, underscores and sign apart. *)
Definition count_digits (s : list ascii) : Z :=
  Z.of_nat (List.length (List.filter (fun c => match digit_val c with
                                               | Some _ => true
                                               | None => false
                                               end) s)).

(** [int(s)] in base 10 for a string of code points below 256: surrounding
    whitespace, an optional sign, then digits, no more than the limit.
    [Raise ValueError] is Python's [ValueError]. *)
Definition int (s : string) : result Z :=
  let stripped := strip (list_ascii_of_string s) in
  let parsed :=
    match stripped with
    | "+"%char :: body => parse_digits body 0 false
    | "-"%char :: body => Z.opp <$> parse_digits body 0 false
    | body => parse_digits body 0 false
    end in
  match parsed with
  | Some z => if int_max_str_digits <? count_digits stripped then Raise ValueError
              else Ok z
  | None => Raise ValueError
  end.

(** [str(z)] for an integer: decimal, no leading zeros, ["-"] for
    negatives. *)
Definition str (z : Z) : string := pretty z.

(** [tuple(f(x) for x in l)] where [f] may raise: the first exception
    escapes. *)
Fixpoint map_result {A B} (f : A -> result B) (l : list A) : result (list B) :=
  match l with
  | [] => Ok []
  | x :: xs => bind (f x) (fun y => bind (map_result f xs) (fun ys => Ok (y :: ys)))
  end.

End Py.

(** ** The part of ctypes the records rely on *)

Module Ctypes.

#[warnings="-register-all"]
Inductive ctype : Type :=
| c_uint8 | c_ubyte | c_char | c_uint16 | c_uint32 | c_uint64
| c_array (elem : ctype) (n : nat)
| c_struct (pack : option nat) (fields : list (string * ctype)).

Definition round_up (off align : nat) : nat :=
  match (off mod align)%nat with
  | O => off
  | r => (off + (align - r))%nat
  end.

(** Alignment of a field inside a structure: [_pack_] caps the natural
    alignment of the field's type. *)
Definition field_align (pack : option nat) (natural : nat) : nat :=
  match pack with
  | Some p => Nat.min p natural
  | None => natural
  end.

(** Size and alignment of a type.  A structure places each field at the
    next multiple of its field alignment and is padded at the end to a
    multiple of its own alignment, the largest field alignment. *)
Fixpoint size_align (t : ctype) : nat * nat :=
  match t with
  | c_uint8 | c_ubyte | c_char => (1, 1)%nat
  | c_uint16 => (2, 2)%nat
  | c_uint32 => (4, 4)%nat
  | c_uint64 => (8, 8)%nat
  | c_array elem n => ((n * fst (size_align elem))%nat, snd (size_align elem))
  | c_struct pack fields =>
      let fix go (fs : list (string * ctype)) (off al : nat) : nat * nat :=
        match fs with
        | [] => (round_up off al, al)
        | (_, ft) :: rest =>
            let a := field_align pack (snd (size_align ft)) in
            go rest (round_up off a + fst (size_align ft))%nat (Nat.max al a)
        end in
      go fields O 1%nat
  end.

Definition sizeof (t : ctype) : nat := fst (size_align t).
Definition alignof (t : ctype) : nat := snd (size_align t).

(** Offsets of the fields of a structure, in declaration order. *)
Fixpoint layout (pack : option nat) (fs : list (string * ctype)) (off : nat)
  : list (string * nat * nat) :=
  match fs with
  | [] => []
  | (name, ft) :: rest =>
      let o := round_up off (field_align pack (alignof ft)) in
      (name, o, sizeof ft) :: layout pack rest (o + sizeof ft)%nat
  end.

Definition struct_layout (t : ctype) : list (string * nat * nat) :=
  match t with
  | c_struct pack fields => layout pack fields O
  | _ => []
  end.

Fixpoint offsetof (l : list (string * nat * nat)) (name : string) : option (nat * nat) :=
  match l with
  | [] => None
  | (n, o, sz) :: rest => if String.eqb n name then Some (o, sz) else offsetof rest name
  end.

(** What a C integer of [n] bytes keeps of a Python integer: ctypes does
    no range check, the value is reduced modulo [2^(8n)]. *)
Definition wrap (n : nat) (v : Z) : Z := v mod 2 ^ (8 * Z.of_nat n).

(** The [n] bytes of [v], least significant first. *)
Fixpoint le_bytes (n : nat) (v : Z) : list Z :=
  match n with
  | O => []
  | S k => v mod 256 :: le_bytes k (v / 256)
  end.

Fixpoint le_value (bs : list Z) : Z :=
  match bs with
  | [] => 0
  | b :: rest => b + 256 * le_value rest
  end.

(** A structure instance is its buffer; a field is a window of it. *)
Definition buffer := list Z.

Definition new_buffer (t : ctype) : buffer := repeat 0 (sizeof t).

Definition write_at (off : nat) (bs : list Z) (buf : buffer) : buffer :=
  firstn off buf ++ bs ++ skipn (off + List.length bs) buf.

Definition read_at (off n : nat) (buf : buffer) : list Z :=
  firstn n (skipn off buf).

(** An array type called with positional values: too many values raise
    [IndexError], missing ones stay zero, each value is stored as the
    element type stores it. *)
Definition array_init (elem_size n : nat) (values : list Z) : Py.result (list Z) :=
  if (n <? List.length values)%nat then Py.Raise Py.IndexError
  else Py.Ok (map (wrap elem_size) values ++ repeat 0 (n - List.length values)).

End Ctypes.

(** ** structs.py: the wire records *)

Module Structs.

(** [_AdsStructBase] is a [LittleEndianStructure] with [_pack_ = 1]; every
    record below inherits both. *)
Definition _pack_ : option nat := Some 1%nat.

Definition AmsNetId_t : Ctypes.ctype :=
  Ctypes.c_struct _pack_ [("octets"%string, Ctypes.c_array Ctypes.c_uint8 6)].

Definition AmsAddr_t : Ctypes.ctype :=
  Ctypes.c_struct _pack_
    [("net_id"%string, AmsNetId_t); ("_port"%string, Ctypes.c_uint16)].

Definition AmsTcpHeader_t : Ctypes.ctype :=
  Ctypes.c_struct _pack_
    [("reserved"%string, Ctypes.c_uint16); ("length"%string, Ctypes.c_uint32)].

Definition AoEHeader_t : Ctypes.ctype :=
  Ctypes.c_struct _pack_
    [("target"%string, AmsAddr_t);
     ("source"%string, AmsAddr_t);
     ("_command_id"%string, Ctypes.c_uint16);
     ("_state_flags"%string, Ctypes.c_uint16);
     ("length"%string, Ctypes.c_uint32);
     ("error_code"%string, Ctypes.c_uint32);
     ("invoke_id"%string, Ctypes.c_uint32)].

(** The same two records without [_pack_], to see what the attribute buys. *)
Definition AmsTcpHeader_unpacked_t : Ctypes.ctype :=
  Ctypes.c_struct None
    [("reserved"%string, Ctypes.c_uint16); ("length"%string, Ctypes.c_uint32)].

(** Field values as Python reads them back from an instance. *)
Record AmsNetId : Type := { octets : list Z }.

Record AmsAddr : Type := { net_id : AmsNetId; _port : Z }.

Record AmsTcpHeader : Type := { reserved : Z; tcp_length : Z }.

Record AoEHeader : Type := {
  target : AmsAddr;
  source : AmsAddr;
  _command_id : Z;
  _state_flags : Z;
  aoe_length : Z;
  error_code : Z;
  invoke_id : Z
}.

(** Storing [bs] in the field [name] of an instance of [t]. *)
Definition put_field (t : Ctypes.ctype) (name : string) (bs : list Z)
  (buf : Ctypes.buffer) : Ctypes.buffer :=
  match Ctypes.offsetof (Ctypes.struct_layout t) name with
  | Some (o, sz) => Ctypes.write_at o (firstn sz bs) buf
  | None => buf
  end.

Definition get_field (t : Ctypes.ctype) (name : string) (buf : Ctypes.buffer) : list Z :=
  match Ctypes.offsetof (Ctypes.struct_layout t) name with
  | Some (o, sz) => Ctypes.read_at o sz buf
  | None => []
  end.

(** [bytes(instance)] for the four records. *)
Definition AmsNetId_bytes (n : AmsNetId) : Ctypes.buffer :=
  put_field AmsNetId_t "octets" (map (Ctypes.wrap 1) (octets n))
    (Ctypes.new_buffer AmsNetId_t).

Definition AmsAddr_bytes (a : AmsAddr) : Ctypes.buffer :=
  put_field AmsAddr_t "_port" (Ctypes.le_bytes 2 (_port a))
    (put_field AmsAddr_t "net_id" (AmsNetId_bytes (net_id a))
       (Ctypes.new_buffer AmsAddr_t)).

Definition AmsTcpHeader_bytes (h : AmsTcpHeader) : Ctypes.buffer :=
  put_field AmsTcpHeader_t "length" (Ctypes.le_bytes 4 (tcp_length h))
    (put_field AmsTcpHeader_t "reserved" (Ctypes.le_bytes 2 (reserved h))
       (Ctypes.new_buffer AmsTcpHeader_t)).

Definition AoEHeader_bytes (h : AoEHeader) : Ctypes.buffer :=
  put_field AoEHeader_t "invoke_id" (Ctypes.le_bytes 4 (invoke_id h))
    (put_field AoEHeader_t "error_code" (Ctypes.le_bytes 4 (error_code h))
       (put_field AoEHeader_t "length" (Ctypes.le_bytes 4 (aoe_length h))
          (put_field AoEHeader_t "_state_flags" (Ctypes.le_bytes 2 (_state_flags h))
             (put_field AoEHeader_t "_command_id" (Ctypes.le_bytes 2 (_command_id h))
                (put_field AoEHeader_t "source" (AmsAddr_bytes (source h))
                   (put_field AoEHeader_t "target" (AmsAddr_bytes (target h))
                      (Ctypes.new_buffer AoEHeader_t))))))).

(** [AmsTcpHeader.__init__(length)] calls the base constructor with
    [(0, length)]. *)
Definition AmsTcpHeader_init (length : Z) : AmsTcpHeader :=
  {| reserved := Ctypes.wrap 2 0; tcp_length := Ctypes.wrap 4 length |}.

(** [AmsAddr.from_buffer(buf)]: the instance is a view of the bytes. *)
Definition AmsNetId_from_buffer (buf : Ctypes.buffer) : AmsNetId :=
  {| octets := get_field AmsNetId_t "octets" buf |}.

Definition AmsAddr_from_buffer (buf : Ctypes.buffer) : AmsAddr :=
  {| net_id := AmsNetId_from_buffer (get_field AmsAddr_t "net_id" buf);
     _port := Ctypes.le_value (get_field AmsAddr_t "_port" buf) |}.

(** What the claims call a valid field assignment: each value fits the C
    type of its field. *)
Definition in_range (bytes : nat) (v : Z) : Prop :=
  0 <= v < 2 ^ (8 * Z.of_nat bytes).

Definition valid_AmsNetId (n : AmsNetId) : Prop :=
  List.length (octets n) = 6%nat /\ Forall (in_range 1) (octets n).

Definition valid_AmsAddr (a : AmsAddr) : Prop :=
  valid_AmsNetId (net_id a) /\ in_range 2 (_port a).

Definition valid_AmsTcpHeader (h : AmsTcpHeader) : Prop :=
  in_range 2 (reserved h) /\ in_range 4 (tcp_length h).

Definition valid_AoEHeader (h : AoEHeader) : Prop :=
  valid_AmsAddr (target h) /\ valid_AmsAddr (source h)
  /\ in_range 2 (_command_id h) /\ in_range 2 (_state_flags h)
  /\ in_range 4 (aoe_length h) /\ in_range 4 (error_code h)
  /\ in_range 4 (invoke_id h).

(** *** [AmsNetId.from_string] and [AmsNetId.__repr__] *)

(** [cls(parts)]: the tuple initialises the field [octets], an array of six
    [c_uint8], by a call of the array type; the constructor reports a
    failure of that call as [RuntimeError]. *)
Definition AmsNetId_new (parts : list Z) : Py.result AmsNetId :=
  match Ctypes.array_init 1 6 parts with
  | Py.Ok o => Py.Ok {| octets := o |}
  | Py.Raise _ => Py.Raise Py.RuntimeError
  end.

Definition from_string (addr : string) : Py.result AmsNetId :=
  let attempt :=
    Py.bind (Py.map_result Py.int (Py.split "." addr)) (fun parts =>
      if negb (List.length parts =? 6)%nat then Py.Raise Py.ValueError
      else Py.Ok parts) in
  match attempt with
  | Py.Ok parts => AmsNetId_new parts
  | Py.Raise Py.TypeError | Py.Raise Py.ValueError => Py.Raise Py.ValueError
  | Py.Raise e => Py.Raise e
  end.

Definition AmsNetId_repr (n : AmsNetId) : string :=
  Py.join "." (map Py.str (octets n)).

(** *** [_create_enum_property] *)

(** What a property hands to or takes from user code: a plain integer or a
    member of the enum class. *)
Inductive pyval : Type :=
| PyInt (z : Z)
| PyEnum (name : string) (value : Z).

Definition pyval_int (x : pyval) : Z :=
  match x with
  | PyInt z => z
  | PyEnum _ v => v
  end.

Fixpoint member_of_value (members : list (string * Z)) (v : Z) : option (string * Z) :=
  match members with
  | [] => None
  | (n, w) :: rest => if Z.eqb w v then Some (n, w) else member_of_value rest v
  end.

Section EnumProperty.

(** The members of [enum_cls], name and value, in definition order.  The
    classes themselves live in [constants.py]. *)
Variable enum_cls_members : list (string * Z).

(** [enum_cls(value)] for an [Enum] or [IntEnum] class, whose values are
    its named members: the member is looked up by value, a member handed
    in being found by its own, and [ValueError] is raised when no member
    has the value.  A flag class, which also accepts combinations of its
    members, is not of this form; the property for an arbitrary class is
    [Records.fget_of] and [Records.fset_of]. *)
Definition enum_cls (x : pyval) : Py.result pyval :=
  match member_of_value enum_cls_members (pyval_int x) with
  | Some (n, w) => Py.Ok (PyEnum n w)
  | None => Py.Raise Py.ValueError
  end.

(** [fget]: [value] is the raw field. *)
Definition fget (strict : bool) (value : Z) : Py.result pyval :=
  match enum_cls (PyInt value) with
  | Py.Ok e => Py.Ok e
  | Py.Raise Py.ValueError =>
      if negb strict then Py.Ok (PyInt value) else Py.Raise Py.ValueError
  | Py.Raise e => Py.Raise e
  end.

(** [fset]: the result is what [setattr] then stores in a field of
    [bytes] bytes. *)
Definition fset (strict : bool) (bytes : nat) (value : pyval) : Py.result Z :=
  Py.bind
    (if strict then Py.bind (enum_cls value) (fun e => Py.Ok (PyInt (pyval_int e)))
     else Py.Ok value)
    (fun v => Py.Ok (Ctypes.wrap bytes (pyval_int v))).

(** [AmsAddr.port = _create_enum_property('_port', AmsPort, strict=False)],
    with [enum_cls_members] the members of [AmsPort]. *)
Definition AmsAddr_port (a : AmsAddr) : Py.result pyval :=
  fget false (_port a).

Definition AmsAddr_set_port (a : AmsAddr) (value : pyval) : Py.result AmsAddr :=
  Py.bind (fset false 2 value) (fun raw =>
    Py.Ok {| net_id := net_id a; _port := raw |}).

End EnumProperty.

End Structs.

(** ** asyncio/client.py: the client *)

Module Client.

(** Modelled from the spec: [constants.AdsError.NOERR], the result code named
    no error; [constants.py] is not part of the sources at hand.  The spec's
    scenarios call every other code non-zero. *)
Definition NOERR : Z := 0.

(** Requests as the factory methods of [protocol.Client] hand them to
    [send]; the client never looks inside them. *)
Inductive request : Type :=
| get_device_information_request
| get_symbol_info_by_name_request (name : string)
| get_symbol_handle_by_name_request (name : string)
| get_value_by_handle_request (handle size : Z)
| release_handle_request (handle : Z)
| add_notification_by_index_request
    (index_group index_offset length mode max_delay cycle_time : Z)
| remove_notification_request (handle : Z).

(** The items [received_data] yields next to a header. *)
Inductive item : Type :=
| AdsDeviceInfo (version revision build : Z) (name : string)
| AoEResponseHeader (result : Z)
| AoEReadResponseHeader (result read_length : Z) (data : list Z)
| AoENotificationHandleResponse (result handle : Z)
| AdsNotificationStream (samples : list Z).

(** [response.result] and [response.handle]: [AttributeError] on a record
    without the field. *)
Definition item_result (it : item) : Py.result Z :=
  match it with
  | AoEResponseHeader r | AoEReadResponseHeader r _ _
  | AoENotificationHandleResponse r _ => Py.Ok r
  | AdsDeviceInfo _ _ _ _ | AdsNotificationStream _ => Py.Raise Py.AttributeError
  end.

Definition item_handle (it : item) : Py.result Z :=
  match it with
  | AoENotificationHandleResponse _ h => Py.Ok h
  | _ => Py.Raise Py.AttributeError
  end.

(** Objects are referred to by their place in the store. *)
Definition ref := nat.

(** A user callback, known by its identity only. *)
Definition func := nat.

(** The bound methods [send] is given as [response_handler]. *)
Inductive handler : Type :=
| got_response (req : ref)
| _response_handler (notification : ref).

(** [dict(header=..., timestamp=..., sample=...)]. *)
Record notification_dict : Type := {
  nd_header : Structs.AoEHeader;
  nd_timestamp : Z;
  nd_sample : list Z
}.

(** What [user_callback_executor.submit] was called with. *)
Inductive job : Type :=
| subscribe (notification : ref)
| call (f : func) (sub : ref) (kwargs : notification_dict).

Record Notification : Type := {
  notification_id : Z;
  handle : option Z;
  callbacks : list (nat * func);
  _callback_id : nat;
  command : request;
  port : option Z;
  most_recent_notification : option notification_dict;
  needs_reactivation : option bool
}.

Record _BlockingRequest : Type := {
  req_request : request;
  req_options_port : option Z;
  req__event : bool;
  req_header : option Structs.AoEHeader;
  req_response : option item
}.

Record symbol_info : Type := {
  info_index_group : Z;
  info_index_offset : Z;
  info_size : Z
}.

Record Symbol : Type := {
  sym_name : option string;
  sym_index_group : option Z;
  sym_index_offset : option Z;
  sym_info : option symbol_info;
  sym_handle : option Z;
  sym_string_encoding : string
}.

(** One encoded request as [request_to_wire] returns it, kept symbolic. *)
Record frame : Type := {
  fr_invoke_id : Z;
  fr_items : list request;
  fr_ads_error : Z;
  fr_port : Z
}.

(** The stream writer of the connection.  [drain_fails] and [close_fails]
    stand for the transport: whether [drain()] and [close()] raise
    [OSError]. *)
Record StreamWriter : Type := {
  written : list frame;
  closed : bool;
  drain_fails : bool;
  close_fails : bool
}.

Record AsyncioClient : Type := {
  (* self.client, the protocol.Client *)
  next_invoke_id : Z;
  their_port : Z;
  handle_to_notification : gmap Z ref;
  (* attributes of the AsyncioClient itself *)
  _response_handlers : gmap Z (list handler);
  user_callback_executor : list job;
  reconnect_rate : option Z;
  _symbols : list (string * ref);
  writer : option StreamWriter;
  log : list string;
  (* the objects the client created *)
  symbol_store : list Symbol;
  notification_store : list Notification;
  request_store : list _BlockingRequest
}.

Definition set_next_invoke_id (v : Z) (c : AsyncioClient) : AsyncioClient :=
  {| next_invoke_id := v; their_port := their_port c;
     handle_to_notification := handle_to_notification c;
     _response_handlers := _response_handlers c;
     user_callback_executor := user_callback_executor c;
     reconnect_rate := reconnect_rate c; _symbols := _symbols c;
     writer := writer c; log := log c; symbol_store := symbol_store c;
     notification_store := notification_store c;
     request_store := request_store c |}.

Definition set_handle_to_notification (v : gmap Z ref) (c : AsyncioClient) : AsyncioClient :=
  {| next_invoke_id := next_invoke_id c; their_port := their_port c;
     handle_to_notification := v;
     _response_handlers := _response_handlers c;
     user_callback_executor := user_callback_executor c;
     reconnect_rate := reconnect_rate c; _symbols := _symbols c;
     writer := writer c; log := log c; symbol_store := symbol_store c;
     notification_store := notification_store c;
     request_store := request_store c |}.

Definition set__response_handlers (v : gmap Z (list handler)) (c : AsyncioClient) : AsyncioClient :=
  {| next_invoke_id := next_invoke_id c; their_port := their_port c;
     handle_to_notification := handle_to_notification c;
     _response_handlers := v;
     user_callback_executor := user_callback_executor c;
     reconnect_rate := reconnect_rate c; _symbols := _symbols c;
     writer := writer c; log := log c; symbol_store := symbol_store c;
     notification_store := notification_store c;
     request_store := request_store c |}.

Definition set_user_callback_executor (v : list job) (c : AsyncioClient) : AsyncioClient :=
  {| next_invoke_id := next_invoke_id c; their_port := their_port c;
     handle_to_notification := handle_to_notification c;
     _response_handlers := _response_handlers c;
     user_callback_executor := v;
     reconnect_rate := reconnect_rate c; _symbols := _symbols c;
     writer := writer c; log := log c; symbol_store := symbol_store c;
     notification_store := notification_store c;
     request_store := request_store c |}.

Definition set_reconnect_rate (v : option Z) (c : AsyncioClient) : AsyncioClient :=
  {| next_invoke_id := next_invoke_id c; their_port := their_port c;
     handle_to_notification := handle_to_notification c;
     _response_handlers := _response_handlers c;
     user_callback_executor := user_callback_executor c;
     reconnect_rate := v; _symbols := _symbols c;
     writer := writer c; log := log c; symbol_store := symbol_store c;
     notification_store := notification_store c;
     request_store := request_store c |}.

Definition set__symbols (v : list (string * ref)) (c : AsyncioClient) : AsyncioClient :=
  {| next_invoke_id := next_invoke_id c; their_port := their_port c;
     handle_to_notification := handle_to_notification c;
     _response_handlers := _response_handlers c;
     user_callback_executor := user_callback_executor c;
     reconnect_rate := reconnect_rate c; _symbols := v;
     writer := writer c; log := log c; symbol_store := symbol_store c;
     notification_store := notification_store c;
     request_store := request_store c |}.

Definition set_writer (v : option StreamWriter) (c : AsyncioClient) : AsyncioClient :=
  {| next_invoke_id := next_invoke_id c; their_port := their_port c;
     handle_to_notification := handle_to_notification c;
     _response_handlers := _response_handlers c;
     user_callback_executor := user_callback_executor c;
     reconnect_rate := reconnect_rate c; _symbols := _symbols c;
     writer := v; log := log c; symbol_store := symbol_store c;
     notification_store := notification_store c;
     request_store := request_store c |}.

Definition set_log (v : list string) (c : AsyncioClient) : AsyncioClient :=
  {| next_invoke_id := next_invoke_id c; their_port := their_port c;
     handle_to_notification := handle_to_notification c;
     _response_handlers := _response_handlers c;
     user_callback_executor := user_callback_executor c;
     reconnect_rate := reconnect_rate c; _symbols := _symbols c;
     writer := writer c; log := v; symbol_store := symbol_store c;
     notification_store := notification_store c;
     request_store := request_store c |}.

Definition set_symbol_store (v : list Symbol) (c : AsyncioClient) : AsyncioClient :=
  {| next_invoke_id := next_invoke_id c; their_port := their_port c;
     handle_to_notification := handle_to_notification c;
     _response_handlers := _response_handlers c;
     user_callback_executor := user_callback_executor c;
     reconnect_rate := reconnect_rate c; _symbols := _symbols c;
     writer := writer c; log := log c; symbol_store := v;
     notification_store := notification_store c;
     request_store := request_store c |}.

Definition set_notification_store (v : list Notification) (c : AsyncioClient) : AsyncioClient :=
  {| next_invoke_id := next_invoke_id c; their_port := their_port c;
     handle_to_notification := handle_to_notification c;
     _response_handlers := _response_handlers c;
     user_callback_executor := user_callback_executor c;
     reconnect_rate := reconnect_rate c; _symbols := _symbols c;
     writer := writer c; log := log c; symbol_store := symbol_store c;
     notification_store := v;
     request_store := request_store c |}.

Definition set_request_store (v : list _BlockingRequest) (c : AsyncioClient) : AsyncioClient :=
  {| next_invoke_id := next_invoke_id c; their_port := their_port c;
     handle_to_notification := handle_to_notification c;
     _response_handlers := _response_handlers c;
     user_callback_executor := user_callback_executor c;
     reconnect_rate := reconnect_rate c; _symbols := _symbols c;
     writer := writer c; log := log c; symbol_store := symbol_store c;
     notification_store := notification_store c;
     request_store := v |}.

(** *** Coroutines as state transformers that may raise

    A coroutine run up to its next suspension point turns the client into
    a new client and either returns or raises; what it did before raising
    stays done. *)
Definition M (A : Type) : Type := AsyncioClient -> Py.result A * AsyncioClient.

Definition ret {A} (a : A) : M A := fun c => (Py.Ok a, c).

Definition raise {A} (e : Py.exn) : M A := fun c => (Py.Raise e, c).

Definition mbind {A B} (m : M A) (k : A -> M B) : M B :=
  fun c =>
    match m c with
    | (Py.Ok a, c') => k a c'
    | (Py.Raise e, c') => (Py.Raise e, c')
    end.

Definition get : M AsyncioClient := fun c => (Py.Ok c, c).

Definition modify (f : AsyncioClient -> AsyncioClient) : M unit :=
  fun c => (Py.Ok tt, f c).

(** [try: m  except <caught>: handler]. *)
Definition try_except {A} (m : M A) (caught : Py.exn -> bool) (handler : Py.exn -> M A) : M A :=
  fun c =>
    match m c with
    | (Py.Ok a, c') => (Py.Ok a, c')
    | (Py.Raise e, c') => if caught e then handler e c' else (Py.Raise e, c')
    end.

Notation "'let*' x ':=' m 'in' k" := (mbind m (fun x => k))
  (at level 10, x name, m at level 100, k at level 200).

Fixpoint for_each {A} (l : list A) (body : A -> M unit) : M unit :=
  match l with
  | [] => ret tt
  | x :: rest => let* _ := body x in for_each rest body
  end.

(** [self.log.debug(...)] and [self.log.exception(...)]. *)
Definition log_message (msg : string) : M unit :=
  modify (fun c => set_log (log c ++ [msg]) c).

Definition is_Exception (e : Py.exn) : bool := true.

Definition is_OSError (e : Py.exn) : bool :=
  match e with Py.OSError => true | _ => false end.

Definition is_MissingHandlerError (e : Py.exn) : bool :=
  match e with Py.MissingHandlerError => true | _ => false end.

(** *** The store *)

Definition the_notification (n : ref) : M Notification :=
  fun c =>
    match notification_store c !! n with
    | Some self => (Py.Ok self, c)
    | None => (Py.Raise Py.OtherException, c)
    end.

Definition put_notification (n : ref) (self : Notification) : M unit :=
  modify (fun c => set_notification_store (<[n := self]> (notification_store c)) c).

Definition the_request (r : ref) : M _BlockingRequest :=
  fun c =>
    match request_store c !! r with
    | Some req => (Py.Ok req, c)
    | None => (Py.Raise Py.OtherException, c)
    end.

Definition put_request (r : ref) (req : _BlockingRequest) : M unit :=
  modify (fun c => set_request_store (<[r := req]> (request_store c)) c).

Definition the_symbol (s : ref) : M Symbol :=
  fun c =>
    match symbol_store c !! s with
    | Some sym => (Py.Ok sym, c)
    | None => (Py.Raise Py.OtherException, c)
    end.

Definition put_symbol (s : ref) (sym : Symbol) : M unit :=
  modify (fun c => set_symbol_store (<[s := sym]> (symbol_store c)) c).

Definition set_handle (v : option Z) (self : Notification) : Notification :=
  {| notification_id := notification_id self; handle := v;
     callbacks := callbacks self; _callback_id := _callback_id self;
     command := command self; port := port self;
     most_recent_notification := most_recent_notification self;
     needs_reactivation := needs_reactivation self |}.

Definition set_callbacks (v : list (nat * func)) (next : nat) (self : Notification) : Notification :=
  {| notification_id := notification_id self; handle := handle self;
     callbacks := v; _callback_id := next;
     command := command self; port := port self;
     most_recent_notification := most_recent_notification self;
     needs_reactivation := needs_reactivation self |}.

Definition set_most_recent_notification (v : option notification_dict) (self : Notification) : Notification :=
  {| notification_id := notification_id self; handle := handle self;
     callbacks := callbacks self; _callback_id := _callback_id self;
     command := command self; port := port self;
     most_recent_notification := v;
     needs_reactivation := needs_reactivation self |}.

Definition set_needs_reactivation (v : option bool) (self : Notification) : Notification :=
  {| notification_id := notification_id self; handle := handle self;
     callbacks := callbacks self; _callback_id := _callback_id self;
     command := command self; port := port self;
     most_recent_notification := most_recent_notification self;
     needs_reactivation := v |}.

Definition set_sym_handle (v : option Z) (sym : Symbol) : Symbol :=
  {| sym_name := sym_name sym; sym_index_group := sym_index_group sym;
     sym_index_offset := sym_index_offset sym; sym_info := sym_info sym;
     sym_handle := v; sym_string_encoding := sym_string_encoding sym |}.

(** *** [AsyncioClient.__init__] and the connect loop *)

(** The client as [__init__] leaves it: no attribute [writer] yet (the
    class body only annotates it), no handlers, no symbols.  The reconnect
    rate defaults to 10. *)
Definition __init__ (server_port : Z) (reconnect : option Z) : AsyncioClient :=
  {| next_invoke_id := 0; their_port := server_port;
     handle_to_notification := ∅;
     _response_handlers := ∅;
     user_callback_executor := [];
     reconnect_rate := reconnect;
     _symbols := [];
     writer := None;
     log := [];
     symbol_store := []; notification_store := []; request_store := [] |}.

(** One turn of the loop of [_connect] up to the point where the
    connection stands: [open_connection] either raises [OSError], which is
    logged, or yields the writer, the only assignment to [self.writer]. *)
Definition _connect_attempt (outcome : Py.result StreamWriter) : M unit :=
  let* _ := log_message "Connecting..." in
  match outcome with
  | Py.Raise Py.OSError => log_message "Failed to connect"
  | Py.Raise e => raise e
  | Py.Ok w =>
      let* _ := modify (set_writer (Some w)) in
      log_message "Connected"
  end.

(** *** [AsyncioClient.send] *)

(** Modelled from the spec: [protocol.Client.request_to_wire], which is not
    part of the sources at hand.  It encodes the items into one frame under
    the next invocation id, assigned monotonically per connection. *)
Definition request_to_wire (items : list request) (ads_error : Z) (port : Z)
  : M (Z * frame) :=
  fun c =>
    let invoke_id := next_invoke_id c in
    (Py.Ok (invoke_id,
            {| fr_invoke_id := invoke_id; fr_items := items;
               fr_ads_error := ads_error; fr_port := port |}),
     set_next_invoke_id (invoke_id + 1) c).

(** [port or self.client.their_port]: [None] and [0] both give way. *)
Definition port_or (port : option Z) (default : Z) : Z :=
  match port with
  | Some p => if p =? 0 then default else p
  | None => default
  end.

(** [self.writer.write(data)]: reading the attribute raises
    [AttributeError] while it was never assigned; a closed transport drops
    the data. *)
Definition writer_write (data : frame) : M unit :=
  fun c =>
    match writer c with
    | None => (Py.Raise Py.AttributeError, c)
    | Some w =>
        (Py.Ok tt,
         set_writer
           (Some {| written := if closed w then written w else written w ++ [data];
                    closed := closed w; drain_fails := drain_fails w;
                    close_fails := close_fails w |}) c)
    end.

Definition writer_drain : M unit :=
  fun c =>
    match writer c with
    | None => (Py.Raise Py.AttributeError, c)
    | Some w => if drain_fails w then (Py.Raise Py.OSError, c) else (Py.Ok tt, c)
    end.

(** [self._response_handlers[invoke_id].append(handler)] on a
    [defaultdict(list)]. *)
Definition register_handler (invoke_id : Z) (h : handler) : M unit :=
  modify (fun c =>
    set__response_handlers
      (<[invoke_id := default [] (_response_handlers c !! invoke_id) ++ [h]]>
         (_response_handlers c)) c).

Definition send (items : list request) (ads_error : Z) (port : option Z)
  (response_handler : option handler) : M Z :=
  let* c := get in
  let* wire := request_to_wire items ads_error (port_or port (their_port c)) in
  let* _ := match response_handler with
            | Some h => register_handler (fst wire) h
            | None => ret tt
            end in
  let* _ := writer_write (snd wire) in
  let* _ := writer_drain in
  ret (fst wire).

(** *** [Notification] *)

(** Modelled from the spec: the base class [utils.CallbackHandler], which is
    not part of the sources at hand.  It keeps the registered callbacks
    under integer tokens: [add_callback] registers and returns a fresh
    token, [remove_callback] deregisters by token and ignores an unknown
    one, [process] submits every registered callback to the dispatcher. *)
Definition CallbackHandler_init (notification_id : Z) (handle : option Z)
  (command : request) (port : option Z) : Notification :=
  {| notification_id := notification_id; handle := handle;
     callbacks := []; _callback_id := O;
     command := command; port := port;
     most_recent_notification := None;
     needs_reactivation := None |}.

(** Modelled from the spec: [utils.CallbackHandler.add_callback]. *)
Definition CallbackHandler_add_callback (f : func) (self : Notification)
  : nat * Notification :=
  (_callback_id self,
   set_callbacks (callbacks self ++ [(_callback_id self, f)])
     (S (_callback_id self)) self).

(** Modelled from the spec: [utils.CallbackHandler.remove_callback]. *)
Definition CallbackHandler_remove_callback (token : nat) (self : Notification)
  : Notification :=
  set_callbacks
    (List.filter (fun cb => negb (Nat.eqb (fst cb) token)) (callbacks self))
    (_callback_id self) self.

(** [user_callback_executor.submit(...)]. *)
Definition submit (j : job) : M unit :=
  modify (fun c => set_user_callback_executor (user_callback_executor c ++ [j]) c).

(** Modelled from the spec: [utils.CallbackHandler.process]. *)
Definition CallbackHandler_process (sub : ref) (self : Notification)
  (kwargs : notification_dict) : M unit :=
  for_each (callbacks self) (fun cb => submit (call (snd cb) sub kwargs)).

(** [not self.callbacks]. *)
Definition no_callbacks (self : Notification) : bool :=
  match callbacks self with
  | [] => true
  | _ => false
  end.

(** [Notification.__init__]: the base class is given
    [notification_id=0, handle=None]. *)
Definition Notification_init (command : request) (port : option Z) : Notification :=
  set_most_recent_notification None (CallbackHandler_init 0 None command port).

(** [AsyncioClient.add_notification_by_index]: a new [Notification] around
    the command built by the protocol layer. *)
Definition add_notification_by_index
  (index_group index_offset length mode max_delay cycle_time : Z)
  (port : option Z) : M ref :=
  fun c =>
    (Py.Ok (List.length (notification_store c)),
     set_notification_store
       (notification_store c ++
        [Notification_init
           (add_notification_by_index_request index_group index_offset length
              mode max_delay cycle_time) port]) c).

(** [Notification._response_handler]. *)
Definition Notification__response_handler (n : ref)
  (header : Structs.AoEHeader) (response : item) : M unit :=
  let* self := the_notification n in
  match item_result response with
  | Py.Raise e => raise e
  | Py.Ok result =>
      if result =? NOERR then
        match item_handle response with
        | Py.Raise e => raise e
        | Py.Ok h =>
            let* _ := put_notification n (set_handle (Some h) self) in
            let* _ := log_message "Notification initialized" in
            modify (fun c =>
              set_handle_to_notification (<[h := n]> (handle_to_notification c)) c)
        end
      else log_message "Notification failed to initialize"
  end.

(** [Notification.process]. *)
Definition process (n : ref) (header : Structs.AoEHeader) (timestamp : Z)
  (sample : list Z) : M unit :=
  let* _ := log_message "Notification update" in
  let notification :=
    {| nd_header := header; nd_timestamp := timestamp; nd_sample := sample |} in
  let* self := the_notification n in
  let* _ := CallbackHandler_process n self notification in
  let* self := the_notification n in
  put_notification n (set_most_recent_notification (Some notification) self).

(** [Notification._subscribe]: the coroutine function [subscribe] goes to
    the dispatcher. *)
Definition _subscribe (n : ref) : M unit := submit (subscribe n).

(** The body of the closure [subscribe]. *)
Definition subscribe_body (n : ref) : M unit :=
  let* self := the_notification n in
  let* _ := send [command self] NOERR (port self) (Some (_response_handler n)) in
  ret tt.

(** [self.owner.remove_notification(handle)]: [AsyncioClient] defines no
    method of this name, so the attribute lookup raises. *)
Definition owner_remove_notification (h : Z) : M unit :=
  raise Py.AttributeError.

(** [Notification._unsubscribe].  The second test reads [self.handle]
    again, after the assignment above it. *)
Definition _unsubscribe (n : ref) : M unit :=
  let* self := the_notification n in
  match handle self with
  | None => ret tt
  | Some h =>
      let* _ := put_notification n
                  (set_most_recent_notification None (set_handle None self)) in
      let* self := the_notification n in
      match handle self with
      | Some _ => owner_remove_notification h
      | None => ret tt
      end
  end.

(** [Notification.add_callback]. *)
Definition add_callback (n : ref) (f : func) : M nat :=
  let* self := the_notification n in
  let was_empty := no_callbacks self in
  let added := CallbackHandler_add_callback f self in
  let most_recent := most_recent_notification (snd added) in
  let* _ := put_notification n (snd added) in
  let* _ := if was_empty then _subscribe n
            else match most_recent with
                 | Some kwargs => submit (call f n kwargs)
                 | None => ret tt
                 end in
  ret (fst added).

(** [Notification.remove_callback].  [callback_lock] is taken again inside
    [_unsubscribe]; the run is single-threaded and the lock reentrant, so
    it does not show here. *)
Definition remove_callback (n : ref) (token : nat) : M unit :=
  let* self := the_notification n in
  let* _ := put_notification n (CallbackHandler_remove_callback token self) in
  let* self := the_notification n in
  if no_callbacks self then
    let* _ := _unsubscribe n in
    let* self := the_notification n in
    put_notification n
      (set_needs_reactivation (Some false)
         (set_most_recent_notification None self))
  else ret tt.

(** *** [_BlockingRequest] *)

Definition _BlockingRequest_init (request : request) (port : option Z) : _BlockingRequest :=
  {| req_request := request; req_options_port := port; req__event := false;
     req_header := None; req_response := None |}.

(** [_BlockingRequest.got_response]. *)
Definition _BlockingRequest_got_response (r : ref)
  (header : Structs.AoEHeader) (response : item) : M unit :=
  let* req := the_request r in
  put_request r
    {| req_request := req_request req;
       req_options_port := req_options_port req;
       req__event := true;
       req_header := Some header;
       req_response := Some response |}.

(** Python values as far as [write_and_read] tells them apart. *)
Inductive pyobj : Type :=
| PyNone
| PyInteger (z : Z)
| PyItem (it : item)
| PyHeader (h : Structs.AoEHeader)
| PyRequest (r : request)
| PyObject (what : string).

Definition of_option {A} (inj : A -> pyobj) (o : option A) : pyobj :=
  match o with
  | Some a => inj a
  | None => PyNone
  end.

(** [getattr(req, name, default)] on a [_BlockingRequest]: the instance
    attributes are the six that [__init__] assigns, the class adds its
    methods; the annotations in the class body create nothing. *)
Definition _BlockingRequest_getattr (req : _BlockingRequest) (name : string)
  (default : pyobj) : pyobj :=
  if String.eqb name "owner" then PyObject "AsyncioClient"
  else if String.eqb name "request" then PyRequest (req_request req)
  else if String.eqb name "options" then PyObject "dict"
  else if String.eqb name "_event" then PyObject "asyncio.Event"
  else if String.eqb name "header" then of_option PyHeader (req_header req)
  else if String.eqb name "response" then of_option PyItem (req_response req)
  else if String.eqb name "got_response" then PyObject "method"
  else if String.eqb name "wait" then PyObject "method"
  else if String.eqb name "__aenter__" then PyObject "method"
  else if String.eqb name "__aexit__" then PyObject "method"
  else default.

(** [result is not None and result != constants.AdsError.NOERR]. *)
Definition is_failure (result : pyobj) : bool :=
  match result with
  | PyNone => false
  | PyInteger z => negb (z =? NOERR)
  | _ => true
  end.

(** *** Inbound dispatch: [AsyncioClient._handle_command] *)

Definition call_handler (h : handler) (header : Structs.AoEHeader) (it : item) : M unit :=
  match h with
  | got_response r => _BlockingRequest_got_response r header it
  | _response_handler n => Notification__response_handler n header it
  end.

(** [client_handle_command] is how [self.client.handle_command(header,
    item)] of the protocol layer ends: it returns, raises
    [MissingHandlerError], or raises something else.  The list of handlers
    is read before that call and is the list object of the table itself;
    neither handler of this file touches the table.  What the protocol
    layer does with a pushed sample, [Notification.process], is the action
    [do_process] below. *)
Definition _handle_command (client_handle_command : Py.result unit)
  (header : Structs.AoEHeader) (it : item) : M unit :=
  let* c := get in
  let invoke_id_handlers :=
    default [] (_response_handlers c !! Structs.invoke_id header) in
  let* _ :=
    match client_handle_command with
    | Py.Ok _ => ret tt
    | Py.Raise Py.MissingHandlerError =>
        match invoke_id_handlers with
        | [] => log_message "No registered handler"
        | _ => ret tt
        end
    | Py.Raise _ => log_message "handle_command failed with unknown error"
    end in
  for_each invoke_id_handlers (fun h =>
    try_except (call_handler h header it) is_Exception
      (fun _ => log_message "handle_command failed with unknown error")).

(** The loop that ends [_handle_command], on its own: every handler of the
    list is awaited once, in the order of the list, and an exception it
    raises is logged. *)
Definition run_handlers (hs : list handler) (header : Structs.AoEHeader) (it : item)
  : M unit :=
  for_each hs (fun h =>
    try_except (call_handler h header it) is_Exception
      (fun _ => log_message "handle_command failed with unknown error")).

(** What [_handle_command] logs before that loop, given how the protocol
    layer's [handle_command] ended and the handlers found. *)
Definition handle_command_log (client_handle_command : Py.result unit)
  (hs : list handler) : list string :=
  match client_handle_command with
  | Py.Ok _ => []
  | Py.Raise Py.MissingHandlerError =>
      match hs with
      | [] => ["No registered handler"%string]
      | _ => []
      end
  | Py.Raise _ => ["handle_command failed with unknown error"%string]
  end.

(** *** [AsyncioClient.write_and_read]

    The coroutine suspends once, in [req.wait()].  [write_and_read_enter]
    is the part before: the request object is made and [__aenter__] sends
    it with [got_response] as the handler.  [write_and_read_resume] is the
    part after, run once the event is set. *)
Definition write_and_read_enter (it : request) (port : option Z) : M ref :=
  let* c := get in
  let r := List.length (request_store c) in
  let* _ := modify (set_request_store
                      (request_store c ++ [_BlockingRequest_init it port])) in
  let* _ := send [it] NOERR port (Some (got_response r)) in
  ret r.

Inductive progress (A : Type) : Type :=
| Suspended
| Done (outcome : Py.result A) (c : AsyncioClient).
Arguments Suspended {A}.
Arguments Done {A} outcome c.

Definition write_and_read_resume (r : ref) (c : AsyncioClient) : progress (option item) :=
  match request_store c !! r with
  | None => Done (Py.Raise Py.OtherException) c
  | Some req =>
      if req__event req then
        let result := _BlockingRequest_getattr req "result" PyNone in
        if is_failure result then Done (Py.Raise Py.FailureResponse) c
        else Done (Py.Ok (req_response req)) c
      else Suspended
  end.

(** *** Symbols *)

(** [Symbol.__init__] as [get_symbol_by_name] calls it. *)
Definition Symbol_init (name : string) : Symbol :=
  {| sym_name := Some name; sym_index_group := None; sym_index_offset := None;
     sym_info := None; sym_handle := None; sym_string_encoding := "utf-8" |}.

(** [d[key]], [None] standing for [KeyError]. *)
Fixpoint dict_get {V} (d : list (string * V)) (key : string) : option V :=
  match d with
  | [] => None
  | (k, v) :: rest => if String.eqb k key then Some v else dict_get rest key
  end.

(** [AsyncioClient.get_symbol_by_name]. *)
Definition get_symbol_by_name (name : string) : M ref :=
  fun c =>
    match dict_get (_symbols c) name with
    | Some sym => (Py.Ok sym, c)
    | None =>
        let sym := List.length (symbol_store c) in
        (Py.Ok sym,
         set__symbols (_symbols c ++ [(name, sym)])
           (set_symbol_store (symbol_store c ++ [Symbol_init name]) c))
    end.

(** [AsyncioClient.release_handle]. *)
Definition release_handle (h : Z) : M unit :=
  let* _ := send [release_handle_request h] NOERR None None in
  ret tt.

(** [Symbol.release]. *)
Definition Symbol_release (s : ref) : M unit :=
  let* sym := the_symbol s in
  match sym_handle sym with
  | Some h =>
      let* _ := release_handle h in
      let* sym := the_symbol s in
      put_symbol s (set_sym_handle None sym)
  | None => ret tt
  end.

(** [self.writer.close()]. *)
Definition writer_close : M unit :=
  fun c =>
    match writer c with
    | None => (Py.Raise Py.AttributeError, c)
    | Some w =>
        if close_fails w then (Py.Raise Py.OSError, c)
        else (Py.Ok tt,
              set_writer (Some {| written := written w; closed := true;
                                  drain_fails := drain_fails w;
                                  close_fails := close_fails w |}) c)
    end.

(** The first three statements of [close]: no more reconnecting, every
    cached symbol released, the cache cleared. *)
Definition close_symbols : M unit :=
  let* _ := modify (set_reconnect_rate None) in
  let* c := get in
  let* _ := for_each (map snd (_symbols c)) Symbol_release in
  modify (set__symbols []).

(** [AsyncioClient.close]. *)
Definition close : M unit :=
  let* _ := close_symbols in
  try_except writer_close is_OSError (fun _ => log_message "Error closing writer").

(** *** The callback dispatcher *)

(** Modelled from the spec: [utils.CallbackExecutor], which is not part of
    the sources at hand, runs what was submitted, in order and isolated:
    an exception inside a job does not reach the caller.  A user callback
    is foreign code and leaves the client alone. *)
Definition run_job (j : job) : M unit :=
  match j with
  | subscribe n =>
      try_except (subscribe_body n) is_Exception
        (fun _ => log_message "callback failed")
  | call _ _ _ => ret tt
  end.

Definition run_next_job : M unit :=
  let* c := get in
  match user_callback_executor c with
  | [] => ret tt
  | j :: rest =>
      let* _ := modify (set_user_callback_executor rest) in
      run_job j
  end.

(** *** What can happen to a client, one step at a time *)

Inductive action : Type :=
| do_add_notification_by_index
    (index_group index_offset length mode max_delay cycle_time : Z) (port : option Z)
| do_add_callback (n : ref) (f : func)
| do_remove_callback (n : ref) (token : nat)
| do_process (n : ref) (header : Structs.AoEHeader) (timestamp : Z) (sample : list Z)
| do_run_next_job
| do_frame (client_handle_command : Py.result unit)
    (header : Structs.AoEHeader) (it : item)
| do_get_symbol_by_name (name : string)
| do_write_and_read_enter (it : request) (port : option Z).

Definition perform (a : action) (c : AsyncioClient) : AsyncioClient :=
  match a with
  | do_add_notification_by_index g o l m d t p =>
      snd (add_notification_by_index g o l m d t p c)
  | do_add_callback n f => snd (add_callback n f c)
  | do_remove_callback n token => snd (remove_callback n token c)
  | do_process n header timestamp sample => snd (process n header timestamp sample c)
  | do_run_next_job => snd (run_next_job c)
  | do_frame hc header it => snd (_handle_command hc header it c)
  | do_get_symbol_by_name name => snd (get_symbol_by_name name c)
  | do_write_and_read_enter it port => snd (write_and_read_enter it port c)
  end.

Definition perform_all (acts : list action) (c : AsyncioClient) : AsyncioClient :=
  fold_left (fun c a => perform a c) acts c.

(** Whether the list holds the response handler of notification [n]. *)
Definition has_response_handler (n : ref) (hs : list handler) : bool :=
  existsb (fun h => match h with
                    | _response_handler m => Nat.eqb m n
                    | got_response _ => false
                    end) hs.

(** The action is a frame that confirms the subscription of [n]: its
    result is no error and the response handler of [n] is registered for
    its invocation id. *)
Definition confirms (n : ref) (a : action) (c : AsyncioClient) : bool :=
  match a with
  | do_frame _ header it =>
      match item_result it with
      | Py.Ok r => r =? NOERR
      | Py.Raise _ => false
      end
      && has_response_handler n
           (default [] (_response_handlers c !! Structs.invoke_id header))
  | _ => false
  end.

(** No action of the run confirms the subscription of [n]. *)
Fixpoint unconfirmed (n : ref) (acts : list action) (c : AsyncioClient) : bool :=
  match acts with
  | [] => true
  | a :: rest => negb (confirms n a c) && unconfirmed n rest (perform a c)
  end.

(** What a test reads off the store. *)
Definition handle_of (n : ref) (c : AsyncioClient) : option (option Z) :=
  handle <$> notification_store c !! n.

Definition most_recent_of (n : ref) (c : AsyncioClient) : option (option notification_dict) :=
  most_recent_notification <$> notification_store c !! n.

Definition frames_written (c : AsyncioClient) : list frame :=
  match writer c with
  | Some w => written w
  | None => []
  end.

(** The frames that carry a remove-notification command. *)
Definition is_remove_notification (f : frame) : bool :=
  existsb (fun r => match r with remove_notification_request _ => true | _ => false end)
    (fr_items f).

(** A header of an inbound response with a given invocation id. *)
Definition response_header (invoke_id : Z) : Structs.AoEHeader :=
  {| Structs.target := {| Structs.net_id := {| Structs.octets := [0;0;0;0;0;0] |}; Structs._port := 0 |};
     Structs.source := {| Structs.net_id := {| Structs.octets := [0;0;0;0;0;0] |}; Structs._port := 0 |};
     Structs._command_id := 0; Structs._state_flags := 5; Structs.aoe_length := 0;
     Structs.error_code := 0; Structs.invoke_id := invoke_id |}.

(** A connected client: [__init__], then one successful connection. *)
Definition fresh_writer : StreamWriter :=
  {| written := []; closed := false; drain_fails := false; close_fails := false |}.

Definition connected_client : AsyncioClient :=
  snd (_connect_attempt (Py.Ok fresh_writer) (__init__ 851 (Some 10))).

(** The client once the answer to a [write_and_read] has been dispatched:
    the request is sent, then a frame with its invocation id arrives. *)
Definition write_and_read_answered (it : request) (port : option Z)
  (client_handle_command : Py.result unit) (response : item)
  (c : AsyncioClient) : AsyncioClient :=
  snd (_handle_command client_handle_command (response_header (next_invoke_id c))
         response (snd (write_and_read_enter it port c))).

(** The client right after [add_notification_by_index]. *)
Definition after_add_notification_by_index
  (index_group index_offset length mode max_delay cycle_time : Z)
  (port : option Z) (c : AsyncioClient) : AsyncioClient :=
  snd (add_notification_by_index index_group index_offset length mode max_delay
         cycle_time port c).

(** Every cached symbol is in the store. *)
Definition symbols_wf (c : AsyncioClient) : Prop :=
  forall s, In s (map snd (_symbols c)) -> is_Some (symbol_store c !! s).

(** A client whose connection attempts all failed so far, and on which
    some symbols were looked up. *)
Definition never_connected (server_port : Z) (reconnect : option Z)
  (failures : nat) (names : list string) : AsyncioClient :=
  fold_left (fun c name => snd (get_symbol_by_name name c)) names
    (Nat.iter failures (fun c => snd (_connect_attempt (Py.Raise Py.OSError) c))
       (__init__ server_port reconnect)).

(** The symbol at [s] holds no server handle. *)
Definition released (s : ref) (c : AsyncioClient) : Prop :=
  exists sym, symbol_store c !! s = Some sym /\ sym_handle sym = None.

End Client.

(** ** Reasoning about coroutines *)

Module Logic.

Import Client.

(** From a client that satisfies [P], [m] either returns [a] and leaves a
    client with [Q a], or raises [e] and leaves one with [E e]. *)
Definition triple {A} (P : AsyncioClient -> Prop) (m : M A)
  (Q : A -> AsyncioClient -> Prop) (E : Py.exn -> AsyncioClient -> Prop) : Prop :=
  forall c, P c ->
    match m c with
    | (Py.Ok a, c') => Q a c'
    | (Py.Raise e, c') => E e c'
    end.

(** [m] keeps [P], whether it returns or raises. *)
Definition preserves {A} (P : AsyncioClient -> Prop) (m : M A) : Prop :=
  triple P m (fun _ => P) (fun _ => P).

(** [m] returns, and never raises. *)
Definition returns {A} (m : M A) : Prop :=
  forall c, exists a, fst (m c) = Py.Ok a.

(** [P] does not look at what [set] changes. *)
Definition stable {V} (set : V -> AsyncioClient -> AsyncioClient)
  (P : AsyncioClient -> Prop) : Prop :=
  forall v c, P c -> P (set v c).

(** The notification [remove_callback] leaves behind. *)
Definition after_remove_callback (token : nat) (self : Notification) : Notification :=
  let removed := CallbackHandler_remove_callback token self in
  if no_callbacks removed then
    set_needs_reactivation (Some false)
      (set_most_recent_notification None (set_handle None removed))
  else removed.

End Logic.

(** ** A session used as running example *)

Module Scenario.

Import Client.

(** [add_notification_by_index(index_group=1, index_offset=65535,
    length=255)] on a connected client, the other arguments at their
    defaults but for the port ([enable_log_system] passes the logger's). *)
Definition created : AsyncioClient :=
  snd (add_notification_by_index 1 65535 255 3 1 100 (Some 100) connected_client).

(** The first callback is added ... *)
Definition with_callback : AsyncioClient := snd (add_callback 0%nat 7%nat created).

(** ... the dispatcher runs the subscribe job ... *)
Definition subscribe_sent : AsyncioClient := snd (run_next_job with_callback).

(** ... the server confirms with handle 42 ... *)
Definition confirmed : AsyncioClient :=
  snd (_handle_command (Py.Raise Py.MissingHandlerError) (response_header 0)
         (AoENotificationHandleResponse NOERR 42) subscribe_sent).

(** ... and pushes a first sample. *)
Definition sampled : AsyncioClient :=
  snd (process 0%nat (response_header 0) 1000 [1; 2; 3] confirmed).

(** A device-info request in flight. *)
Definition requested : AsyncioClient :=
  snd (write_and_read_enter get_device_information_request None connected_client).

(** Its answer arrives with a result code that is not no error. *)
Definition answered_with_error : AsyncioClient :=
  snd (_handle_command (Py.Ok tt) (response_header 0) (AoEResponseHeader 1798) requested).

(** A second frame carries the same invocation id. *)
Definition answered_again : AsyncioClient :=
  snd (_handle_command (Py.Ok tt) (response_header 0) (AoEResponseHeader 0)
         answered_with_error).

(** Two symbols looked up and resolved: [initialize] stored their handles. *)
Definition two_symbols : AsyncioClient :=
  let c1 := snd (get_symbol_by_name "MAIN.a" connected_client) in
  let c2 := snd (get_symbol_by_name "MAIN.b" c1) in
  let c3 := snd (put_symbol 0%nat (set_sym_handle (Some 11) (Symbol_init "MAIN.a")) c2) in
  snd (put_symbol 1%nat (set_sym_handle (Some 12) (Symbol_init "MAIN.b")) c3).

End Scenario.

(** ** Strings that name a net id *)

Module NetIdString.

Definition is_digit (c : ascii) : bool :=
  match Py.digit_val c with
  | Some _ => true
  | None => false
  end.

Definition digits_value (l : list ascii) : Z :=
  fold_left (fun acc c => 10 * acc + (Z.of_nat (nat_of_ascii c) - 48)) l 0.

(** One octet written the way [str] writes it: decimal digits only, no
    sign, blank or underscore, no leading zero, at most 255. *)
Definition canonical_octet (p : string) : bool :=
  match list_ascii_of_string p with
  | [] => false
  | [d] => is_digit d
  | d :: rest =>
      is_digit d && negb (Ascii.eqb d "0"%char) && forallb is_digit rest
      && (digits_value (d :: rest) <=? 255)
  end.

(** A valid 6-part dotted string: six such octets separated by dots. *)
Definition valid (s : string) : bool :=
  (List.length (Py.split "." s) =? 6)%nat
  && forallb canonical_octet (Py.split "." s).

(** What makes a part with exactly the given characters acceptable to the
    round trip: [int] reads an octet and [str] writes the part back. *)
Definition round_trips (p : string) : bool :=
  match Py.int p with
  | Py.Ok n => (0 <=? n) && (n <=? 255) && String.eqb (Py.str n) p
  | Py.Raise _ => false
  end.

Definition digit_chars : list ascii :=
  ["0"; "1"; "2"; "3"; "4"; "5"; "6"; "7"; "8"; "9"]%char.

(** Every string of one, two or three digits. *)
Definition short_parts : list string :=
  map (fun a => String a EmptyString) digit_chars
  ++ flat_map (fun a => map (fun b => String a (String b EmptyString)) digit_chars) digit_chars
  ++ flat_map (fun a => flat_map (fun b =>
       map (fun c => String a (String b (String c EmptyString))) digit_chars)
       digit_chars) digit_chars.

End NetIdString.

(** ** Sample values *)

Module Samples.

Import Structs.

Definition example_AoEHeader : AoEHeader :=
  {| target := {| net_id := {| octets := [172; 21; 148; 227; 1; 1] |}; _port := 851 |};
     source := {| net_id := {| octets := [172; 21; 148; 164; 1; 1] |}; _port := 65535 |};
     _command_id := 2; _state_flags := 4; aoe_length := 12; error_code := 0;
     invoke_id := 258 |}.

End Samples.

(** ** structs.py: the other records and constructors *)

Module Records.

Import Structs.

(** *** The registry of command structures *)

(** [_use_for(key, command_id, cls)]: [_commands[command_id][key] = cls],
    the inner dictionary made on first use.  Classes are known by name. *)
Definition _use_for (key : string) (command_id : Z) (cls : string)
  (_commands : gmap Z (gmap string string)) : gmap Z (gmap string string) :=
  <[command_id := <[key := cls]> (default ∅ (_commands !! command_id))]> _commands.

Definition use_for_response (command_id : Z) (cls : string)
  (_commands : gmap Z (gmap string string)) : gmap Z (gmap string string) :=
  _use_for "response" command_id cls _commands.

Definition use_for_request (command_id : Z) (cls : string)
  (_commands : gmap Z (gmap string string)) : gmap Z (gmap string string) :=
  _use_for "request" command_id cls _commands.

(** [get_struct_by_command(command_id, request)]: both subscripts raise
    [KeyError] on a missing key. *)
Definition get_struct_by_command (command_id : Z) (request : bool)
  (_commands : gmap Z (gmap string string)) : Py.result string :=
  let key := if request then "request"%string else "response"%string in
  match _commands !! command_id with
  | None => Py.Raise Py.KeyError
  | Some by_key =>
      match by_key !! key with
      | None => Py.Raise Py.KeyError
      | Some cls => Py.Ok cls
      end
  end.

(** The registry once the module is loaded: the three decorated classes,
    in file order.  The command ids are members of
    [constants.AdsCommandId]. *)
Definition _commands_loaded (READ_DEVICE_INFO READ_WRITE READ_STATE : Z)
  : gmap Z (gmap string string) :=
  use_for_response READ_STATE "AdsReadStateResponse"
    (use_for_request READ_WRITE "AdsReadWriteRequest"
       (use_for_response READ_DEVICE_INFO "AdsDeviceInfo" ∅)).

(** *** Field lists *)

(** A class that derives from a record lists only its own fields; ctypes
    lays them out after the fields of the base. *)
Definition derived (base own : list (string * Ctypes.ctype)) : list (string * Ctypes.ctype) :=
  base ++ own.

Definition AdsVersion_fields : list (string * Ctypes.ctype) :=
  [("version"%string, Ctypes.c_uint8); ("revision"%string, Ctypes.c_uint8);
   ("build"%string, Ctypes.c_uint16)].

Definition AdsDeviceInfo_fields : list (string * Ctypes.ctype) :=
  derived AdsVersion_fields [("_name"%string, Ctypes.c_array Ctypes.c_char 16)].

Definition AdsReadWriteRequest_fields : list (string * Ctypes.ctype) :=
  [("_index_group"%string, Ctypes.c_uint32); ("index_offset"%string, Ctypes.c_uint32);
   ("read_length"%string, Ctypes.c_uint32); ("write_length"%string, Ctypes.c_uint32);
   ("_data_start"%string, Ctypes.c_array Ctypes.c_ubyte 0)].

Definition AoERequestHeader_fields : list (string * Ctypes.ctype) :=
  [("group"%string, Ctypes.c_uint32); ("offset"%string, Ctypes.c_uint32);
   ("length"%string, Ctypes.c_uint32)].

Definition AoEWriteRequestHeader_fields : list (string * Ctypes.ctype) :=
  derived AoERequestHeader_fields [("write_length"%string, Ctypes.c_uint32)].

Definition AoEResponseHeader_fields : list (string * Ctypes.ctype) :=
  [("result"%string, Ctypes.c_uint32)].

Definition AoEReadResponseHeader_fields : list (string * Ctypes.ctype) :=
  derived AoEResponseHeader_fields [("read_length"%string, Ctypes.c_uint32)].

Definition AdsSymbolEntry_fields : list (string * Ctypes.ctype) :=
  [("entry_length"%string, Ctypes.c_uint32); ("_index_group"%string, Ctypes.c_uint32);
   ("index_offset"%string, Ctypes.c_uint32); ("size"%string, Ctypes.c_uint32);
   ("_data_type"%string, Ctypes.c_uint32); ("_flags"%string, Ctypes.c_uint32);
   ("name_length"%string, Ctypes.c_uint16); ("type_length"%string, Ctypes.c_uint16);
   ("comment_length"%string, Ctypes.c_uint16)].

Definition AdsNotificationHeader_fields : list (string * Ctypes.ctype) :=
  [("notification_handle"%string, Ctypes.c_uint32);
   ("timestamp"%string, Ctypes.c_uint64); ("sample_size"%string, Ctypes.c_uint32)].

(** The bytes all fields of a list take together. *)
Definition fields_size (fields : list (string * Ctypes.ctype)) : nat :=
  list_sum (map (fun f => Ctypes.sizeof (snd f)) fields).

(** *** Decoding the two headers *)

(** [cls.from_buffer(buf)]: [ValueError] when the buffer is smaller than
    the record; a larger one is fine, the record is its prefix. *)
Definition from_buffer (t : Ctypes.ctype) (buf : Ctypes.buffer) : Py.result Ctypes.buffer :=
  if (List.length buf <? Ctypes.sizeof t)%nat then Py.Raise Py.ValueError
  else Py.Ok (firstn (Ctypes.sizeof t) buf).

Definition AmsTcpHeader_from_buffer (buf : Ctypes.buffer) : Py.result AmsTcpHeader :=
  Py.bind (from_buffer AmsTcpHeader_t buf) (fun b =>
    Py.Ok {| reserved := Ctypes.le_value (get_field AmsTcpHeader_t "reserved" b);
             tcp_length := Ctypes.le_value (get_field AmsTcpHeader_t "length" b) |}).

Definition AoEHeader_from_buffer (buf : Ctypes.buffer) : Py.result AoEHeader :=
  Py.bind (from_buffer AoEHeader_t buf) (fun b =>
    Py.Ok {| target := AmsAddr_from_buffer (get_field AoEHeader_t "target" b);
             source := AmsAddr_from_buffer (get_field AoEHeader_t "source" b);
             _command_id := Ctypes.le_value (get_field AoEHeader_t "_command_id" b);
             _state_flags := Ctypes.le_value (get_field AoEHeader_t "_state_flags" b);
             aoe_length := Ctypes.le_value (get_field AoEHeader_t "length" b);
             error_code := Ctypes.le_value (get_field AoEHeader_t "error_code" b);
             invoke_id := Ctypes.le_value (get_field AoEHeader_t "invoke_id" b) |}).

(** Every element is a byte. *)
Definition is_bytes (buf : Ctypes.buffer) : Prop := Forall (in_range 1) buf.

(** *** [AoERequestHeader.from_sdo] *)

Record AoERequestHeader : Type := { group : Z; offset : Z; length : Z }.

(** [cls(constants.SDO_UPLOAD, (sdo_index) << 16 | sdo_sub_index,
    data_length)]: the shift binds tighter than the or; each argument is
    stored in a [c_uint32]. *)
Definition from_sdo (SDO_UPLOAD sdo_index sdo_sub_index data_length : Z) : AoERequestHeader :=
  {| group := Ctypes.wrap 4 SDO_UPLOAD;
     offset := Ctypes.wrap 4 (Z.lor (Z.shiftl sdo_index 16) sdo_sub_index);
     length := Ctypes.wrap 4 data_length |}.

(** *** [AdsReadWriteRequest.from_buffer_extended] *)

Record AdsReadWriteRequest : Type := {
  rw__index_group : Z;
  rw_index_offset : Z;
  rw_read_length : Z;
  rw_write_length : Z;
  rw_data : option (list Z)
}.

Definition AdsReadWriteRequest_t : Ctypes.ctype :=
  Ctypes.c_struct _pack_ AdsReadWriteRequest_fields.

(** The sixteen bytes of the fixed part. *)
Definition AdsReadWriteRequest_bytes (r : AdsReadWriteRequest) : Ctypes.buffer :=
  put_field AdsReadWriteRequest_t "write_length" (Ctypes.le_bytes 4 (rw_write_length r))
    (put_field AdsReadWriteRequest_t "read_length" (Ctypes.le_bytes 4 (rw_read_length r))
       (put_field AdsReadWriteRequest_t "index_offset" (Ctypes.le_bytes 4 (rw_index_offset r))
          (put_field AdsReadWriteRequest_t "_index_group"
             (Ctypes.le_bytes 4 (rw__index_group r))
             (Ctypes.new_buffer AdsReadWriteRequest_t)))).

(** [buf[start:stop]] of Python: out-of-range bounds are clipped. *)
Definition slice (start stop : nat) (buf : list Z) : list Z :=
  firstn (stop - start) (skipn start buf).

(** [from_buffer_extended(buf)]: the fixed part is read in place, the data
    are the [write_length] bytes that follow the offset of [_data_start]. *)
Definition from_buffer_extended (buf : Ctypes.buffer) : Py.result AdsReadWriteRequest :=
  Py.bind (from_buffer AdsReadWriteRequest_t buf) (fun b =>
    let write_length :=
      Ctypes.le_value (get_field AdsReadWriteRequest_t "write_length" b) in
    match Ctypes.offsetof (Ctypes.struct_layout AdsReadWriteRequest_t) "_data_start" with
    | None => Py.Raise Py.AttributeError
    | Some (data_start, _) =>
        Py.Ok {| rw__index_group :=
                   Ctypes.le_value (get_field AdsReadWriteRequest_t "_index_group" b);
                 rw_index_offset :=
                   Ctypes.le_value (get_field AdsReadWriteRequest_t "index_offset" b);
                 rw_read_length :=
                   Ctypes.le_value (get_field AdsReadWriteRequest_t "read_length" b);
                 rw_write_length := write_length;
                 rw_data :=
                   Some (slice data_start (data_start + Z.to_nat write_length) buf) |}
    end).

Definition valid_AdsReadWriteRequest (r : AdsReadWriteRequest) : Prop :=
  in_range 4 (rw__index_group r) /\ in_range 4 (rw_index_offset r)
  /\ in_range 4 (rw_read_length r) /\ in_range 4 (rw_write_length r).

(** *** [AmsNetId.from_ipv4] *)

(** [ipaddress.IPv4Address._parse_octet] (Python 3.9.5 and later): ASCII
    digits only, at most three, no leading zero, at most 255; a failure is
    an [AddressValueError], a [ValueError]. *)
Definition _parse_octet (octet_str : string) : Py.result Z :=
  let chars := list_ascii_of_string octet_str in
  match chars with
  | [] => Py.Raise Py.ValueError
  | first :: _ =>
      if negb (forallb NetIdString.is_digit chars) then Py.Raise Py.ValueError
      else if (3 <? List.length chars)%nat then Py.Raise Py.ValueError
      else if negb (String.eqb octet_str "0") && Ascii.eqb first "0"%char
           then Py.Raise Py.ValueError
      else Py.bind (Py.int octet_str) (fun octet_int =>
             if 255 <? octet_int then Py.Raise Py.ValueError else Py.Ok octet_int)
  end.

(** [ipaddress.IPv4Address(ip).packed] for a string: four octets. *)
Definition IPv4Address_packed (ip : string) : Py.result (list Z) :=
  let octets := Py.split "." ip in
  if negb (List.length octets =? 4)%nat then Py.Raise Py.ValueError
  else Py.map_result _parse_octet octets.

(** [from_ipv4(ip, octet5, octet6)] for [ip] given as a string. *)
Definition from_ipv4 (ip : string) (octet5 octet6 : Z) : Py.result AmsNetId :=
  Py.bind (IPv4Address_packed ip) (fun packed =>
    AmsNetId_new (packed ++ [octet5; octet6])).

(** *** [_create_enum_property] for any enum class *)

(** The two closures of [_create_enum_property] with the class given as the
    callable it is: [enum_cls(value)] returns a member, possibly one made
    for a combination of flags, or raises.  [Structs.fget] and
    [Structs.fset] are these for a class whose values are its named
    members. *)
Definition fget_of (enum_cls : pyval -> Py.result pyval) (strict : bool) (value : Z)
  : Py.result pyval :=
  match enum_cls (PyInt value) with
  | Py.Ok e => Py.Ok e
  | Py.Raise Py.ValueError =>
      if negb strict then Py.Ok (PyInt value) else Py.Raise Py.ValueError
  | Py.Raise e => Py.Raise e
  end.

Definition fset_of (enum_cls : pyval -> Py.result pyval) (strict : bool) (bytes : nat)
  (value : pyval) : Py.result Z :=
  Py.bind
    (if strict then Py.bind (enum_cls value) (fun e => Py.Ok (PyInt (pyval_int e)))
     else Py.Ok value)
    (fun v => Py.Ok (Ctypes.wrap bytes (pyval_int v))).

(** *** Notions used to state facts about net id strings *)

(** The separator does not occur in the part. *)
Definition no_sep (sep : ascii) (p : string) : bool :=
  forallb (fun c => negb (Ascii.eqb c sep)) (list_ascii_of_string p).

(** Every value a [c_uint8] holds. *)
Definition all_octets : list Z := map Z.of_nat (seq 0 256).

(** The net id string that names an IPv4 address and two more octets. *)
Definition dotted (ip : string) (octet5 octet6 : Z) : string :=
  (ip ++ "." ++ Py.str octet5 ++ "." ++ Py.str octet6)%string.

End Records.

(** ** client.py: the rest of the notification, symbol and session code *)

Module Session.

Import Client.

(** [Notification.clear]: [list(self.callbacks)] are the tokens registered
    when the loop starts; each is handed to [remove_callback]. *)
Definition clear (n : ref) : M unit :=
  let* self := the_notification n in
  for_each (map fst (callbacks self)) (remove_callback n).

(** [AsyncioClient.prune_unknown_notifications].  The attribute
    [unknown_notifications] of the protocol layer holds pairs of a source
    [(net_id, port)] and a handle. *)
Definition prune_unknown_notifications
  (unknown_notifications : list ((string * Z) * Z)) : M unit :=
  for_each unknown_notifications (fun entry =>
    let* _ := send [remove_notification_request (snd entry)] NOERR
                (Some (snd (fst entry))) None in
    ret tt).


(** [Symbol.initialize] up to its first suspension point, the wait inside
    [get_symbol_info_by_name]: the result is the request in flight. *)
Definition initialize_enter (s : ref) : M ref :=
  let* sym := the_symbol s in
  match sym_index_group sym, sym_index_offset sym with
  | Some _, Some _ => raise Py.NotImplementedError
  | _, _ =>
      match sym_name sym with
      | None => raise Py.ValueError
      | Some name => write_and_read_enter (get_symbol_info_by_name_request name) None
      end
  end.

(** [Symbol.read] up to its first suspension point.  [self.info.size] on
    a symbol without info is an attribute of [None]. *)
Definition read_enter (s : ref) : M ref :=
  let* sym := the_symbol s in
  match sym_handle sym with
  | None => initialize_enter s
  | Some h =>
      match sym_info sym with
      | None => raise Py.AttributeError
      | Some info =>
          write_and_read_enter (get_value_by_handle_request h (info_size info)) None
      end
  end.

(** [Symbol.initialize] after [get_symbol_info_by_name] has returned
    [info]: the three assignments before the handle is asked for.
    [self.info.index_group] is a strict enum property over
    [constants.AdsIndexGroup], whose members are the first argument: for a
    group without member it raises [ValueError], after the info was
    stored and before the index group is. *)
Definition initialize_store_info (AdsIndexGroup : list (string * Z)) (s : ref)
  (info : symbol_info) : M unit :=
  let* sym := the_symbol s in
  let* _ := put_symbol s
              {| sym_name := sym_name sym;
                 sym_index_group := sym_index_group sym;
                 sym_index_offset := sym_index_offset sym;
                 sym_info := Some info;
                 sym_handle := sym_handle sym;
                 sym_string_encoding := sym_string_encoding sym |} in
  match Structs.fget AdsIndexGroup true (info_index_group info) with
  | Py.Raise e => raise e
  | Py.Ok group =>
      let* sym := the_symbol s in
      put_symbol s
        {| sym_name := sym_name sym;
           sym_index_group := Some (Structs.pyval_int group);
           sym_index_offset := Some (info_index_offset info);
           sym_info := sym_info sym;
           sym_handle := sym_handle sym;
           sym_string_encoding := sym_string_encoding sym |}
  end.

(** The request for the handle that follows; a symbol that got here has a
    name. *)
Definition initialize_request_handle (s : ref) : M ref :=
  let* sym := the_symbol s in
  match sym_name sym with
  | Some name => write_and_read_enter (get_symbol_handle_by_name_request name) None
  | None => raise Py.OtherException
  end.

(** [self.handle = ...], the last statement of [initialize]. *)
Definition initialize_store_handle (s : ref) (h : Z) : M unit :=
  let* sym := the_symbol s in
  put_symbol s (set_sym_handle (Some h) sym).

(** The assignments of [initialize] from the answer to its first request
    on: the info, the index group and offset, then the handle; an
    exception on the way ends it there.  The two requests it waits for in
    between leave the symbols alone and are not repeated here. *)
Definition initialize_finish (AdsIndexGroup : list (string * Z)) (s : ref)
  (info : symbol_info) (h : Z) : M unit :=
  let* _ := initialize_store_info AdsIndexGroup s info in
  initialize_store_handle s h.

(** The client that [initialize] leaves behind, whether it returned or
    raised. *)
Definition initialized (AdsIndexGroup : list (string * Z)) (s : ref)
  (info : symbol_info) (h : Z) (c : AsyncioClient) : AsyncioClient :=
  snd (initialize_finish AdsIndexGroup s info h c).

(** A subscription given up before the dispatcher got to it: the
    notification is created, a first callback is added and removed again,
    and only then the subscribe job runs. *)
Definition removed_before_subscribe
  (index_group index_offset length mode max_delay cycle_time : Z)
  (port : option Z) (f : func) (c : AsyncioClient) : AsyncioClient :=
  let n := List.length (notification_store c) in
  snd (run_job (subscribe n)
         (snd (remove_callback n 0
                 (snd (add_callback n f
                         (after_add_notification_by_index index_group index_offset
                            length mode max_delay cycle_time port c)))))).

(** The callbacks of a notification, as a test reads them off the store. *)
Definition callbacks_of (n : ref) (c : AsyncioClient) : option (list (nat * func)) :=
  callbacks <$> notification_store c !! n.

(** Every token in use was handed out before: the next token is new. *)
Definition tokens_fresh (self : Notification) : Prop :=
  Forall (fun cb => (fst cb < _callback_id self)%nat) (callbacks self).


(** Every cached symbol is the one made for its name. *)
Definition symbols_named (c : AsyncioClient) : Prop :=
  forall (name : string) (s : ref),
    dict_get (_symbols c) name = Some s ->
    exists sym, symbol_store c !! s = Some sym /\ sym_name sym = Some name.

(** The frame [send] writes for [items] under invocation id [invoke_id]. *)
Definition sent_frame (invoke_id : Z) (items : list request) (port : option Z)
  (c : AsyncioClient) : frame :=
  {| fr_invoke_id := invoke_id; fr_items := items; fr_ads_error := NOERR;
     fr_port := port_or port (their_port c) |}.

(** The handlers registered under an invocation id. *)
Definition handlers_for (invoke_id : Z) (c : AsyncioClient) : list handler :=
  default [] (_response_handlers c !! invoke_id).

(** The notification once every token of the list was removed. *)
Definition after_clear (tokens : list nat) (self : Notification) : Notification :=
  fold_left (fun s token => Logic.after_remove_callback token s) tokens self.

(** The jobs [process] submits for one sample. *)
Definition fan_out (n : ref) (self : Notification) (kwargs : notification_dict) : list job :=
  map (fun cb => call (snd cb) n kwargs) (callbacks self).

End Session.

(** * Properties *)

(** ** The wire records *)

Section WireFacts.

Import Structs Ctypes NetIdString Samples.

Lemma split_nonempty (sep : ascii) (s : string) : Py.split sep s <> [].
Proof.
  destruct s as [|c rest]; simpl; [discriminate|].
  destruct (Ascii.eqb c sep); [discriminate|].
  destruct (Py.split sep rest); discriminate.
Qed.

Lemma join_cons (sep p : string) (ps : list string) :
  ps <> [] -> Py.join sep (p :: ps) = (p ++ sep ++ Py.join sep ps)%string.
Proof. destruct ps; [congruence|reflexivity]. Qed.

(** Splitting on a character and joining on it again gives the string back. *)
Lemma join_split (sep : ascii) (s : string) :
  Py.join (String sep EmptyString) (Py.split sep s) = s.
Proof.
  induction s as [|c rest IH]; simpl; [reflexivity|].
  destruct (Ascii.eqb c sep) eqn:E.
  - apply Ascii.eqb_eq in E; subst c.
    rewrite join_cons by apply split_nonempty.
    simpl. now rewrite IH.
  - pose proof (split_nonempty sep rest) as Hne.
    destruct (Py.split sep rest) as [|p ps]; [congruence|].
    destruct ps as [|q qs].
    + simpl in *. now rewrite IH.
    + change (Py.join (String sep EmptyString) (String c p :: q :: qs))
        with (String c (p ++ String sep EmptyString
                          ++ Py.join (String sep EmptyString) (q :: qs)))%string.
      f_equal. exact IH.
Qed.

Lemma is_digit_chars (c : ascii) : is_digit c = true -> In c digit_chars.
Proof.
  destruct c as [[] [] [] [] [] [] [] []]; vm_compute; intros H;
    try discriminate H; tauto.
Qed.

Lemma digits_value_mono (l : list ascii) (acc : Z) :
  forallb is_digit l = true -> 0 <= acc ->
  acc <= fold_left (fun a c => 10 * a + (Z.of_nat (nat_of_ascii c) - 48)) l acc.
Proof.
  revert acc. induction l as [|c l IH]; simpl; intros acc Hd Hacc; [lia|].
  apply andb_prop in Hd as [Hc Hl].
  assert (0 <= Z.of_nat (nat_of_ascii c) - 48 <= 9) as Hr.
  { unfold is_digit, Py.digit_val in Hc.
    destruct ((48 <=? Z.of_nat (nat_of_ascii c)) && (Z.of_nat (nat_of_ascii c) <=? 57)) eqn:E;
      [|discriminate].
    apply andb_prop in E as [E1 E2]. lia. }
  specialize (IH (10 * acc + (Z.of_nat (nat_of_ascii c) - 48)) Hl). lia.
Qed.

Lemma short_parts_round_trip :
  forallb (fun p => implb (canonical_octet p) (round_trips p)) short_parts = true.
Proof. vm_compute. reflexivity. Qed.

Lemma canonical_octet_short (p : string) :
  canonical_octet p = true -> In p short_parts.
Proof.
  unfold canonical_octet. intros H.
  destruct p as [|a [|b [|c [|d rest]]]]; simpl in H.
  - discriminate.
  - apply is_digit_chars in H. unfold short_parts. apply in_or_app. left.
    now apply (in_map (fun x => String x EmptyString)).
  - repeat (apply andb_prop in H as [H ?]).
    unfold short_parts. apply in_or_app. right. apply in_or_app. left.
    apply in_flat_map. exists a. split; [now apply is_digit_chars|].
    apply (in_map (fun x => String a (String x EmptyString))). apply is_digit_chars.
    match goal with X : (is_digit b && true)%bool = true |- _ =>
      now apply andb_prop in X as [X _] end.
  - repeat (apply andb_prop in H as [H ?]).
    unfold short_parts. apply in_or_app. right. apply in_or_app. right.
    match goal with X : (is_digit b && _)%bool = true |- _ =>
      apply andb_prop in X as [Xb X]; apply andb_prop in X as [Xc _] end.
    apply in_flat_map. exists a. split; [now apply is_digit_chars|].
    apply in_flat_map. exists b. split; [now apply is_digit_chars|].
    apply (in_map (fun x => String a (String b (String x EmptyString)))).
    now apply is_digit_chars.
  - exfalso.
    repeat (apply andb_prop in H as [H ?]).
    match goal with X : (is_digit b && _)%bool = true |- _ =>
      apply andb_prop in X as [Xb X]; apply andb_prop in X as [Xc X];
      apply andb_prop in X as [Xd Xr] end.
    match goal with X : (digits_value _ <=? 255) = true |- _ =>
      apply Z.leb_le in X; unfold digits_value in X; simpl in X; rename X into Hv end.
    assert (1 <= Z.of_nat (nat_of_ascii a) - 48) as Ha.
    { apply is_digit_chars in H.
      match goal with X : negb (Ascii.eqb a "0") = true |- _ => rename X into Hz end.
      simpl in H. destruct H as [<-|[<-|[<-|[<-|[<-|[<-|[<-|[<-|[<-|[<-|[]]]]]]]]]]];
        vm_compute in Hz; try discriminate Hz; vm_compute; congruence. }
    assert (forall x, is_digit x = true -> 0 <= Z.of_nat (nat_of_ascii x) - 48) as Hnn.
    { intros x Hx. unfold is_digit, Py.digit_val in Hx.
      destruct ((48 <=? Z.of_nat (nat_of_ascii x)) && (Z.of_nat (nat_of_ascii x) <=? 57)) eqn:E;
        [|discriminate].
      apply andb_prop in E as [E1 E2]. lia. }
    pose proof (Hnn b Xb). pose proof (Hnn c Xc). pose proof (Hnn d Xd).
    assert (0 <= 10 * (10 * (10 * (10 * 0 + (Z.of_nat (nat_of_ascii a) - 48))
         + (Z.of_nat (nat_of_ascii b) - 48)) + (Z.of_nat (nat_of_ascii c) - 48))
         + (Z.of_nat (nat_of_ascii d) - 48)) as Hacc by lia.
    pose proof (digits_value_mono (list_ascii_of_string rest) _ Xr Hacc).
    lia.
Qed.

(** A canonical octet is read by [int] as a number that [str] writes
    back character for character. *)
Lemma canonical_octet_round_trips (p : string) :
  canonical_octet p = true ->
  exists n, Py.int p = Py.Ok n /\ 0 <= n <= 255 /\ Py.str n = p.
Proof.
  intros H. pose proof (canonical_octet_short p H) as Hin.
  pose proof short_parts_round_trip as Hall.
  rewrite forallb_forall in Hall. specialize (Hall p Hin).
  rewrite H in Hall. simpl in Hall. unfold round_trips in Hall.
  destruct (Py.int p) as [n|e]; [|discriminate].
  apply andb_prop in Hall as [Hall Hs]. apply andb_prop in Hall as [H0 H1].
  exists n. repeat split; try lia. now apply String.eqb_eq.
Qed.

Lemma canonical_parts_round_trip (parts : list string) :
  forallb canonical_octet parts = true ->
  exists ns, Py.map_result Py.int parts = Py.Ok ns
             /\ Forall (in_range 1) ns /\ map Py.str ns = parts.
Proof.
  induction parts as [|p parts IH]; simpl; intros H.
  - exists []. repeat split. constructor.
  - apply andb_prop in H as [Hp Hps].
    destruct (canonical_octet_round_trips p Hp) as (n & Hn & Hr & Hs).
    destruct (IH Hps) as (ns & Hns & Hrs & Hss).
    exists (n :: ns). rewrite Hn. simpl. rewrite Hns. simpl.
    repeat split.
    + constructor; [|exact Hrs]. unfold in_range. simpl. lia.
    + now rewrite Hs, Hss.
Qed.

Lemma map_result_length {A B} (f : A -> Py.result B) (l : list A) (r : list B) :
  Py.map_result f l = Py.Ok r -> List.length r = List.length l.
Proof.
  revert r. induction l as [|x l IH]; simpl; intros r H.
  - now inversion H.
  - destruct (f x); [|discriminate]. simpl in H.
    destruct (Py.map_result f l) eqn:E; [|discriminate]. simpl in H.
    inversion H; subst. simpl. f_equal. now apply IH.
Qed.

Lemma wrap_in_range (n : nat) (v : Z) : in_range n v -> wrap n v = v.
Proof. unfold in_range, wrap. intros H. now apply Z.mod_small. Qed.

Lemma map_wrap_in_range (n : nat) (l : list Z) :
  Forall (in_range n) l -> map (wrap n) l = l.
Proof.
  induction 1 as [|v l Hv _ IH]; simpl; [reflexivity|].
  now rewrite wrap_in_range, IH.
Qed.

(** C5 (amended).  Every 6-part dotted string whose parts are canonical
    decimal octets (digits only, no leading zero, at most 255) is accepted
    by [AmsNetId.from_string], and formatting the result with [__repr__]
    gives the string back.  The
    string ["172.21.148.227.1.1"] yields the octets [172,21,148,227,1,1]
    and is formatted back to itself. *)
Theorem from_string_repr_round_trip :
  forall s : string,
    NetIdString.valid s = true ->
    (exists n : AmsNetId,
        from_string s = Py.Ok n
        /\ valid_AmsNetId n
        /\ AmsNetId_repr n = s)
    /\ from_string "172.21.148.227.1.1"
       = Py.Ok {| octets := [172; 21; 148; 227; 1; 1] |}
    /\ AmsNetId_repr {| octets := [172; 21; 148; 227; 1; 1] |}
       = "172.21.148.227.1.1"%string.
Proof.
  intros s Hv. split; [|split; vm_compute; reflexivity].
  unfold NetIdString.valid in Hv. apply andb_prop in Hv as [Hlen Hparts].
  apply Nat.eqb_eq in Hlen.
  destruct (canonical_parts_round_trip _ Hparts) as (ns & Hns & Hr & Hs).
  pose proof (map_result_length _ _ _ Hns) as Hl. rewrite Hlen in Hl.
  exists {| octets := ns |}.
  unfold from_string. rewrite Hns. simpl.
  rewrite Hl. simpl. unfold AmsNetId_new, array_init. rewrite Hl. simpl.
  rewrite map_wrap_in_range by exact Hr. rewrite app_nil_r.
  split; [reflexivity|]. split; [split; assumption|].
  unfold AmsNetId_repr. simpl. rewrite Hs.
  apply (join_split "."%char).
Qed.

Lemma from_string_repr_round_trip_witness :
  NetIdString.valid "10.0.255.7.1.1" = true
  /\ exists n, from_string "10.0.255.7.1.1" = Py.Ok n
               /\ valid_AmsNetId n
               /\ AmsNetId_repr n = "10.0.255.7.1.1"%string.
Proof.
  split; [vm_compute; reflexivity|].
  apply (from_string_repr_round_trip "10.0.255.7.1.1"). vm_compute. reflexivity.
Defined.

(** C5 (as written) fails: the counterexample.  A string of six
    dot-separated integer octets, the first written with a leading zero,
    is accepted, and formatting the result gives another string. *)
Lemma from_string_leading_zero_not_round_trip :
  from_string "01.2.3.4.5.6" = Py.Ok {| octets := [1; 2; 3; 4; 5; 6] |}
  /\ valid_AmsNetId {| octets := [1; 2; 3; 4; 5; 6] |}
  /\ AmsNetId_repr {| octets := [1; 2; 3; 4; 5; 6] |} <> "01.2.3.4.5.6"%string.
Proof.
  split; [vm_compute; reflexivity|]. split.
  - split; [reflexivity|]. repeat constructor; unfold in_range; simpl; lia.
  - vm_compute. discriminate.
Qed.

(** What [int] accepts besides: a part with a leading zero, a sign, blanks
    or an underscore is read, and out-of-range values are reduced modulo
    256; [__repr__] then writes another string. *)
Remark from_string_not_canonical :
  (from_string "01.2.3.4.5.6" = Py.Ok {| octets := [1; 2; 3; 4; 5; 6] |}
   /\ AmsNetId_repr {| octets := [1; 2; 3; 4; 5; 6] |} = "1.2.3.4.5.6"%string)
  /\ from_string "256. 2.-3.4.5_5.6" = Py.Ok {| octets := [0; 2; 253; 4; 55; 6] |}
  /\ from_string "1.2.3.4.5" = Py.Raise Py.ValueError
  /\ from_string "1.2.3.4.5.x" = Py.Raise Py.ValueError.
Proof. vm_compute. repeat split. Qed.

(** The sizes and offsets ctypes computes from [_fields_] under
    [_pack_ = 1]; without the attribute [AmsTcpHeader] would take 8 bytes,
    2 of them padding. *)
Lemma AoEHeader_layout :
  struct_layout AoEHeader_t
  = [("target"%string, 0, 8); ("source"%string, 8, 8);
     ("_command_id"%string, 16, 2); ("_state_flags"%string, 18, 2);
     ("length"%string, 20, 4); ("error_code"%string, 24, 4);
     ("invoke_id"%string, 28, 4)]%nat
  /\ sizeof AoEHeader_t = 32%nat.
Proof. split; reflexivity. Qed.

Lemma AmsTcpHeader_layout :
  struct_layout AmsTcpHeader_t
  = [("reserved"%string, 0, 2); ("length"%string, 2, 4)]%nat
  /\ sizeof AmsTcpHeader_t = 6%nat
  /\ sizeof AmsTcpHeader_unpacked_t = 8%nat.
Proof. repeat split; reflexivity. Qed.

Lemma le_bytes_length (n : nat) (v : Z) : List.length (le_bytes n v) = n.
Proof. revert v. induction n as [|n IH]; simpl; intros v; [reflexivity|]. now rewrite IH. Qed.

(** Reading the bytes of a value back, least significant first, gives the
    value when it fits. *)
Lemma le_value_le_bytes (n : nat) (v : Z) :
  in_range n v -> le_value (le_bytes n v) = v.
Proof.
  unfold in_range. revert v. induction n as [|n IH]; intros v Hv.
  - simpl in *. lia.
  - cbn [le_bytes le_value]. rewrite IH.
    + pose proof (Z.div_mod v 256 ltac:(lia)). lia.
    + replace (8 * Z.of_nat (S n)) with (8 + 8 * Z.of_nat n) in Hv by lia.
      rewrite Z.pow_add_r in Hv by lia. change (2 ^ 8) with 256 in Hv.
      split; [apply Z.div_pos; lia|].
      apply Z.div_lt_upper_bound; lia.
Qed.

Lemma AmsAddr_bytes_eq (a : AmsAddr) :
  valid_AmsAddr a ->
  AmsAddr_bytes a = octets (net_id a) ++ le_bytes 2 (_port a).
Proof.
  destruct a as [[o] p]. intros [[Hlen Hr] _]. simpl in *.
  destruct o as [|o1 [|o2 [|o3 [|o4 [|o5 [|o6 [|? ?]]]]]]]; try discriminate Hlen.
  unfold AmsAddr_bytes, AmsNetId_bytes. cbn [net_id _port octets].
  rewrite (map_wrap_in_range 1) by exact Hr.
  reflexivity.
Qed.

(** C6.  For every valid field assignment an [AoEHeader] serializes to
    exactly 32 bytes: target (8), source (8), command id (2), state flags
    (2), length (4), error code (4), invoke id (4), each integer
    little-endian, the fields at offsets 0, 8, 16, 18, 20, 24, 28 with
    nothing between them; an [AmsTcpHeader] serializes to exactly 6 bytes,
    reserved (2) then length (4). *)
Theorem AoEHeader_AmsTcpHeader_bytes :
  forall (h : AoEHeader) (t : AmsTcpHeader),
    valid_AoEHeader h -> valid_AmsTcpHeader t ->
    List.length (AoEHeader_bytes h) = 32%nat
    /\ AoEHeader_bytes h
       = (octets (net_id (target h)) ++ le_bytes 2 (_port (target h)))
         ++ (octets (net_id (source h)) ++ le_bytes 2 (_port (source h)))
         ++ le_bytes 2 (_command_id h) ++ le_bytes 2 (_state_flags h)
         ++ le_bytes 4 (aoe_length h) ++ le_bytes 4 (error_code h)
         ++ le_bytes 4 (invoke_id h)
    /\ map (fun f => (fst (fst f), snd (fst f))) (struct_layout AoEHeader_t)
       = [("target"%string, 0); ("source"%string, 8); ("_command_id"%string, 16);
          ("_state_flags"%string, 18); ("length"%string, 20);
          ("error_code"%string, 24); ("invoke_id"%string, 28)]%nat
    /\ le_value (get_field AoEHeader_t "invoke_id" (AoEHeader_bytes h)) = invoke_id h
    /\ le_value (get_field AoEHeader_t "length" (AoEHeader_bytes h)) = aoe_length h
    /\ List.length (AmsTcpHeader_bytes t) = 6%nat
    /\ AmsTcpHeader_bytes t = le_bytes 2 (reserved t) ++ le_bytes 4 (tcp_length t)
    /\ le_value (get_field AmsTcpHeader_t "length" (AmsTcpHeader_bytes t)) = tcp_length t.
Proof.
  intros h t Hh Ht.
  destruct Hh as (Htg & Hsr & Hc & Hf & Hl & He & Hi).
  assert (AoEHeader_bytes h
          = (octets (net_id (target h)) ++ le_bytes 2 (_port (target h)))
            ++ (octets (net_id (source h)) ++ le_bytes 2 (_port (source h)))
            ++ le_bytes 2 (_command_id h) ++ le_bytes 2 (_state_flags h)
            ++ le_bytes 4 (aoe_length h) ++ le_bytes 4 (error_code h)
            ++ le_bytes 4 (invoke_id h)) as Hbytes.
  { unfold AoEHeader_bytes.
    rewrite (AmsAddr_bytes_eq (target h)) by exact Htg.
    rewrite (AmsAddr_bytes_eq (source h)) by exact Hsr.
    destruct Htg as [[Hlt _] _]. destruct Hsr as [[Hls _] _].
    destruct (octets (net_id (target h)))
      as [|a1 [|a2 [|a3 [|a4 [|a5 [|a6 [|? ?]]]]]]]; try discriminate Hlt.
    destruct (octets (net_id (source h)))
      as [|b1 [|b2 [|b3 [|b4 [|b5 [|b6 [|? ?]]]]]]]; try discriminate Hls.
    reflexivity. }
  assert (AmsTcpHeader_bytes t = le_bytes 2 (reserved t) ++ le_bytes 4 (tcp_length t))
    as Htcp by reflexivity.
  destruct Htg as [[Hlt _] _]. destruct Hsr as [[Hls _] _].
  split.
  { rewrite Hbytes. rewrite !length_app, !le_bytes_length, Hlt, Hls. reflexivity. }
  split; [exact Hbytes|].
  split; [reflexivity|].
  split.
  { rewrite Hbytes.
    destruct (octets (net_id (target h)))
      as [|a1 [|a2 [|a3 [|a4 [|a5 [|a6 [|? ?]]]]]]]; try discriminate Hlt.
    destruct (octets (net_id (source h)))
      as [|b1 [|b2 [|b3 [|b4 [|b5 [|b6 [|? ?]]]]]]]; try discriminate Hls.
    change (le_value (le_bytes 4 (invoke_id h)) = invoke_id h).
    now apply le_value_le_bytes. }
  split.
  { rewrite Hbytes.
    destruct (octets (net_id (target h)))
      as [|a1 [|a2 [|a3 [|a4 [|a5 [|a6 [|? ?]]]]]]]; try discriminate Hlt.
    destruct (octets (net_id (source h)))
      as [|b1 [|b2 [|b3 [|b4 [|b5 [|b6 [|? ?]]]]]]]; try discriminate Hls.
    change (le_value (le_bytes 4 (aoe_length h)) = aoe_length h).
    now apply le_value_le_bytes. }
  split; [reflexivity|].
  split; [exact Htcp|].
  change (le_value (le_bytes 4 (tcp_length t)) = tcp_length t).
  apply le_value_le_bytes. apply Ht.
Qed.

Lemma example_AoEHeader_valid : valid_AoEHeader example_AoEHeader.
Proof.
  unfold valid_AoEHeader, valid_AmsAddr, valid_AmsNetId, in_range. simpl.
  repeat split; try lia; repeat constructor; unfold in_range; simpl; lia.
Defined.

Lemma example_AmsTcpHeader_valid : valid_AmsTcpHeader (AmsTcpHeader_init 44).
Proof. unfold valid_AmsTcpHeader, in_range. simpl. vm_compute. repeat split; congruence. Defined.

Lemma AoEHeader_AmsTcpHeader_bytes_witness :
  AoEHeader_bytes example_AoEHeader
  = [172; 21; 148; 227; 1; 1; 83; 3; 172; 21; 148; 164; 1; 1; 255; 255;
     2; 0; 4; 0; 12; 0; 0; 0; 0; 0; 0; 0; 2; 1; 0; 0]
  /\ AmsTcpHeader_bytes (AmsTcpHeader_init 44) = [0; 0; 44; 0; 0; 0].
Proof.
  pose proof (AoEHeader_AmsTcpHeader_bytes example_AoEHeader (AmsTcpHeader_init 44)
                example_AoEHeader_valid example_AmsTcpHeader_valid)
    as (_ & Hb & _ & _ & _ & _ & Ht & _).
  split; [rewrite Hb|rewrite Ht]; reflexivity.
Defined.

(** Bytes of an address, read back. *)
Lemma AmsAddr_from_buffer_bytes (a : AmsAddr) :
  valid_AmsAddr a -> AmsAddr_from_buffer (AmsAddr_bytes a) = a.
Proof.
  intros Ha. rewrite (AmsAddr_bytes_eq a Ha).
  destruct a as [[o] p]. destruct Ha as [[Hlen Hr] Hp]. simpl in *.
  destruct o as [|o1 [|o2 [|o3 [|o4 [|o5 [|o6 [|? ?]]]]]]]; try discriminate Hlen.
  unfold AmsAddr_from_buffer, AmsNetId_from_buffer. f_equal.
  change (le_value (le_bytes 2 p) = p).
  exact (le_value_le_bytes 2 p Hp).
Qed.

(** C7.  For every 16-bit port value without a member in [AmsPort],
    whatever the members are: reading [AmsAddr.port] returns the raw
    integer, writing that integer back stores it unchanged, and so an
    address decoded from its bytes and re-encoded after the port was read
    and written back has the same bytes. *)
Theorem AmsAddr_port_lenient_round_trip :
  forall (AmsPort : list (string * Z)) (a : AmsAddr),
    valid_AmsAddr a ->
    member_of_value AmsPort (_port a) = None ->
    AmsAddr_port AmsPort a = Py.Ok (PyInt (_port a))
    /\ AmsAddr_set_port AmsPort a (PyInt (_port a)) = Py.Ok a
    /\ (forall b : AmsAddr,
          Py.bind (AmsAddr_set_port AmsPort b (PyInt (_port a))) (AmsAddr_port AmsPort)
          = Py.Ok (PyInt (_port a)))
    /\ Py.bind (AmsAddr_port AmsPort (AmsAddr_from_buffer (AmsAddr_bytes a)))
         (fun v => Py.bind (AmsAddr_set_port AmsPort (AmsAddr_from_buffer (AmsAddr_bytes a)) v)
                     (fun a' => Py.Ok (AmsAddr_bytes a')))
       = Py.Ok (AmsAddr_bytes a).
Proof.
  intros AmsPort a Ha Hnone.
  assert (AmsAddr_port AmsPort a = Py.Ok (PyInt (_port a))) as Hget.
  { unfold AmsAddr_port, fget, enum_cls. simpl. now rewrite Hnone. }
  assert (AmsAddr_set_port AmsPort a (PyInt (_port a)) = Py.Ok a) as Hset.
  { unfold AmsAddr_set_port, fset. simpl.
    rewrite wrap_in_range by apply Ha. now destruct a. }
  split; [exact Hget|]. split; [exact Hset|]. split.
  - intros b. unfold AmsAddr_set_port, fset. simpl.
    rewrite wrap_in_range by apply Ha.
    unfold AmsAddr_port, fget, enum_cls. simpl. now rewrite Hnone.
  - rewrite (AmsAddr_from_buffer_bytes a Ha). rewrite Hget.
    unfold Py.bind at 1. rewrite Hset. reflexivity.
Qed.

Lemma AmsAddr_port_lenient_round_trip_witness :
  AmsAddr_port [("LOGGER"%string, 100); ("R0_PLC_TC3"%string, 851)]
    {| net_id := {| octets := [172; 21; 148; 227; 1; 1] |}; _port := 12345 |}
  = Py.Ok (PyInt 12345)
  /\ AmsAddr_port [("LOGGER"%string, 100); ("R0_PLC_TC3"%string, 851)]
       {| net_id := {| octets := [172; 21; 148; 227; 1; 1] |}; _port := 851 |}
     = Py.Ok (PyEnum "R0_PLC_TC3" 851).
Proof.
  split; [|reflexivity].
  refine (proj1 (AmsAddr_port_lenient_round_trip
                   [("LOGGER"%string, 100); ("R0_PLC_TC3"%string, 851)]
                   {| net_id := {| octets := [172; 21; 148; 227; 1; 1] |}; _port := 12345 |}
                   _ _)).
  - unfold valid_AmsAddr, valid_AmsNetId, in_range. simpl.
    repeat split; try lia; repeat constructor; unfold in_range; simpl; lia.
  - reflexivity.
Defined.

(** The strict mode of the same property refuses what the lenient one
    lets through. *)
Remark strict_property_rejects_unknown :
  fget [("LOGGER"%string, 100)] true 12345 = Py.Raise Py.ValueError
  /\ fset [("LOGGER"%string, 100)] true 2 (PyInt 12345) = Py.Raise Py.ValueError.
Proof. split; reflexivity. Qed.

End WireFacts.

(** ** The client *)

Section ClientFacts.

Import Client Logic.

(** *** Rules *)

Lemma triple_ret {A} (P : AsyncioClient -> Prop) (a : A) Q E :
  (forall c, P c -> Q a c) -> triple P (ret a) Q E.
Proof. intros H c Hc. simpl. now apply H. Qed.

Lemma triple_raise {A} (P : AsyncioClient -> Prop) (e : Py.exn) (Q : A -> _) E :
  (forall c, P c -> E e c) -> triple P (raise e) Q E.
Proof. intros H c Hc. simpl. now apply H. Qed.

Lemma triple_get (P : AsyncioClient -> Prop) Q E :
  (forall c, P c -> Q c c) -> triple P get Q E.
Proof. intros H c Hc. simpl. now apply H. Qed.

Lemma triple_modify (P : AsyncioClient -> Prop) f Q E :
  (forall c, P c -> Q tt (f c)) -> triple P (modify f) Q E.
Proof. intros H c Hc. simpl. now apply H. Qed.

Lemma triple_bind {A B} (P : AsyncioClient -> Prop) (m : M A) (k : A -> M B)
  (R : A -> AsyncioClient -> Prop) Q E :
  triple P m R E -> (forall a, triple (R a) (k a) Q E) ->
  triple P (mbind m k) Q E.
Proof.
  intros Hm Hk c Hc. unfold mbind. specialize (Hm c Hc).
  destruct (m c) as [[a|e] c']; [|exact Hm].
  now apply Hk.
Qed.

Lemma triple_try {A} (P : AsyncioClient -> Prop) (m : M A) caught handler
  Q (E' E : Py.exn -> AsyncioClient -> Prop) :
  triple P m Q E' ->
  (forall e, caught e = true -> triple (E' e) (handler e) Q E) ->
  (forall e c, caught e = false -> E' e c -> E e c) ->
  triple P (try_except m caught handler) Q E.
Proof.
  intros Hm Hh Hn c Hc. unfold try_except. specialize (Hm c Hc).
  destruct (m c) as [[a|e] c']; [exact Hm|].
  destruct (caught e) eqn:Ec.
  - now apply Hh.
  - now apply Hn.
Qed.

Lemma triple_weaken {A} (P P' : AsyncioClient -> Prop) (m : M A)
  (Q Q' : A -> AsyncioClient -> Prop) (E E' : Py.exn -> AsyncioClient -> Prop) :
  triple P' m Q' E' ->
  (forall c, P c -> P' c) -> (forall a c, Q' a c -> Q a c) ->
  (forall e c, E' e c -> E e c) ->
  triple P m Q E.
Proof.
  intros Hm HP HQ HE c Hc. specialize (Hm c (HP c Hc)).
  destruct (m c) as [[a|e] c']; auto.
Qed.

Lemma triple_for_each {A} (I : AsyncioClient -> Prop) (l : list A) body E :
  (forall x, In x l -> triple I (body x) (fun _ => I) E) ->
  triple I (for_each l body) (fun _ => I) E.
Proof.
  induction l as [|x l IH]; intros Hb.
  - now apply triple_ret.
  - simpl. apply triple_bind with (R := fun _ => I).
    + apply Hb. now left.
    + intros _. apply IH. intros y Hy. apply Hb. now right.
Qed.

Lemma preserves_ret {A} P (a : A) : preserves P (ret a).
Proof. now apply triple_ret. Qed.

Lemma preserves_raise {A} P e : preserves P (@raise A e).
Proof. now apply triple_raise. Qed.

Lemma preserves_get P : preserves P get.
Proof. now apply triple_get. Qed.

Lemma preserves_modify (P : AsyncioClient -> Prop) f :
  (forall c, P c -> P (f c)) -> preserves P (modify f).
Proof. intros H. now apply triple_modify. Qed.

Lemma preserves_bind {A B} P (m : M A) (k : A -> M B) :
  preserves P m -> (forall a, preserves P (k a)) -> preserves P (mbind m k).
Proof. intros Hm Hk. eapply triple_bind; [exact Hm|exact Hk]. Qed.

(** Binding a read of the client: the continuation may use what was read. *)
Lemma preserves_bind_get {B} (P : AsyncioClient -> Prop) (k : AsyncioClient -> M B) :
  (forall c0, P c0 -> preserves (fun c => P c /\ c = c0) (k c0)) ->
  preserves P (mbind get k).
Proof.
  intros Hk c Hc. unfold mbind, get.
  specialize (Hk c Hc c (conj Hc eq_refl)).
  destruct (k c c) as [[b|e] c']; tauto.
Qed.

Lemma preserves_try {A} P (m : M A) caught handler :
  preserves P m -> (forall e, preserves P (handler e)) ->
  preserves P (try_except m caught handler).
Proof.
  intros Hm Hh. eapply triple_try; [exact Hm| |]; auto.
  intros e _. apply Hh.
Qed.

Lemma preserves_for_each {A} P (l : list A) body :
  (forall x, preserves P (body x)) -> preserves P (for_each l body).
Proof. intros Hb. apply triple_for_each. intros x _. apply Hb. Qed.

Lemma preserves_snd {A} P (m : M A) (c : AsyncioClient) :
  preserves P m -> P c -> P (snd (m c)).
Proof. intros Hm Hc. specialize (Hm c Hc). destruct (m c) as [[a|e] c']; exact Hm. Qed.

Lemma preserves_weaken {A} (P P' : AsyncioClient -> Prop) (m : M A) :
  preserves P' m -> (forall c, P c <-> P' c) -> preserves P m.
Proof.
  intros Hm H. eapply triple_weaken; [exact Hm| | |]; intros; now apply H.
Qed.

Lemma returns_ret {A} (a : A) : returns (ret a).
Proof. intros c. now exists a. Qed.

Lemma returns_modify f : returns (modify f).
Proof. intros c. now exists tt. Qed.

Lemma returns_bind {A B} (m : M A) (k : A -> M B) :
  returns m -> (forall a, returns (k a)) -> returns (mbind m k).
Proof.
  intros Hm Hk c. unfold mbind. destruct (Hm c) as [a Ha].
  destruct (m c) as [[a'|e] c']; simpl in Ha; [|discriminate].
  apply Hk.
Qed.

Lemma returns_try_all {A} (m : M A) handler :
  (forall e, returns (handler e)) -> returns (try_except m is_Exception handler).
Proof.
  intros Hh c. unfold try_except.
  destruct (m c) as [[a|e] c']; simpl; [now exists a|]. apply Hh.
Qed.

Lemma returns_for_each {A} (l : list A) body :
  (forall x, returns (body x)) -> returns (for_each l body).
Proof.
  intros Hb. induction l as [|x l IH]; simpl; [apply returns_ret|].
  apply returns_bind; [apply Hb|]. intros _. exact IH.
Qed.

(** *** What the methods of [Notification] do to a stored notification *)

Lemma the_notification_eq (n : ref) (c : AsyncioClient) (self : Notification) :
  notification_store c !! n = Some self ->
  the_notification n c = (Py.Ok self, c).
Proof. intros H. unfold the_notification. now rewrite H. Qed.

Lemma the_notification_put (n : ref) (c : AsyncioClient) (x : Notification) :
  (n < List.length (notification_store c))%nat ->
  the_notification n (set_notification_store (<[n := x]> (notification_store c)) c)
  = (Py.Ok x, set_notification_store (<[n := x]> (notification_store c)) c).
Proof.
  intros H. apply the_notification_eq. simpl. now apply list_lookup_insert_eq.
Qed.

Lemma _unsubscribe_eq (n : ref) (c : AsyncioClient) (self : Notification) :
  notification_store c !! n = Some self ->
  _unsubscribe n c
  = (Py.Ok tt,
     match handle self with
     | None => c
     | Some _ =>
         set_notification_store
           (<[n := set_most_recent_notification None (set_handle None self)]>
              (notification_store c)) c
     end).
Proof.
  intros H. pose proof (lookup_lt_Some _ _ _ H) as Hlt.
  unfold _unsubscribe, mbind. rewrite (the_notification_eq _ _ _ H).
  destruct (handle self) as [h|]; [|reflexivity].
  unfold put_notification, modify. rewrite the_notification_put by exact Hlt.
  reflexivity.
Qed.

Lemma remove_callback_eq (n : ref) (token : nat) (c : AsyncioClient) (self : Notification) :
  notification_store c !! n = Some self ->
  remove_callback n token c
  = (Py.Ok tt,
     set_notification_store
       (<[n := after_remove_callback token self]> (notification_store c)) c).
Proof.
  intros H. pose proof (lookup_lt_Some _ _ _ H) as Hlt.
  unfold remove_callback, mbind. rewrite (the_notification_eq _ _ _ H).
  unfold put_notification at 1, modify at 1.
  rewrite the_notification_put by exact Hlt.
  unfold after_remove_callback.
  set (removed := CallbackHandler_remove_callback token self).
  set (c1 := set_notification_store (<[n:=removed]> (notification_store c)) c).
  assert (notification_store c1 !! n = Some removed) as H1
    by (simpl; now apply list_lookup_insert_eq).
  destruct (no_callbacks removed) eqn:Hempty; [|reflexivity].
  rewrite (_unsubscribe_eq n c1 removed H1).
  destruct (handle removed) as [h|] eqn:Hh.
  - unfold put_notification, modify.
    rewrite the_notification_put by (subst c1; simpl; now rewrite length_insert).
    subst c1. simpl. rewrite !list_insert_insert_eq. reflexivity.
  - rewrite (the_notification_eq _ _ _ H1).
    unfold put_notification, modify. subst c1. simpl.
    rewrite list_insert_insert_eq.
    replace (set_handle None removed) with removed; [reflexivity|].
    destruct removed; simpl in *. now subst.
Qed.

(** The notification [add_callback] leaves behind, and what it submits. *)
Lemma add_callback_eq (n : ref) (f : func) (c : AsyncioClient) (self : Notification) :
  notification_store c !! n = Some self ->
  add_callback n f c
  = (Py.Ok (_callback_id self),
     set_user_callback_executor
       (user_callback_executor c ++
        (if no_callbacks self then [subscribe n]
         else match most_recent_notification self with
              | Some kwargs => [call f n kwargs]
              | None => []
              end))
       (set_notification_store
          (<[n := snd (CallbackHandler_add_callback f self)]> (notification_store c)) c)).
Proof.
  intros H. unfold add_callback, mbind. rewrite (the_notification_eq _ _ _ H).
  unfold put_notification, modify, _subscribe, submit, modify. simpl.
  destruct (no_callbacks self); simpl; [reflexivity|].
  destruct (most_recent_notification self); simpl; [reflexivity|].
  rewrite app_nil_r. destruct c; reflexivity.
Qed.

(** *** Footprints: what each coroutine may change *)

Ltac stable_tac := let v := fresh in let c := fresh in let H := fresh in
  intros v c H; exact H.

Lemma preserves_the_notification P n : preserves P (the_notification n).
Proof. intros c Hc. unfold the_notification. now destruct (notification_store c !! n). Qed.

Lemma preserves_the_request P r : preserves P (the_request r).
Proof. intros c Hc. unfold the_request. now destruct (request_store c !! r). Qed.

Lemma preserves_the_symbol P s : preserves P (the_symbol s).
Proof. intros c Hc. unfold the_symbol. now destruct (symbol_store c !! s). Qed.

Lemma preserves_log_message P msg : stable set_log P -> preserves P (log_message msg).
Proof. intros H. apply preserves_modify. intros c Hc. now apply H. Qed.

Lemma preserves_submit P j : stable set_user_callback_executor P -> preserves P (submit j).
Proof. intros H. apply preserves_modify. intros c Hc. now apply H. Qed.

Lemma preserves_register_handler P i h :
  stable set__response_handlers P -> preserves P (register_handler i h).
Proof. intros H. apply preserves_modify. intros c Hc. now apply H. Qed.

Lemma preserves_put_notification P n x :
  stable set_notification_store P -> preserves P (put_notification n x).
Proof. intros H. apply preserves_modify. intros c Hc. now apply H. Qed.

Lemma preserves_put_request P r x :
  stable set_request_store P -> preserves P (put_request r x).
Proof. intros H. apply preserves_modify. intros c Hc. now apply H. Qed.

Lemma preserves_put_symbol P s x :
  stable set_symbol_store P -> preserves P (put_symbol s x).
Proof. intros H. apply preserves_modify. intros c Hc. now apply H. Qed.

Lemma preserves_request_to_wire P items e p :
  stable set_next_invoke_id P -> preserves P (request_to_wire items e p).
Proof. intros H c Hc. simpl. now apply H. Qed.

Lemma preserves_writer_write P data : stable set_writer P -> preserves P (writer_write data).
Proof.
  intros H c Hc. unfold writer_write. destruct (writer c); [|exact Hc]. now apply H.
Qed.

Lemma preserves_writer_drain P : preserves P writer_drain.
Proof.
  intros c Hc. unfold writer_drain. destruct (writer c) as [w|]; [|exact Hc].
  now destruct (drain_fails w).
Qed.

Lemma preserves_writer_close P : stable set_writer P -> preserves P writer_close.
Proof.
  intros H c Hc. unfold writer_close. destruct (writer c) as [w|]; [|exact Hc].
  destruct (close_fails w); [exact Hc|]. now apply H.
Qed.

Lemma preserves_send P items e p h :
  stable set_next_invoke_id P -> stable set__response_handlers P ->
  stable set_writer P -> preserves P (send items e p h).
Proof.
  intros H1 H2 H3. unfold send.
  apply preserves_bind; [apply preserves_get|]. intros c0.
  apply preserves_bind; [now apply preserves_request_to_wire|]. intros wire.
  apply preserves_bind.
  { destruct h; [now apply preserves_register_handler|apply preserves_ret]. }
  intros _. apply preserves_bind; [now apply preserves_writer_write|]. intros _.
  apply preserves_bind; [apply preserves_writer_drain|]. intros _.
  apply preserves_ret.
Qed.

Lemma preserves_got_response P r header it :
  stable set_request_store P ->
  preserves P (_BlockingRequest_got_response r header it).
Proof.
  intros H. unfold _BlockingRequest_got_response.
  apply preserves_bind; [apply preserves_the_request|]. intros req.
  now apply preserves_put_request.
Qed.

Lemma preserves_Notification__response_handler P n header it :
  stable set_notification_store P -> stable set_log P ->
  stable set_handle_to_notification P ->
  preserves P (Notification__response_handler n header it).
Proof.
  intros H1 H2 H3. unfold Notification__response_handler.
  apply preserves_bind; [apply preserves_the_notification|]. intros self.
  destruct (item_result it) as [r|e]; [|apply preserves_raise].
  destruct (r =? NOERR); [|now apply preserves_log_message].
  destruct (item_handle it) as [h|e]; [|apply preserves_raise].
  apply preserves_bind; [now apply preserves_put_notification|]. intros _.
  apply preserves_bind; [now apply preserves_log_message|]. intros _.
  apply preserves_modify. intros c Hc. now apply H3.
Qed.

Lemma preserves_subscribe_body P n :
  stable set_next_invoke_id P -> stable set__response_handlers P ->
  stable set_writer P -> preserves P (subscribe_body n).
Proof.
  intros H1 H2 H3. unfold subscribe_body.
  apply preserves_bind; [apply preserves_the_notification|]. intros self.
  apply preserves_bind; [now apply preserves_send|]. intros _. apply preserves_ret.
Qed.

Lemma preserves_run_next_job P :
  stable set_next_invoke_id P -> stable set__response_handlers P ->
  stable set_writer P -> stable set_user_callback_executor P -> stable set_log P ->
  preserves P run_next_job.
Proof.
  intros H1 H2 H3 H4 H5. unfold run_next_job.
  apply preserves_bind; [apply preserves_get|]. intros c0.
  destruct (user_callback_executor c0) as [|j rest]; [apply preserves_ret|].
  apply preserves_bind.
  { apply preserves_modify. intros c Hc. now apply H4. }
  intros _. destruct j as [n|f sub kw]; simpl; [|apply preserves_ret].
  apply preserves_try; [now apply preserves_subscribe_body|].
  intros e. now apply preserves_log_message.
Qed.

Lemma preserves_write_and_read_enter P it p :
  stable set_next_invoke_id P -> stable set__response_handlers P ->
  stable set_writer P -> stable set_request_store P ->
  preserves P (write_and_read_enter it p).
Proof.
  intros H1 H2 H3 H4. unfold write_and_read_enter.
  apply preserves_bind; [apply preserves_get|]. intros c0.
  apply preserves_bind.
  { apply preserves_modify. intros c Hc. now apply H4. }
  intros _. apply preserves_bind; [now apply preserves_send|]. intros _.
  apply preserves_ret.
Qed.

Lemma preserves_get_symbol_by_name P name :
  stable set__symbols P -> stable set_symbol_store P ->
  preserves P (get_symbol_by_name name).
Proof.
  intros H1 H2 c Hc. unfold get_symbol_by_name.
  destruct (dict_get (_symbols c) name); [exact Hc|].
  apply H1. now apply H2.
Qed.

Lemma preserves_add_notification_by_index P g o l m d t p :
  stable set_notification_store P ->
  preserves P (add_notification_by_index g o l m d t p).
Proof. intros H c Hc. simpl. now apply H. Qed.

Lemma preserves_CallbackHandler_process P sub self kw :
  stable set_user_callback_executor P ->
  preserves P (CallbackHandler_process sub self kw).
Proof.
  intros H. unfold CallbackHandler_process. apply preserves_for_each.
  intros cb. now apply preserves_submit.
Qed.

Lemma preserves_process P n header ts sample :
  stable set_log P -> stable set_user_callback_executor P ->
  stable set_notification_store P ->
  preserves P (process n header ts sample).
Proof.
  intros H1 H2 H3. unfold process.
  apply preserves_bind; [now apply preserves_log_message|]. intros _.
  apply preserves_bind; [apply preserves_the_notification|]. intros self.
  apply preserves_bind; [now apply preserves_CallbackHandler_process|]. intros _.
  apply preserves_bind; [apply preserves_the_notification|]. intros self'.
  now apply preserves_put_notification.
Qed.

Lemma preserves__unsubscribe P n :
  stable set_notification_store P -> preserves P (_unsubscribe n).
Proof.
  intros H. unfold _unsubscribe.
  apply preserves_bind; [apply preserves_the_notification|]. intros self.
  destruct (handle self); [|apply preserves_ret].
  apply preserves_bind; [now apply preserves_put_notification|]. intros _.
  apply preserves_bind; [apply preserves_the_notification|]. intros self'.
  destruct (handle self'); [apply preserves_raise|apply preserves_ret].
Qed.

Lemma preserves_add_callback P n f :
  stable set_notification_store P -> stable set_user_callback_executor P ->
  preserves P (add_callback n f).
Proof.
  intros H1 H2. unfold add_callback.
  apply preserves_bind; [apply preserves_the_notification|]. intros self.
  apply preserves_bind; [now apply preserves_put_notification|]. intros _.
  apply preserves_bind; [|intros _; apply preserves_ret].
  destruct (no_callbacks self); [now apply preserves_submit|].
  destruct (most_recent_notification _); [now apply preserves_submit|apply preserves_ret].
Qed.

Lemma preserves_remove_callback P n token :
  stable set_notification_store P -> preserves P (remove_callback n token).
Proof.
  intros H. unfold remove_callback.
  apply preserves_bind; [apply preserves_the_notification|]. intros self.
  apply preserves_bind; [now apply preserves_put_notification|]. intros _.
  apply preserves_bind; [apply preserves_the_notification|]. intros self'.
  destruct (no_callbacks self'); [|apply preserves_ret].
  apply preserves_bind; [now apply preserves__unsubscribe|]. intros _.
  apply preserves_bind; [apply preserves_the_notification|]. intros self''.
  now apply preserves_put_notification.
Qed.

Lemma preserves_call_handler P h header it :
  stable set_request_store P -> stable set_notification_store P ->
  stable set_log P -> stable set_handle_to_notification P ->
  preserves P (call_handler h header it).
Proof.
  intros H1 H2 H3 H4. destruct h; simpl.
  - now apply preserves_got_response.
  - now apply preserves_Notification__response_handler.
Qed.

(** Dispatch in terms of the handlers it runs. *)
Lemma preserves__handle_command P hc header it :
  stable set_log P ->
  (forall h, preserves P (call_handler h header it)) ->
  preserves P (_handle_command hc header it).
Proof.
  intros Hlog Hh. unfold _handle_command.
  apply preserves_bind; [apply preserves_get|]. intros c0.
  apply preserves_bind.
  { destruct hc as [|[]]; try apply preserves_ret; try now apply preserves_log_message.
    destruct (default [] _); [now apply preserves_log_message|apply preserves_ret]. }
  intros _. apply preserves_for_each. intros h.
  apply preserves_try; [apply Hh|]. intros e. now apply preserves_log_message.
Qed.

(** Dispatch never raises: what a handler raises is logged. *)
Lemma _handle_command_returns hc header it : returns (_handle_command hc header it).
Proof.
  unfold _handle_command. apply returns_bind; [intros c; now exists c|]. intros c0.
  apply returns_bind.
  { destruct hc as [|[]]; try apply returns_ret; try apply returns_modify.
    destruct (default [] _); [apply returns_modify|apply returns_ret]. }
  intros _. apply returns_for_each. intros h. apply returns_try_all.
  intros e. apply returns_modify.
Qed.

(** *** Requests and their answers *)

(** A request that has been answered with [it]. *)
Lemma got_response_eq (r : ref) header it (c : AsyncioClient) (req : _BlockingRequest) :
  request_store c !! r = Some req ->
  _BlockingRequest_got_response r header it c
  = (Py.Ok tt,
     set_request_store
       (<[r := {| req_request := req_request req;
                  req_options_port := req_options_port req;
                  req__event := true;
                  req_header := Some header;
                  req_response := Some it |}]> (request_store c)) c).
Proof.
  intros H. unfold _BlockingRequest_got_response, mbind, the_request. now rewrite H.
Qed.

Lemma answered_preserved (r : ref) (h : handler) header it :
  preserves
    (fun c => exists req, request_store c !! r = Some req
                          /\ req__event req = true /\ req_response req = Some it)
    (call_handler h header it).
Proof.
  destruct h as [r'|m]; simpl.
  - intros c (req & Hreq & He & Hr).
    destruct (request_store c !! r') as [req'|] eqn:E.
    + rewrite (got_response_eq _ _ _ _ _ E). simpl.
      destruct (decide (r' = r)) as [->|Hne].
      * rewrite list_lookup_insert_eq by (eapply lookup_lt_Some; eassumption).
        eexists. split; [reflexivity|]. now split.
      * rewrite list_lookup_insert_ne by exact Hne. now exists req.
    + unfold _BlockingRequest_got_response, mbind, the_request. rewrite E.
      now exists req.
  - apply preserves_Notification__response_handler; stable_tac.
Qed.

Lemma answered_established (r : ref) header it (c : AsyncioClient) :
  (r < List.length (request_store c))%nat ->
  exists req,
    request_store (snd (call_handler (got_response r) header it c)) !! r = Some req
    /\ req__event req = true /\ req_response req = Some it.
Proof.
  intros Hlt. destruct (lookup_lt_is_Some_2 _ _ Hlt) as [req Hreq].
  simpl. rewrite (got_response_eq _ _ _ _ _ Hreq). simpl.
  rewrite list_lookup_insert_eq by exact Hlt.
  eexists. split; [reflexivity|]. now split.
Qed.

(** Running the handlers of a frame answers every request whose
    [got_response] is among them. *)
Lemma handlers_answer (r : ref) header it (hs : list handler) :
  forall c,
    (exists req, request_store c !! r = Some req
                 /\ req__event req = true /\ req_response req = Some it)
    \/ (In (got_response r) hs /\ (r < List.length (request_store c))%nat) ->
    exists req,
      request_store
        (snd (for_each hs (fun h =>
                try_except (call_handler h header it) is_Exception
                  (fun _ => log_message "handle_command failed with unknown error")) c))
        !! r = Some req
      /\ req__event req = true /\ req_response req = Some it.
Proof.
  set (P := fun c => exists req, request_store c !! r = Some req
                                 /\ req__event req = true /\ req_response req = Some it).
  set (body := fun h => try_except (call_handler h header it) is_Exception
                 (fun _ => log_message "handle_command failed with unknown error")).
  assert (forall h, preserves P (body h)) as Hbody.
  { intros h. apply preserves_try; [apply answered_preserved|].
    intros e. apply preserves_log_message. stable_tac. }
  induction hs as [|h hs IH]; intros c H.
  - destruct H as [H|[[] _]]. exact H.
  - assert (P (snd (body h c)) \/
            (In (got_response r) hs
             /\ (r < List.length (request_store (snd (body h c))))%nat)) as Hnext.
    { destruct H as [H|[[->|Hin] Hlt]].
      - left. now apply preserves_snd.
      - left. pose proof (answered_established r header it c Hlt) as Hans.
        unfold body, try_except.
        destruct (call_handler (got_response r) header it c) as [[[]|e] c'] eqn:E;
          simpl in *; [exact Hans|].
        destruct Hans as (req & ? & ? & ?). now exists req.
      - right. split; [exact Hin|].
        apply (preserves_snd (fun c => (r < List.length (request_store c))%nat));
          [|exact Hlt].
        apply preserves_try.
        + destruct h as [r'|m]; simpl.
          * intros c0 H0. destruct (request_store c0 !! r') as [req'|] eqn:E.
            -- rewrite (got_response_eq _ _ _ _ _ E). simpl. now rewrite length_insert.
            -- unfold _BlockingRequest_got_response, mbind, the_request. now rewrite E.
          * apply preserves_Notification__response_handler; stable_tac.
        + intros e. apply preserves_log_message. stable_tac. }
    specialize (IH (snd (body h c)) Hnext).
    cbn [for_each]. unfold mbind at 1. fold body.
    destruct (body h c) as [[[]|e] c'] eqn:E; simpl in *.
    + exact IH.
    + unfold body, try_except in E.
      destruct (call_handler h header it c) as [[[]|e'] c'']; simpl in E; discriminate E.
Qed.

(** Dispatching an inbound frame never raises and leaves the table of
    response handlers exactly as it was; every [got_response] registered
    for the frame's invocation id has stored this frame's item. *)
Lemma _handle_command_footprint :
  forall (client_handle_command : Py.result unit) (header : Structs.AoEHeader)
         (it : item) (c : AsyncioClient),
    fst (_handle_command client_handle_command header it c) = Py.Ok tt
    /\ _response_handlers (snd (_handle_command client_handle_command header it c))
       = _response_handlers c
    /\ (forall r : ref,
          In (got_response r)
             (default [] (_response_handlers c !! Structs.invoke_id header)) ->
          (r < List.length (request_store c))%nat ->
          req_response
            <$> request_store (snd (_handle_command client_handle_command header it c)) !! r
          = Some (Some it)).
Proof.
  intros hc header it c. split; [|split].
  - destruct (_handle_command_returns hc header it c) as [[] H]. exact H.
  - apply (preserves_snd (fun c' => _response_handlers c' = _response_handlers c));
      [|reflexivity].
    apply preserves__handle_command; [stable_tac|].
    intros h. apply preserves_call_handler; stable_tac.
  - intros r Hin Hlt. unfold _handle_command, mbind at 1, get.
    set (hs := default [] (_response_handlers c !! Structs.invoke_id header)) in *.
    set (pre := match hc with
                | Py.Ok _ => ret tt
                | Py.Raise Py.MissingHandlerError =>
                    match hs with
                    | [] => log_message "No registered handler"
                    | _ => ret tt
                    end
                | Py.Raise _ => log_message "handle_command failed with unknown error"
                end).
    assert (preserves (fun c' => request_store c' = request_store c) pre) as Hpre.
    { subst pre. destruct hc as [|[]]; try apply preserves_ret;
        try (apply preserves_log_message; stable_tac).
      destruct hs; [apply preserves_log_message; stable_tac|apply preserves_ret]. }
    assert (returns pre) as Hret.
    { subst pre. destruct hc as [|[]]; try apply returns_ret; try apply returns_modify.
      destruct hs; [apply returns_modify|apply returns_ret]. }
    unfold mbind. destruct (Hret c) as [[] Hok].
    pose proof (preserves_snd _ pre c Hpre eq_refl) as Hstore.
    destruct (pre c) as [[[]|e] c1]; simpl in Hok, Hstore; [|discriminate].
    destruct (handlers_answer r header it hs c1) as (req & Hreq & _ & Hresp).
    { right. split; [exact Hin|]. now rewrite Hstore. }
    rewrite Hreq. simpl. now rewrite Hresp.
Qed.

(** The counterexample to one-shot handlers: one request is in flight; a
    first frame with its invocation id answers it; the handler is still
    registered afterwards, and a second frame with the same id runs it
    again and overwrites the answer. *)
Lemma response_handler_runs_again :
  _response_handlers Scenario.answered_with_error !! 0 = Some [got_response 0%nat]
  /\ req_response <$> request_store Scenario.answered_with_error !! 0%nat
     = Some (Some (AoEResponseHeader 1798))
  /\ _response_handlers Scenario.answered_again !! 0 = Some [got_response 0%nat]
  /\ req_response <$> request_store Scenario.answered_again !! 0%nat
     = Some (Some (AoEResponseHeader 0)).
Proof. repeat split; vm_compute; reflexivity. Qed.

(** *** [write_and_read] *)

Lemma send_eq items e port h (c : AsyncioClient) (w : StreamWriter) :
  writer c = Some w -> drain_fails w = false ->
  send items e port h c
  = (Py.Ok (next_invoke_id c),
     set_writer
       (Some {| written :=
                  if closed w then written w
                  else written w ++
                       [{| fr_invoke_id := next_invoke_id c; fr_items := items;
                           fr_ads_error := e;
                           fr_port := port_or port (their_port c) |}];
                closed := closed w; drain_fails := drain_fails w;
                close_fails := close_fails w |})
       (match h with
        | Some h =>
            set__response_handlers
              (<[next_invoke_id c :=
                   default [] (_response_handlers c !! next_invoke_id c) ++ [h]]>
                 (_response_handlers c))
        | None => fun c => c
        end (set_next_invoke_id (next_invoke_id c + 1) c))).
Proof.
  intros Hw Hd. unfold send, mbind, get, request_to_wire. simpl.
  destruct h as [h|]; simpl; unfold writer_write, writer_drain; simpl;
    rewrite Hw; simpl; rewrite Hd; reflexivity.
Qed.

(** [getattr(req, 'result', None)] finds nothing: no [_BlockingRequest]
    has an attribute of that name. *)
Lemma _BlockingRequest_has_no_result (req : _BlockingRequest) :
  _BlockingRequest_getattr req "result" PyNone = PyNone.
Proof. reflexivity. Qed.

(** C1 (what the code does).  [write_and_read] on a connected client sends
    the request and suspends; once a frame with its invocation id has been
    dispatched it returns that frame's item, whatever result code the item
    carries: [FailureResponse] is never raised, since the result is looked
    up on the request object, which has no such attribute. *)
Theorem write_and_read_returns_any_response :
  forall (c : AsyncioClient) (w : StreamWriter) (it : request) (port : option Z)
         (client_handle_command : Py.result unit) (response : item),
    writer c = Some w -> drain_fails w = false ->
    fst (write_and_read_enter it port c) = Py.Ok (List.length (request_store c))
    /\ write_and_read_resume (List.length (request_store c))
         (snd (write_and_read_enter it port c)) = Suspended
    /\ write_and_read_resume (List.length (request_store c))
         (write_and_read_answered it port client_handle_command response c)
       = Done (Py.Ok (Some response))
           (write_and_read_answered it port client_handle_command response c)
    /\ (forall r c', write_and_read_resume r c' <> Done (Py.Raise Py.FailureResponse) c').
Proof.
  intros c w it port hc response Hw Hd.
  assert (write_and_read_enter it port c
          = (Py.Ok (List.length (request_store c)),
             snd (write_and_read_enter it port c))
          /\ request_store (snd (write_and_read_enter it port c))
             = request_store c ++ [_BlockingRequest_init it port]
          /\ _response_handlers (snd (write_and_read_enter it port c)) !! next_invoke_id c
             = Some (default [] (_response_handlers c !! next_invoke_id c)
                     ++ [got_response (List.length (request_store c))]))
    as (Henter & Hstore & Hhandlers).
  { unfold write_and_read_enter, mbind at 1, get. unfold mbind at 1, modify.
    unfold mbind.
    erewrite send_eq by (simpl; eassumption). simpl.
    repeat split. apply lookup_insert_eq. }
  split; [now rewrite Henter|]. split; [|split].
  - unfold write_and_read_resume. rewrite Hstore.
    rewrite list_lookup_middle by reflexivity. reflexivity.
  - unfold write_and_read_answered.
    set (c1 := snd (write_and_read_enter it port c)) in *.
    set (c2 := snd (_handle_command hc (response_header (next_invoke_id c)) response c1)) in *.
    assert (exists req, request_store c2 !! List.length (request_store c) = Some req
                        /\ req__event req = true
                        /\ req_response req = Some response) as (req & Hreq & He & Hr).
    { subst c2. unfold _handle_command, mbind at 1, get.
      simpl. rewrite Hhandlers. simpl.
      set (hs := default [] (_response_handlers c !! next_invoke_id c)
                 ++ [got_response (List.length (request_store c))]).
      set (pre := match hc with
                  | Py.Ok _ => ret tt
                  | Py.Raise Py.MissingHandlerError =>
                      match hs with
                      | [] => log_message "No registered handler"
                      | _ => ret tt
                      end
                  | Py.Raise _ => log_message "handle_command failed with unknown error"
                  end).
      assert (preserves (fun c' => request_store c' = request_store c1) pre) as Hpre.
      { subst pre. destruct hc as [|[]]; try apply preserves_ret;
          try (apply preserves_log_message; stable_tac).
        destruct hs; [apply preserves_log_message; stable_tac|apply preserves_ret]. }
      assert (returns pre) as Hret.
      { subst pre. destruct hc as [|[]]; try apply returns_ret; try apply returns_modify.
        destruct hs; [apply returns_modify|apply returns_ret]. }
      unfold mbind. destruct (Hret c1) as [[] Hok].
      pose proof (preserves_snd _ pre c1 Hpre eq_refl) as Hst.
      destruct (pre c1) as [[[]|e] c1']; simpl in Hok, Hst; [|discriminate].
      apply handlers_answer. right. split.
      - apply in_or_app. right. now left.
      - rewrite Hst, Hstore, length_app. simpl. lia. }
    unfold write_and_read_resume, ref in *. rewrite Hreq, He.
    rewrite _BlockingRequest_has_no_result. simpl. now rewrite Hr.
  - intros r c'. unfold write_and_read_resume.
    destruct (request_store c' !! r) as [req|]; [|discriminate].
    destruct (req__event req); [|discriminate].
    rewrite _BlockingRequest_has_no_result. simpl. discriminate.
Qed.

(** The failing input of C1: a device-info request answered with result
    code 1798 is handed to the caller as if it had succeeded. *)
Lemma write_and_read_returns_any_response_witness :
  write_and_read_resume 0%nat Scenario.answered_with_error
  = Done (Py.Ok (Some (AoEResponseHeader 1798))) Scenario.answered_with_error
  /\ item_result (AoEResponseHeader 1798) = Py.Ok 1798
  /\ 1798 <> NOERR.
Proof.
  split; [|split; [reflexivity|discriminate]].
  exact (proj1 (proj2 (proj2
    (write_and_read_returns_any_response connected_client fresh_writer
       get_device_information_request None (Py.Ok tt) (AoEResponseHeader 1798)
       eq_refl eq_refl)))).
Defined.

(** *** Callbacks of a notification *)

Lemma subscribe_body_eq (n : ref) (c : AsyncioClient) (self : Notification)
  (w : StreamWriter) :
  notification_store c !! n = Some self ->
  writer c = Some w -> drain_fails w = false -> closed w = false ->
  fst (subscribe_body n c) = Py.Ok tt
  /\ frames_written (snd (subscribe_body n c))
     = frames_written c
       ++ [{| fr_invoke_id := next_invoke_id c; fr_items := [command self];
              fr_ads_error := NOERR; fr_port := port_or (port self) (their_port c) |}]
  /\ _response_handlers (snd (subscribe_body n c)) !! next_invoke_id c
     = Some (default [] (_response_handlers c !! next_invoke_id c)
             ++ [_response_handler n]).
Proof.
  intros Hn Hw Hd Hc. unfold subscribe_body, mbind.
  rewrite (the_notification_eq _ _ _ Hn).
  rewrite (send_eq _ _ _ _ c w Hw Hd). simpl.
  unfold frames_written. simpl. rewrite Hw, Hc.
  repeat split. apply lookup_insert_eq.
Qed.

(** C8.  A callback added to a notification that already has callbacks
    and a cached most-recent sample is submitted to the dispatcher exactly
    once, by [add_callback] itself, with that sample; nothing is written to
    the connection.  Added to a notification without callbacks, the
    callback gets no sample: the subscribe job is submitted instead, and
    running it sends one add-notification frame.  With callbacks but no
    sample yet, nothing is submitted. *)
Theorem add_callback_submits_cached_sample :
  forall (c : AsyncioClient) (n : ref) (self : Notification) (f : func),
    notification_store c !! n = Some self ->
    fst (add_callback n f c) = Py.Ok (_callback_id self)
    /\ callbacks <$> notification_store (snd (add_callback n f c)) !! n
       = Some (callbacks self ++ [(_callback_id self, f)])
    /\ writer (snd (add_callback n f c)) = writer c
    /\ most_recent_of n (snd (add_callback n f c)) = Some (most_recent_notification self)
    /\ (forall kwargs,
          callbacks self <> [] -> most_recent_notification self = Some kwargs ->
          user_callback_executor (snd (add_callback n f c))
          = user_callback_executor c ++ [call f n kwargs])
    /\ (callbacks self <> [] -> most_recent_notification self = None ->
        user_callback_executor (snd (add_callback n f c)) = user_callback_executor c)
    /\ (callbacks self = [] ->
        user_callback_executor (snd (add_callback n f c))
        = user_callback_executor c ++ [subscribe n])
    /\ (forall w, writer c = Some w -> drain_fails w = false -> closed w = false ->
        frames_written (snd (run_job (subscribe n) (snd (add_callback n f c))))
        = frames_written c
          ++ [{| fr_invoke_id := next_invoke_id c; fr_items := [command self];
                 fr_ads_error := NOERR;
                 fr_port := port_or (port self) (their_port c) |}]).
Proof.
  intros c n self f Hn. pose proof (lookup_lt_Some _ _ _ Hn) as Hlt.
  rewrite (add_callback_eq n f c self Hn). simpl.
  split; [reflexivity|]. split.
  { rewrite list_lookup_insert_eq by exact Hlt. reflexivity. }
  split; [reflexivity|]. split.
  { unfold most_recent_of. simpl. rewrite list_lookup_insert_eq by exact Hlt.
    reflexivity. }
  split.
  { intros kwargs Hne Hk. unfold no_callbacks.
    destruct (callbacks self); [congruence|]. now rewrite Hk. }
  split.
  { intros Hne Hk. unfold no_callbacks.
    destruct (callbacks self); [congruence|]. rewrite Hk. apply app_nil_r. }
  split.
  { intros He. unfold no_callbacks. now rewrite He. }
  intros w Hw Hd Hc.
  set (c' := set_user_callback_executor _ _).
  assert (notification_store c' !! n = Some (snd (CallbackHandler_add_callback f self)))
    as Hn' by (subst c'; simpl; now apply list_lookup_insert_eq).
  destruct (subscribe_body_eq n c' _ w Hn' Hw Hd Hc) as (Hok & Hfr & _).
  simpl. unfold try_except.
  destruct (subscribe_body n c') as [[[]|e] c''] eqn:E; simpl in *; [|discriminate].
  rewrite Hfr. reflexivity.
Qed.

Lemma add_callback_submits_cached_sample_witness :
  most_recent_of 0%nat Scenario.sampled
  = Some (Some {| nd_header := response_header 0; nd_timestamp := 1000;
                  nd_sample := [1; 2; 3] |})
  /\ user_callback_executor Scenario.sampled
     = [call 7%nat 0%nat {| nd_header := response_header 0; nd_timestamp := 1000;
                            nd_sample := [1; 2; 3] |}]
  /\ user_callback_executor (snd (add_callback 0%nat 8%nat Scenario.sampled))
     = user_callback_executor Scenario.sampled
       ++ [call 8%nat 0%nat {| nd_header := response_header 0; nd_timestamp := 1000;
                               nd_sample := [1; 2; 3] |}].
Proof.
  split; [reflexivity|]. split; [reflexivity|].
  refine (proj1 (proj2 (proj2 (proj2 (proj2
    (add_callback_submits_cached_sample Scenario.sampled 0%nat _ 8%nat eq_refl)))))
    _ _ eq_refl).
  discriminate.
Defined.

(** C3 (what the code does).  [remove_callback] on a stored notification
    returns without writing anything to the connection and without
    encoding any request, whether a handle is assigned or not: when the
    last callback goes, the handle and the cached sample are cleared, but
    the test that guards the remove-notification command reads the handle
    after it was cleared, so the command is never sent. *)
Theorem remove_callback_sends_no_command :
  forall (c : AsyncioClient) (n : ref) (self : Notification) (token : nat),
    notification_store c !! n = Some self ->
    fst (remove_callback n token c) = Py.Ok tt
    /\ writer (snd (remove_callback n token c)) = writer c
    /\ next_invoke_id (snd (remove_callback n token c)) = next_invoke_id c
    /\ user_callback_executor (snd (remove_callback n token c)) = user_callback_executor c
    /\ (no_callbacks (CallbackHandler_remove_callback token self) = true ->
        handle_of n (snd (remove_callback n token c)) = Some None
        /\ most_recent_of n (snd (remove_callback n token c)) = Some None)
    /\ (no_callbacks (CallbackHandler_remove_callback token self) = false ->
        handle_of n (snd (remove_callback n token c)) = Some (handle self)).
Proof.
  intros c n self token Hn. pose proof (lookup_lt_Some _ _ _ Hn) as Hlt.
  rewrite (remove_callback_eq n token c self Hn). simpl.
  unfold handle_of, most_recent_of. simpl.
  rewrite list_lookup_insert_eq by exact Hlt. unfold after_remove_callback. simpl.
  split; [reflexivity|]. split; [reflexivity|]. split; [reflexivity|].
  split; [reflexivity|]. split.
  - intros ->. split; reflexivity.
  - intros ->. reflexivity.
Qed.

(** The failing input of C3: the subscription is confirmed with handle 42
    and has one callback; removing it clears the handle and the sample,
    and the only frame ever written is the add-notification request. *)
Lemma remove_callback_sends_no_command_witness :
  handle_of 0%nat Scenario.sampled = Some (Some 42)
  /\ callbacks <$> notification_store Scenario.sampled !! 0%nat = Some [(0%nat, 7%nat)]
  /\ writer (snd (remove_callback 0%nat 0%nat Scenario.sampled)) = writer Scenario.sampled
  /\ List.filter is_remove_notification
       (frames_written (snd (remove_callback 0%nat 0%nat Scenario.sampled))) = []
  /\ handle_of 0%nat (snd (remove_callback 0%nat 0%nat Scenario.sampled)) = Some None.
Proof.
  split; [reflexivity|]. split; [reflexivity|]. split.
  - exact (proj1 (proj2
      (remove_callback_sends_no_command Scenario.sampled 0%nat _ 0%nat eq_refl))).
  - split; reflexivity.
Defined.

(** *** The handle of a notification *)

Lemma handle_of_insert (n m : ref) (x : Notification) (c c' : AsyncioClient)
  (v : option Z) :
  handle_of n c = Some v ->
  notification_store c' = <[m := x]> (notification_store c) ->
  (m = n -> handle x = v) ->
  handle_of n c' = Some v.
Proof.
  unfold handle_of. intros H Hst Hx. rewrite Hst.
  destruct (decide (m = n)) as [->|Hne].
  - destruct (notification_store c !! n) as [self|] eqn:E; [|discriminate].
    rewrite list_lookup_insert_eq by (eapply lookup_lt_Some; exact E).
    simpl. now rewrite Hx.
  - now rewrite list_lookup_insert_ne.
Qed.

Lemma handle_of_self (n : ref) (c : AsyncioClient) (self : Notification) (v : option Z) :
  handle_of n c = Some v -> notification_store c !! n = Some self -> handle self = v.
Proof. unfold handle_of. intros H E. rewrite E in H. simpl in H. congruence. Qed.

(** Reading a notification and storing it back with the same handle. *)
Lemma put_same_handle (n m : ref) (v : option Z) (g : Notification -> Notification) :
  (forall s, handle (g s) = handle s) ->
  preserves (fun c => handle_of n c = Some v)
    (mbind (the_notification m) (fun self => put_notification m (g self))).
Proof.
  intros Hg c Hc. unfold mbind, the_notification.
  destruct (notification_store c !! m) as [self|] eqn:E; [|exact Hc].
  simpl. eapply handle_of_insert; [exact Hc|reflexivity|].
  intros ->. rewrite Hg. eapply handle_of_self; eassumption.
Qed.

Lemma add_callback_handle (n m : ref) (f : func) (v : option Z) :
  preserves (fun c => handle_of n c = Some v) (add_callback m f).
Proof.
  intros c Hc. destruct (notification_store c !! m) as [self|] eqn:E.
  - rewrite (add_callback_eq m f c self E).
    eapply handle_of_insert; [exact Hc|reflexivity|].
    intros ->. simpl. eapply handle_of_self; eassumption.
  - unfold add_callback, mbind, the_notification. rewrite E. exact Hc.
Qed.

Lemma remove_callback_handle (n m : ref) (token : nat) :
  preserves (fun c => handle_of n c = Some None) (remove_callback m token).
Proof.
  intros c Hc. destruct (notification_store c !! m) as [self|] eqn:E.
  - rewrite (remove_callback_eq m token c self E).
    eapply handle_of_insert; [exact Hc|reflexivity|].
    intros ->. unfold after_remove_callback.
    destruct (no_callbacks _); [reflexivity|]. simpl.
    eapply handle_of_self; eassumption.
  - unfold remove_callback, mbind, the_notification. rewrite E. exact Hc.
Qed.

Lemma process_handle (n m : ref) header ts sample (v : option Z) :
  preserves (fun c => handle_of n c = Some v) (process m header ts sample).
Proof.
  unfold process.
  apply preserves_bind; [apply preserves_log_message; stable_tac|]. intros _.
  apply preserves_bind; [apply preserves_the_notification|]. intros self.
  apply preserves_bind; [apply preserves_CallbackHandler_process; stable_tac|]. intros _.
  apply (put_same_handle n m v
           (set_most_recent_notification
              (Some {| nd_header := header; nd_timestamp := ts; nd_sample := sample |}))).
  reflexivity.
Qed.

Lemma add_notification_by_index_handle (n : ref) g o l m d t p (v : option Z) :
  preserves (fun c => handle_of n c = Some v) (add_notification_by_index g o l m d t p).
Proof.
  intros c Hc. unfold handle_of in *. simpl.
  destruct (notification_store c !! n) as [self|] eqn:E; [|discriminate].
  now rewrite (lookup_app_l_Some _ _ _ _ E).
Qed.

(** The response handler of [m] leaves the handle of [n] alone unless it is
    the handler of [n] itself and the result is no error. *)
Lemma _response_handler_handle (n m : ref) header it (v : option Z) :
  m <> n \/ match item_result it with
            | Py.Ok r => r =? NOERR
            | Py.Raise _ => false
            end = false ->
  preserves (fun c => handle_of n c = Some v)
    (Notification__response_handler m header it).
Proof.
  intros Hcond c Hc. unfold Notification__response_handler, mbind, the_notification.
  destruct (notification_store c !! m) as [self|] eqn:E; [|exact Hc].
  destruct (item_result it) as [r|e]; [|exact Hc].
  destruct (r =? NOERR) eqn:Er; [|exact Hc].
  destruct Hcond as [Hne|Hr]; [|discriminate].
  destruct (item_handle it) as [h|e]; [|exact Hc].
  simpl. eapply handle_of_insert; [exact Hc|reflexivity|]. congruence.
Qed.

(** A confirming response stores its handle. *)
Lemma _response_handler_confirms (n : ref) header (h : Z) (c : AsyncioClient)
  (v : option Z) :
  handle_of n c = Some v ->
  handle_of n (snd (Notification__response_handler n header
                      (AoENotificationHandleResponse NOERR h) c))
  = Some (Some h).
Proof.
  unfold handle_of. intros Hc.
  destruct (notification_store c !! n) as [self|] eqn:E; [|discriminate].
  unfold Notification__response_handler, mbind, the_notification. rewrite E. simpl.
  rewrite list_lookup_insert_eq by (eapply lookup_lt_Some; exact E). reflexivity.
Qed.

(** Dispatch is the handlers of the frame's invocation id run in order,
    after at most one log entry. *)
Lemma _handle_command_eq hc header it (c : AsyncioClient) :
  exists c1,
    (c1 = c \/ exists msg, c1 = set_log (log c ++ [msg]) c)
    /\ _handle_command hc header it c
       = for_each (default [] (_response_handlers c !! Structs.invoke_id header))
           (fun h => try_except (call_handler h header it) is_Exception
              (fun _ => log_message "handle_command failed with unknown error")) c1.
Proof.
  unfold _handle_command, mbind at 1, get.
  destruct hc as [u|e].
  - exists c. split; [now left|reflexivity].
  - destruct e;
      try (eexists; split; [right; eexists; reflexivity|reflexivity]).
    destruct (default [] (_response_handlers c !! Structs.invoke_id header)) eqn:E.
    + eexists; split; [right; eexists; reflexivity|reflexivity].
    + exists c. split; [now left|reflexivity].
Qed.

Lemma has_response_handler_In (n : ref) (hs : list handler) :
  In (_response_handler n) hs -> has_response_handler n hs = true.
Proof.
  intros H. unfold has_response_handler. apply existsb_exists.
  exists (_response_handler n). split; [exact H|]. apply Nat.eqb_refl.
Qed.

Lemma frame_handle (n : ref) hc header it (c : AsyncioClient) :
  handle_of n c = Some None ->
  confirms n (do_frame hc header it) c = false ->
  handle_of n (snd (_handle_command hc header it c)) = Some None.
Proof.
  intros Hc Hconf.
  destruct (_handle_command_eq hc header it c) as (c1 & Hc1 & ->).
  assert (handle_of n c1 = Some None) as H1.
  { destruct Hc1 as [->|[msg ->]]; exact Hc. }
  apply (preserves_snd (fun c => handle_of n c = Some None)); [|exact H1].
  apply triple_for_each. intros h Hin.
  apply preserves_try; [|intros e; apply preserves_log_message; stable_tac].
  destruct h as [r|m]; simpl.
  - apply preserves_got_response. stable_tac.
  - apply _response_handler_handle.
    destruct (decide (m = n)) as [->|Hne]; [right|now left].
    simpl in Hconf. rewrite (has_response_handler_In n _ Hin) in Hconf.
    now rewrite andb_true_r in Hconf.
Qed.

Lemma perform_handle (n : ref) (a : action) (c : AsyncioClient) :
  handle_of n c = Some None -> confirms n a c = false ->
  handle_of n (perform a c) = Some None.
Proof.
  intros Hc Hconf. destruct a; simpl.
  - now apply (preserves_snd _ _ _ (add_notification_by_index_handle n _ _ _ _ _ _ _ None)).
  - now apply (preserves_snd _ _ _ (add_callback_handle n _ _ None)).
  - now apply (preserves_snd _ _ _ (remove_callback_handle n _ _)).
  - now apply (preserves_snd _ _ _ (process_handle n _ _ _ _ None)).
  - apply (preserves_snd (fun c => handle_of n c = Some None)); [|exact Hc].
    apply preserves_run_next_job; stable_tac.
  - now apply frame_handle.
  - apply (preserves_snd (fun c => handle_of n c = Some None)); [|exact Hc].
    apply preserves_get_symbol_by_name; stable_tac.
  - apply (preserves_snd (fun c => handle_of n c = Some None)); [|exact Hc].
    apply preserves_write_and_read_enter; stable_tac.
Qed.

Lemma unconfirmed_handle (n : ref) (acts : list action) :
  forall c, handle_of n c = Some None -> unconfirmed n acts c = true ->
            handle_of n (perform_all acts c) = Some None.
Proof.
  induction acts as [|a acts IH]; intros c Hc Hu; [exact Hc|].
  simpl in Hu. apply andb_prop in Hu as [Ha Hrest].
  apply negb_true_iff in Ha.
  unfold perform_all. simpl. apply IH; [|exact Hrest].
  now apply perform_handle.
Qed.

(** The handlers of a confirming frame, run in order, leave the handle of
    the response carried by the frame. *)
Lemma confirm_loop (n : ref) header (h : Z) (hs : list handler) :
  forall c v,
    handle_of n c = Some v ->
    v = Some h \/ In (_response_handler n) hs ->
    handle_of n
      (snd (for_each hs (fun x =>
              try_except (call_handler x header (AoENotificationHandleResponse NOERR h))
                is_Exception
                (fun _ => log_message "handle_command failed with unknown error")) c))
    = Some (Some h).
Proof.
  set (it := AoENotificationHandleResponse NOERR h).
  set (body := fun x => try_except (call_handler x header it) is_Exception
                 (fun _ => log_message "handle_command failed with unknown error")).
  assert (forall x c, exists c', body x c = (Py.Ok tt, c')) as Hok.
  { intros x c. unfold body, try_except.
    destruct (call_handler x header it c) as [[[]|e] c']; simpl; eauto. }
  assert (forall x c v, handle_of n c = Some v ->
            (x = _response_handler n /\ handle_of n (snd (body x c)) = Some (Some h))
            \/ (x <> _response_handler n /\ handle_of n (snd (body x c)) = Some v))
    as Hstep.
  { intros x c v Hc.
    assert (x = _response_handler n \/ x <> _response_handler n) as [->|Hne].
    { destruct x as [r|m]; [right; discriminate|].
      destruct (decide (m = n)) as [->|]; [now left|right; congruence]. }
    - left. split; [reflexivity|].
      pose proof (_response_handler_confirms n header h c v Hc) as Hconf.
      change (AoENotificationHandleResponse NOERR h) with it in Hconf.
      unfold body, try_except. simpl.
      destruct (Notification__response_handler n header it c) as [[[]|e] c'];
        simpl in *; exact Hconf.
    - right. split; [exact Hne|].
      apply (preserves_snd (fun c => handle_of n c = Some v)); [|exact Hc].
      apply preserves_try; [|intros e; apply preserves_log_message; stable_tac].
      destruct x as [r|m]; simpl.
      + apply preserves_got_response. stable_tac.
      + apply _response_handler_handle. left. congruence. }
  induction hs as [|x hs IH]; intros c v Hc Hv.
  - destruct Hv as [->|[]]. exact Hc.
  - cbn [for_each]. unfold mbind. fold body.
    destruct (Hok x c) as [c' E]. pose proof (Hstep x c v Hc) as Hs.
    rewrite E in *. simpl in Hs.
    destruct Hs as [[-> Hs]|[Hne Hs]].
    + apply (IH c' (Some h) Hs). now left.
    + apply (IH c' v Hs). destruct Hv as [Hv|[Hv|Hv]]; [now left|congruence|now right].
Qed.

(** *** Every handler, once for each frame *)

Lemma set_log_nil (c : AsyncioClient) : set_log (log c ++ []) c = c.
Proof. destruct c. unfold set_log. simpl. now rewrite app_nil_r. Qed.

(** [_handle_command] is its log entry followed by the loop over the
    handlers found under the frame's invocation id. *)
Lemma _handle_command_run hc header it (c : AsyncioClient) :
  _handle_command hc header it c
  = run_handlers (default [] (_response_handlers c !! Structs.invoke_id header))
      header it
      (set_log
         (log c ++ handle_command_log hc
                     (default [] (_response_handlers c !! Structs.invoke_id header)))
         c).
Proof.
  unfold _handle_command, run_handlers, mbind at 1, get.
  set (hs := default [] (_response_handlers c !! Structs.invoke_id header)).
  destruct hc as [u|e].
  - simpl. unfold mbind, ret. now rewrite set_log_nil.
  - destruct e; simpl; unfold mbind, ret, log_message, modify;
      try reflexivity; try (now rewrite set_log_nil).
    destruct hs; simpl; [reflexivity|now rewrite set_log_nil].
Qed.

(** C2 (as the code has it).  Dispatching an inbound frame never raises
    and leaves the table of response handlers exactly as it was: no
    handler is discarded.  The dispatch is, after its log entry, the run
    of every handler registered for the frame's invocation id, each once
    and in the order of registration, whichever kind it is: a
    [got_response] has then stored this frame's item in its request, a
    notification's [_response_handler] has set the handle a confirming
    frame carries.  As the table is unchanged, the next frame with the
    same id is the run of the same handlers once more. *)
Theorem _handle_command_keeps_response_handlers :
  forall (client_handle_command : Py.result unit) (header : Structs.AoEHeader)
         (it : item) (c : AsyncioClient),
    fst (_handle_command client_handle_command header it c) = Py.Ok tt
    /\ _response_handlers (snd (_handle_command client_handle_command header it c))
       = _response_handlers c
    /\ _handle_command client_handle_command header it c
       = run_handlers (default [] (_response_handlers c !! Structs.invoke_id header))
           header it
           (set_log
              (log c ++ handle_command_log client_handle_command
                          (default [] (_response_handlers c !! Structs.invoke_id header)))
              c)
    /\ (forall r : ref,
          In (got_response r)
             (default [] (_response_handlers c !! Structs.invoke_id header)) ->
          (r < List.length (request_store c))%nat ->
          req_response
            <$> request_store (snd (_handle_command client_handle_command header it c)) !! r
          = Some (Some it))
    /\ (forall (n : ref) (h : Z) (v : option Z),
          In (_response_handler n)
             (default [] (_response_handlers c !! Structs.invoke_id header)) ->
          handle_of n c = Some v ->
          it = AoENotificationHandleResponse NOERR h ->
          handle_of n (snd (_handle_command client_handle_command header it c))
          = Some (Some h))
    /\ (forall (hc' : Py.result unit) (header' : Structs.AoEHeader) (it' : item),
          Structs.invoke_id header' = Structs.invoke_id header ->
          _handle_command hc' header' it'
            (snd (_handle_command client_handle_command header it c))
          = run_handlers (default [] (_response_handlers c !! Structs.invoke_id header))
              header' it'
              (set_log
                 (log (snd (_handle_command client_handle_command header it c))
                  ++ handle_command_log hc'
                       (default [] (_response_handlers c !! Structs.invoke_id header)))
                 (snd (_handle_command client_handle_command header it c)))).
Proof.
  intros hc header it c.
  destruct (_handle_command_footprint hc header it c) as (Hok & Htable & Hreq).
  split; [exact Hok|]. split; [exact Htable|].
  split; [apply _handle_command_run|]. split; [exact Hreq|]. split.
  - intros n h v Hin Hv ->.
    destruct (_handle_command_eq hc header (AoENotificationHandleResponse NOERR h) c)
      as (c1 & Hc1 & ->).
    apply (confirm_loop n header h _ c1 v); [|right; exact Hin].
    destruct Hc1 as [->|[msg ->]]; exact Hv.
  - intros hc' header' it' Hid.
    rewrite (_handle_command_run hc' header' it'). now rewrite Htable, Hid.
Qed.

(** C4.  The notification made by [add_notification_by_index] starts with
    no handle; any actions on the client in which no response handler of
    this notification is run on a frame with result no error leave it
    without handle: adding and removing callbacks, running the subscribe
    job, samples, frames with another result code.  When then a frame with
    result no error is dispatched to its response handler, the handle is
    the one carried by that frame; a frame with any other result leaves the
    handle absent. *)
Theorem handle_absent_until_confirmed :
  forall (c : AsyncioClient) (g o l m d t : Z) (p : option Z) (acts : list action),
    unconfirmed (List.length (notification_store c)) acts
      (after_add_notification_by_index g o l m d t p c) = true ->
    fst (add_notification_by_index g o l m d t p c)
    = Py.Ok (List.length (notification_store c))
    /\ handle_of (List.length (notification_store c))
         (after_add_notification_by_index g o l m d t p c) = Some None
    /\ handle_of (List.length (notification_store c))
         (perform_all acts (after_add_notification_by_index g o l m d t p c))
       = Some None
    /\ (forall hc header (h : Z),
          In (_response_handler (List.length (notification_store c)))
             (default []
                (_response_handlers
                   (perform_all acts (after_add_notification_by_index g o l m d t p c))
                 !! Structs.invoke_id header)) ->
          handle_of (List.length (notification_store c))
            (snd (_handle_command hc header (AoENotificationHandleResponse NOERR h)
                    (perform_all acts (after_add_notification_by_index g o l m d t p c))))
          = Some (Some h))
    /\ (forall hc header (r h : Z),
          r <> NOERR ->
          handle_of (List.length (notification_store c))
            (snd (_handle_command hc header (AoENotificationHandleResponse r h)
                    (perform_all acts (after_add_notification_by_index g o l m d t p c))))
          = Some None).
Proof.
  intros c g o l m d t p acts Hu.
  set (n := List.length (notification_store c)) in *.
  set (c0 := after_add_notification_by_index g o l m d t p c) in *.
  assert (handle_of n c0 = Some None) as H0.
  { subst c0 n. unfold handle_of, after_add_notification_by_index. simpl.
    rewrite list_lookup_middle by reflexivity. reflexivity. }
  pose proof (unconfirmed_handle n acts c0 H0 Hu) as H1.
  split; [reflexivity|]. split; [exact H0|]. split; [exact H1|]. split.
  - intros hc header h Hin.
    destruct (_handle_command_eq hc header (AoENotificationHandleResponse NOERR h)
                (perform_all acts c0)) as (c1 & Hc1 & ->).
    apply (confirm_loop n header h _ c1 None).
    + destruct Hc1 as [->|[msg ->]]; exact H1.
    + now right.
  - intros hc header r h Hr. apply frame_handle; [exact H1|].
    simpl. apply Z.eqb_neq in Hr. now rewrite Hr.
Qed.

(** The scenario of the specification: index group 1, offset 65535, length
    255.  The first callback submits the subscribe job, the job sends the
    one add-notification frame, a response with another result code
    changes nothing, and the confirming response carries handle 42. *)
Lemma handle_absent_until_confirmed_witness :
  frames_written Scenario.subscribe_sent
  = [{| fr_invoke_id := 0;
        fr_items := [add_notification_by_index_request 1 65535 255 3 1 100];
        fr_ads_error := NOERR; fr_port := 100 |}]
  /\ handle_of 0%nat
       (perform_all
          [do_add_callback 0%nat 7%nat; do_run_next_job;
           do_frame (Py.Raise Py.MissingHandlerError) (response_header 0)
             (AoENotificationHandleResponse 1 42)]
          Scenario.created) = Some None
  /\ handle_of 0%nat Scenario.confirmed = Some (Some 42).
Proof.
  split; [reflexivity|].
  pose proof (handle_absent_until_confirmed connected_client 1 65535 255 3 1 100
                (Some 100)
                [do_add_callback 0%nat 7%nat; do_run_next_job;
                 do_frame (Py.Raise Py.MissingHandlerError) (response_header 0)
                   (AoENotificationHandleResponse 1 42)]
                eq_refl) as (_ & _ & H & _).
  split; [exact H|reflexivity].
Defined.

(** *** The symbol cache *)

Lemma dict_get_app {V} (d d' : list (string * V)) (k : string) (v : V) :
  dict_get d k = Some v -> dict_get (d ++ d') k = Some v.
Proof.
  induction d as [|[k' v'] d IH]; simpl; [discriminate|].
  destruct (String.eqb k' k); [trivial|exact IH].
Qed.

Lemma dict_get_snoc {V} (d : list (string * V)) (k : string) (v : V) :
  dict_get d k = None -> dict_get (d ++ [(k, v)]) k = Some v.
Proof.
  induction d as [|[k' v'] d IH]; simpl.
  - now rewrite String.eqb_refl.
  - destruct (String.eqb k' k); [discriminate|exact IH].
Qed.

Lemma get_symbol_by_name_hit (name : string) (sym : ref) (c : AsyncioClient) :
  dict_get (_symbols c) name = Some sym ->
  get_symbol_by_name name c = (Py.Ok sym, c).
Proof. intros H. unfold get_symbol_by_name. now rewrite H. Qed.

Lemma cached_preserved (name name' : string) (sym : ref) :
  preserves (fun c => dict_get (_symbols c) name = Some sym) (get_symbol_by_name name').
Proof.
  intros c Hc. unfold get_symbol_by_name.
  destruct (dict_get (_symbols c) name'); [exact Hc|].
  simpl. now apply dict_get_app.
Qed.

Lemma perform_cached (name : string) (sym : ref) (a : action) (c : AsyncioClient) :
  dict_get (_symbols c) name = Some sym ->
  dict_get (_symbols (perform a c)) name = Some sym.
Proof.
  intros Hc. destruct a; cbn [perform];
    apply (preserves_snd (fun c => dict_get (_symbols c) name = Some sym)); try exact Hc.
  - apply preserves_add_notification_by_index; stable_tac.
  - apply preserves_add_callback; stable_tac.
  - apply preserves_remove_callback; stable_tac.
  - apply preserves_process; stable_tac.
  - apply preserves_run_next_job; stable_tac.
  - apply preserves__handle_command; [stable_tac|].
    intros h. apply preserves_call_handler; stable_tac.
  - apply cached_preserved.
  - apply preserves_write_and_read_enter; stable_tac.
Qed.

Lemma perform_all_cached (name : string) (sym : ref) (acts : list action) :
  forall c, dict_get (_symbols c) name = Some sym ->
            dict_get (_symbols (perform_all acts c)) name = Some sym.
Proof.
  induction acts as [|a acts IH]; intros c Hc; [exact Hc|].
  unfold perform_all. simpl. apply IH. now apply perform_cached.
Qed.

(** C9.  Looking a name up puts the symbol in the cache of the connection:
    a name that was not cached gets a new [Symbol] of that name.  Looking
    the same name up again returns the same instance and changes nothing,
    also after lookups of other names, callbacks, requests and inbound
    frames on the same connection. *)
Theorem get_symbol_by_name_same_instance :
  forall (name : string) (c : AsyncioClient) (acts : list action),
    exists sym : ref,
      fst (get_symbol_by_name name c) = Py.Ok sym
      /\ get_symbol_by_name name (snd (get_symbol_by_name name c))
         = (Py.Ok sym, snd (get_symbol_by_name name c))
      /\ get_symbol_by_name name (perform_all acts (snd (get_symbol_by_name name c)))
         = (Py.Ok sym, perform_all acts (snd (get_symbol_by_name name c)))
      /\ (dict_get (_symbols c) name = None ->
          sym = List.length (symbol_store c)
          /\ symbol_store (snd (get_symbol_by_name name c)) !! sym
             = Some (Symbol_init name)).
Proof.
  intros name c acts.
  assert (exists sym, fst (get_symbol_by_name name c) = Py.Ok sym
                      /\ dict_get (_symbols (snd (get_symbol_by_name name c))) name
                         = Some sym
                      /\ (dict_get (_symbols c) name = None ->
                          sym = List.length (symbol_store c)
                          /\ symbol_store (snd (get_symbol_by_name name c)) !! sym
                             = Some (Symbol_init name)))
    as (sym & Hfst & Hcached & Hnew).
  { unfold get_symbol_by_name.
    destruct (dict_get (_symbols c) name) as [sym|] eqn:E.
    - exists sym. simpl. split; [reflexivity|]. split; [exact E|]. discriminate.
    - exists (List.length (symbol_store c)). simpl.
      split; [reflexivity|]. split; [now apply dict_get_snoc|].
      intros _. split; [reflexivity|]. now apply list_lookup_middle. }
  exists sym. split; [exact Hfst|]. split; [|split].
  - now apply get_symbol_by_name_hit.
  - apply get_symbol_by_name_hit. now apply perform_all_cached.
  - exact Hnew.
Qed.

(** *** [close] *)

Lemma preserves_send_gen P items e p h :
  stable set_next_invoke_id P -> stable set__response_handlers P ->
  (forall data, preserves P (writer_write data)) ->
  preserves P (send items e p h).
Proof.
  intros H1 H2 H3. unfold send.
  apply preserves_bind; [apply preserves_get|]. intros c0.
  apply preserves_bind; [now apply preserves_request_to_wire|]. intros wire.
  apply preserves_bind.
  { destruct h; [now apply preserves_register_handler|apply preserves_ret]. }
  intros _. apply preserves_bind; [apply H3|]. intros _.
  apply preserves_bind; [apply preserves_writer_drain|]. intros _.
  apply preserves_ret.
Qed.

Lemma preserves_release_handle P h :
  stable set_next_invoke_id P -> stable set__response_handlers P ->
  (forall data, preserves P (writer_write data)) ->
  preserves P (release_handle h).
Proof.
  intros H1 H2 H3. unfold release_handle.
  apply preserves_bind; [now apply preserves_send_gen|]. intros _. apply preserves_ret.
Qed.

Lemma preserves_Symbol_release P s :
  stable set_next_invoke_id P -> stable set__response_handlers P ->
  (forall data, preserves P (writer_write data)) -> stable set_symbol_store P ->
  preserves P (Symbol_release s).
Proof.
  intros H1 H2 H3 H4. unfold Symbol_release.
  apply preserves_bind; [apply preserves_the_symbol|]. intros sym.
  destruct (sym_handle sym); [|apply preserves_ret].
  apply preserves_bind; [now apply preserves_release_handle|]. intros _.
  apply preserves_bind; [apply preserves_the_symbol|]. intros sym'.
  now apply preserves_put_symbol.
Qed.

Lemma writer_write_closed_flag (v : option bool) data :
  preserves (fun c => closed <$> writer c = v) (writer_write data).
Proof.
  intros c Hc. simpl in Hc. unfold writer_write.
  destruct (writer c) as [w|] eqn:E; simpl; [exact Hc|].
  rewrite E. exact Hc.
Qed.

Lemma Symbol_release_released (s : ref) (c c' : AsyncioClient) :
  Symbol_release s c = (Py.Ok tt, c') -> released s c'.
Proof.
  unfold Symbol_release, mbind at 1, the_symbol at 1.
  destruct (symbol_store c !! s) as [sym|] eqn:E; [|discriminate].
  destruct (sym_handle sym) as [h|] eqn:Hh.
  - unfold mbind at 1.
    pose proof (preserves_snd (fun c0 => symbol_store c0 = symbol_store c)
                  (release_handle h) c) as Hst.
    destruct (release_handle h c) as [[[]|e] c2]; [|discriminate].
    simpl in Hst.
    rewrite <- Hst in E
      by (try reflexivity; apply preserves_release_handle; try stable_tac;
          intros data; apply preserves_writer_write; stable_tac).
    unfold mbind, the_symbol. rewrite E. simpl. intros H. inversion H; subst.
    unfold released. simpl.
    rewrite list_lookup_insert_eq by (eapply lookup_lt_Some; exact E).
    eexists. split; reflexivity.
  - intros H. inversion H; subst. now exists sym.
Qed.

Lemma Symbol_release_keeps_released (s s' : ref) :
  preserves (released s) (Symbol_release s').
Proof.
  unfold Symbol_release.
  apply preserves_bind; [apply preserves_the_symbol|]. intros sym.
  destruct (sym_handle sym); [|apply preserves_ret].
  apply preserves_bind.
  { apply preserves_release_handle; try stable_tac.
    intros data. apply preserves_writer_write. stable_tac. }
  intros _ c (sym0 & Hs & Hh). unfold mbind, the_symbol.
  destruct (symbol_store c !! s') as [sym'|] eqn:E; [|now exists sym0].
  simpl. unfold released. simpl.
  destruct (decide (s' = s)) as [->|Hne].
  - rewrite list_lookup_insert_eq by (eapply lookup_lt_Some; exact E).
    eexists. split; reflexivity.
  - rewrite list_lookup_insert_ne by exact Hne. now exists sym0.
Qed.

Lemma release_all_released (l : list ref) :
  forall c c', for_each l Symbol_release c = (Py.Ok tt, c') ->
               forall s, In s l -> released s c'.
Proof.
  induction l as [|a l IH]; intros c c' H s Hin; [destruct Hin|].
  cbn [for_each] in H. unfold mbind in H.
  destruct (Symbol_release a c) as [[[]|e] c2] eqn:Ea; [|discriminate].
  destruct Hin as [->|Hin].
  - pose proof (Symbol_release_released _ _ _ Ea) as Hr.
    pose proof (preserves_snd (released s) (for_each l Symbol_release) c2
                  (preserves_for_each _ _ _ (Symbol_release_keeps_released s)) Hr) as Hp.
    now rewrite H in Hp.
  - eapply IH; eassumption.
Qed.

Lemma send_unconnected items e p h (c : AsyncioClient) :
  writer c = None ->
  exists c', send items e p h c = (Py.Raise Py.AttributeError, c').
Proof.
  intros Hw. unfold send, mbind, get, request_to_wire.
  destruct h as [h|]; simpl; unfold writer_write; simpl; rewrite Hw; eauto.
Qed.

Lemma Symbol_release_eq (s : ref) (c : AsyncioClient) (sym : Symbol) :
  symbol_store c !! s = Some sym ->
  Symbol_release s c
  = match sym_handle sym with
    | Some h =>
        mbind (release_handle h)
          (fun _ => mbind (the_symbol s)
                      (fun sym => put_symbol s (set_sym_handle None sym))) c
    | None => (Py.Ok tt, c)
    end.
Proof.
  intros Hs. unfold Symbol_release, mbind at 1, the_symbol at 1. rewrite Hs.
  destruct (sym_handle sym); reflexivity.
Qed.

(** Without a writer a symbol is released only if it holds no handle. *)
Lemma Symbol_release_unconnected (s : ref) (c : AsyncioClient) :
  writer c = None -> is_Some (symbol_store c !! s) ->
  Symbol_release s c = (Py.Ok tt, c)
  \/ exists c', Symbol_release s c = (Py.Raise Py.AttributeError, c').
Proof.
  intros Hw [sym Hs]. rewrite (Symbol_release_eq s c sym Hs).
  destruct (sym_handle sym) as [h|]; [right|now left].
  unfold mbind at 1, release_handle, mbind at 1.
  destruct (send_unconnected [release_handle_request h] NOERR None None c Hw) as [c' ->].
  eauto.
Qed.

Lemma release_all_unconnected (l : list ref) (c : AsyncioClient) :
  writer c = None -> (forall s, In s l -> is_Some (symbol_store c !! s)) ->
  for_each l Symbol_release c = (Py.Ok tt, c)
  \/ exists c', for_each l Symbol_release c = (Py.Raise Py.AttributeError, c').
Proof.
  intros Hw. induction l as [|a l IH]; intros Hl; [now left|].
  cbn [for_each]. unfold mbind.
  destruct (Symbol_release_unconnected a c Hw (Hl a (or_introl eq_refl)))
    as [->|[c' ->]]; [|eauto].
  apply IH. intros s Hs. apply Hl. now right.
Qed.

Lemma close_symbols_eq (c : AsyncioClient) :
  close_symbols c
  = match for_each (map snd (_symbols c)) Symbol_release (set_reconnect_rate None c) with
    | (Py.Ok _, c1) => (Py.Ok tt, set__symbols [] c1)
    | (Py.Raise e, c1) => (Py.Raise e, c1)
    end.
Proof. reflexivity. Qed.

Lemma close_eq (c : AsyncioClient) :
  close c
  = match close_symbols c with
    | (Py.Ok _, c1) =>
        try_except writer_close is_OSError
          (fun _ => log_message "Error closing writer") c1
    | (Py.Raise e, c1) => (Py.Raise e, c1)
    end.
Proof. reflexivity. Qed.

Lemma close_unconnected (c : AsyncioClient) :
  writer c = None -> symbols_wf c -> fst (close c) = Py.Raise Py.AttributeError.
Proof.
  intros Hw Hwf. rewrite close_eq, close_symbols_eq.
  destruct (release_all_unconnected (map snd (_symbols c)) (set_reconnect_rate None c))
    as [E|[c' E]]; try assumption; rewrite E; [|reflexivity].
  unfold try_except, writer_close. simpl. now rewrite Hw.
Qed.

Lemma never_connected_unconnected (server_port : Z) (reconnect : option Z)
  (failures : nat) (names : list string) :
  writer (never_connected server_port reconnect failures names) = None
  /\ symbols_wf (never_connected server_port reconnect failures names).
Proof.
  unfold never_connected.
  set (start := Nat.iter failures _ _).
  assert (writer start = None /\ symbols_wf start) as Hstart.
  { subst start. induction failures as [|k IH]; simpl.
    - split; [reflexivity|]. intros s [].
    - destruct IH as [Hw Hwf]. split; [exact Hw|exact Hwf]. }
  clearbody start. revert start Hstart.
  induction names as [|name names IH]; intros start Hstart; [exact Hstart|].
  simpl. apply IH. destruct Hstart as [Hw Hwf].
  unfold get_symbol_by_name.
  destruct (dict_get (_symbols start) name); [now split|].
  simpl. split; [exact Hw|].
  intros s Hs. simpl in Hs. rewrite map_app in Hs. apply in_app_or in Hs.
  destruct Hs as [Hs|[<-|[]]].
  - destruct (Hwf s Hs) as [sym Hsym]. exists sym. now apply lookup_app_l_Some.
  - eexists. now apply list_lookup_middle.
Qed.

(** C10.  [close] on a client without writer, which is every client whose
    connection attempts have all failed so far, raises [AttributeError]:
    only [OSError] is caught around [self.writer.close()].  When [close]
    returns, the first part of it returned a client with an empty symbol
    cache, every symbol that was cached released, reconnection off and the
    writer not yet closed by it; the writer is closed after that, or its
    [OSError] logged. *)
Theorem close_needs_writer_and_releases_first :
  forall (c : AsyncioClient) (server_port : Z) (reconnect : option Z)
         (failures : nat) (names : list string),
    fst (close c) = Py.Ok tt ->
    fst (close (never_connected server_port reconnect failures names))
    = Py.Raise Py.AttributeError
    /\ (forall c0, writer c0 = None -> symbols_wf c0 ->
                   fst (close c0) = Py.Raise Py.AttributeError)
    /\ exists c1,
         close_symbols c = (Py.Ok tt, c1)
         /\ _symbols c1 = []
         /\ reconnect_rate c1 = None
         /\ (forall s, In s (map snd (_symbols c)) -> released s c1)
         /\ closed <$> writer c1 = closed <$> writer c
         /\ close c
            = try_except writer_close is_OSError
                (fun _ => log_message "Error closing writer") c1
         /\ _symbols (snd (close c)) = []
         /\ exists w, writer (snd (close c)) = Some w
                      /\ (closed w = true \/ close_fails w = true).
Proof.
  intros c server_port reconnect failures names Hok.
  split.
  { destruct (never_connected_unconnected server_port reconnect failures names).
    now apply close_unconnected. }
  split; [exact close_unconnected|].
  rewrite close_eq in *.
  destruct (close_symbols c) as [[[]|e] c1] eqn:Ecs; [|discriminate].
  exists c1. split; [reflexivity|].
  rewrite close_symbols_eq in Ecs.
  destruct (for_each (map snd (_symbols c)) Symbol_release (set_reconnect_rate None c))
    as [[[]|e] c2] eqn:Eloop; [|discriminate].
  inversion Ecs; subst c1. clear Ecs.
  assert (reconnect_rate c2 = None) as Hrate.
  { pose proof (preserves_snd (fun c' => reconnect_rate c' = None)
                  (for_each (map snd (_symbols c)) Symbol_release)
                  (set_reconnect_rate None c)) as Hp.
    rewrite Eloop in Hp. apply Hp; [|reflexivity].
    apply preserves_for_each. intros s. apply preserves_Symbol_release; try stable_tac.
    intros data. apply preserves_writer_write. stable_tac. }
  assert (closed <$> writer c2 = closed <$> writer c) as Hclosed.
  { pose proof (preserves_snd (fun c' => closed <$> writer c' = closed <$> writer c)
                  (for_each (map snd (_symbols c)) Symbol_release)
                  (set_reconnect_rate None c)) as Hp.
    rewrite Eloop in Hp. apply Hp; [|reflexivity].
    apply preserves_for_each. intros s. apply preserves_Symbol_release; try stable_tac.
    apply writer_write_closed_flag. }
  split; [reflexivity|]. split; [exact Hrate|]. split.
  { intros s Hs. destruct (release_all_released _ _ _ Eloop s Hs) as (sym & H1 & H2).
    now exists sym. }
  split; [exact Hclosed|]. split; [reflexivity|].
  unfold try_except, writer_close in *. simpl in *.
  destruct (writer c2) as [w|] eqn:Ew; [|discriminate].
  destruct (close_fails w) eqn:Ef; simpl.
  - split; [reflexivity|]. exists w. split; [exact Ew|now right].
  - split; [reflexivity|]. eexists. split; [reflexivity|now left].
Qed.

(** Two resolved symbols: [close] sends the two release commands, empties
    the cache and closes the writer. *)
Lemma close_needs_writer_and_releases_first_witness :
  fst (close Scenario.two_symbols) = Py.Ok tt
  /\ map fr_items (frames_written (snd (close Scenario.two_symbols)))
     = [[release_handle_request 11]; [release_handle_request 12]]
  /\ fst (close (never_connected 851 (Some 10) 2 ["MAIN.a"%string]))
     = Py.Raise Py.AttributeError.
Proof.
  split; [reflexivity|]. split; [reflexivity|].
  exact (proj1 (close_needs_writer_and_releases_first Scenario.two_symbols
                  851 (Some 10) 2%nat ["MAIN.a"%string] eq_refl)).
Defined.

End ClientFacts.

(** ** More of the wire records *)

Section RecordFacts.

Import Structs Ctypes NetIdString Records.

(** *** Packed layout *)

Lemma round_up_packed (off a : nat) : (a <= 1)%nat -> round_up off a = off.
Proof.
  intros Ha. unfold round_up.
  assert (a = 0 \/ a = 1)%nat as [-> | ->] by lia.
  - rewrite Nat.mod_0_r. destruct off; simpl; lia.
  - now rewrite Nat.mod_1_r.
Qed.

Lemma field_align_packed (a : nat) : (field_align _pack_ a <= 1)%nat.
Proof. unfold field_align, _pack_. lia. Qed.

Lemma size_align_packed (fields : list (string * ctype)) :
  size_align (c_struct _pack_ fields) = (fields_size fields, 1%nat).
Proof.
  cbn [size_align].
  assert (forall fs off,
    (fix go (fs : list (string * ctype)) (off al : nat) {struct fs} : nat * nat :=
       match fs with
       | [] => (round_up off al, al)
       | (_, ft) :: rest =>
           let a := field_align _pack_ (snd (size_align ft)) in
           go rest (round_up off a + fst (size_align ft))%nat (Nat.max al a)
       end) fs off 1%nat = ((off + fields_size fs)%nat, 1%nat)) as Hgo.
  { induction fs as [|[name ft] fs IH]; intros off.
    - unfold fields_size. simpl. rewrite round_up_packed by lia. f_equal. lia.
    - cbn zeta. cbv beta iota.
      pose proof (field_align_packed (snd (size_align ft))) as Ha.
      rewrite round_up_packed by exact Ha.
      replace (Nat.max 1 (field_align _pack_ (snd (size_align ft)))) with 1%nat by lia.
      rewrite IH. unfold fields_size. simpl. unfold sizeof. f_equal. lia. }
  apply Hgo.
Qed.

Lemma layout_packed_app (fs1 fs2 : list (string * ctype)) (off : nat) :
  layout _pack_ (fs1 ++ fs2) off
  = layout _pack_ fs1 off ++ layout _pack_ fs2 (off + fields_size fs1).
Proof.
  revert off. induction fs1 as [|[name ft] fs1 IH]; intros off.
  - simpl. unfold fields_size. simpl. now rewrite Nat.add_0_r.
  - simpl. rewrite round_up_packed by apply field_align_packed.
    rewrite IH. unfold fields_size. simpl. do 3 f_equal. lia.
Qed.

Lemma offsetof_app_l (l1 l2 : list (string * nat * nat)) (name : string) :
  In name (map (fun f => fst (fst f)) l1) ->
  offsetof (l1 ++ l2) name = offsetof l1 name.
Proof.
  induction l1 as [|[[n o] sz] l1 IH]; simpl; [tauto|].
  intros [->|Hin].
  - now rewrite String.eqb_refl.
  - destruct (String.eqb n name); [reflexivity|]. now apply IH.
Qed.

Lemma offsetof_app_r (l1 l2 : list (string * nat * nat)) (name : string) :
  ~ In name (map (fun f => fst (fst f)) l1) ->
  offsetof (l1 ++ l2) name = offsetof l2 name.
Proof.
  induction l1 as [|[[n o] sz] l1 IH]; simpl; [reflexivity|].
  intros Hn. destruct (String.eqb n name) eqn:E.
  - apply String.eqb_eq in E. tauto.
  - apply IH. tauto.
Qed.

Lemma layout_names (pack : option nat) (fs : list (string * ctype)) (off : nat) :
  map (fun f => fst (fst f)) (layout pack fs off) = map fst fs.
Proof.
  revert off. induction fs as [|[name ft] fs IH]; intros off; simpl; [reflexivity|].
  now rewrite IH.
Qed.

Lemma layout_packed_shift (fs : list (string * ctype)) (off : nat) (name : string) :
  offsetof (layout _pack_ fs off) name
  = (fun f => ((off + fst f)%nat, snd f)) <$> offsetof (layout _pack_ fs 0) name.
Proof.
  revert off. induction fs as [|[n ft] fs IH]; intros off; simpl; [reflexivity|].
  rewrite !round_up_packed by apply field_align_packed.
  destruct (String.eqb n name).
  - simpl. do 2 f_equal. lia.
  - rewrite (IH (off + sizeof ft)%nat), (IH (0 + sizeof ft)%nat).
    destruct (offsetof (layout _pack_ fs 0) name) as [[o sz]|]; simpl; [|reflexivity].
    do 2 f_equal. lia.
Qed.

(** X1.  Under [_pack_ = 1] a record has no padding, whatever its fields:
    it is as long as its fields together, and each field starts where the
    fields before it end. *)
Theorem packed_record_has_no_padding :
  forall (before : list (string * ctype)) (name : string) (t : ctype)
         (after : list (string * ctype)),
    ~ In name (map fst before) ->
    sizeof (c_struct _pack_ (before ++ (name, t) :: after))
    = fields_size (before ++ (name, t) :: after)
    /\ alignof (c_struct _pack_ (before ++ (name, t) :: after)) = 1%nat
    /\ offsetof (struct_layout (c_struct _pack_ (before ++ (name, t) :: after))) name
       = Some (fields_size before, sizeof t).
Proof.
  intros before name t after Hfresh.
  unfold sizeof at 1, alignof. rewrite size_align_packed.
  split; [reflexivity|]. split; [reflexivity|].
  cbn [struct_layout]. rewrite layout_packed_app.
  rewrite offsetof_app_r by (now rewrite layout_names).
  simpl. rewrite String.eqb_refl.
  now rewrite round_up_packed by apply field_align_packed.
Qed.

Lemma packed_record_has_no_padding_witness :
  sizeof (c_struct _pack_ AdsSymbolEntry_fields) = 30%nat
  /\ offsetof (struct_layout (c_struct _pack_ AdsSymbolEntry_fields)) "name_length" = Some (24, 2)%nat.
Proof.
  pose proof (packed_record_has_no_padding
                (firstn 6 AdsSymbolEntry_fields) "name_length" c_uint16
                (skipn 7 AdsSymbolEntry_fields)
                ltac:(simpl; intuition discriminate)) as (H1 & _ & H2).
  split; [exact H1|exact H2].
Defined.

(** X2.  A derived record keeps every field of its base at the offset it
    has in the base, and puts its own fields behind the base, at their
    offsets in a record of their own shifted by the size of the base. *)
Theorem derived_record_extends_base :
  forall (base own : list (string * ctype)) (name : string),
    sizeof (c_struct _pack_ (derived base own))
    = (sizeof (c_struct _pack_ base) + sizeof (c_struct _pack_ own))%nat
    /\ (In name (map fst base) ->
        offsetof (struct_layout (c_struct _pack_ (derived base own))) name
        = offsetof (struct_layout (c_struct _pack_ base)) name)
    /\ (~ In name (map fst base) ->
        offsetof (struct_layout (c_struct _pack_ (derived base own))) name
        = (fun f => ((sizeof (c_struct _pack_ base) + fst f)%nat, snd f))
            <$> offsetof (struct_layout (c_struct _pack_ own)) name).
Proof.
  intros base own name. unfold derived, sizeof. rewrite !size_align_packed.
  cbn [fst struct_layout]. rewrite layout_packed_app.
  split; [|split].
  - unfold fields_size. now rewrite map_app, list_sum_app.
  - intros Hin. apply offsetof_app_l. now rewrite layout_names.
  - intros Hnot. rewrite offsetof_app_r by (now rewrite layout_names).
    apply layout_packed_shift.
Qed.

(** *** Headers, decoded and encoded again *)

Lemma le_value_bound (bs : list Z) :
  Forall (in_range 1) bs -> in_range (List.length bs) (le_value bs).
Proof.
  unfold in_range. induction 1 as [|b bs Hb _ IH]; simpl le_value.
  - simpl. lia.
  - change (List.length (b :: bs)) with (S (List.length bs)).
    replace (8 * Z.of_nat (S (List.length bs))) with (8 + 8 * Z.of_nat (List.length bs))
      by lia.
    rewrite Z.pow_add_r by lia. change (2 ^ 8) with 256.
    change (2 ^ (8 * Z.of_nat 1)) with 256 in Hb. nia.
Qed.

Lemma le_bytes_le_value (bs : list Z) :
  Forall (in_range 1) bs -> le_bytes (List.length bs) (le_value bs) = bs.
Proof.
  induction 1 as [|b bs Hb _ IH]; [reflexivity|].
  unfold in_range in Hb. change (2 ^ (8 * Z.of_nat 1)) with 256 in Hb.
  cbn [List.length le_bytes le_value].
  replace (b + 256 * le_value bs) with (b + le_value bs * 256) by lia.
  f_equal.
  - rewrite Z.mod_add by lia. now apply Z.mod_small.
  - rewrite Z.div_add by lia. rewrite (Z.div_small b 256) by lia. exact IH.
Qed.

Lemma AoEHeader_bytes_eq (h : AoEHeader) :
  valid_AoEHeader h ->
  AoEHeader_bytes h
  = (octets (net_id (target h)) ++ le_bytes 2 (_port (target h)))
    ++ (octets (net_id (source h)) ++ le_bytes 2 (_port (source h)))
    ++ le_bytes 2 (_command_id h) ++ le_bytes 2 (_state_flags h)
    ++ le_bytes 4 (aoe_length h) ++ le_bytes 4 (error_code h)
    ++ le_bytes 4 (invoke_id h).
Proof.
  intros (Htg & Hsr & _). unfold AoEHeader_bytes.
  rewrite (AmsAddr_bytes_eq (target h)) by exact Htg.
  rewrite (AmsAddr_bytes_eq (source h)) by exact Hsr.
  destruct Htg as [[Hlt _] _]. destruct Hsr as [[Hls _] _].
  destruct (octets (net_id (target h)))
    as [|a1 [|a2 [|a3 [|a4 [|a5 [|a6 [|? ?]]]]]]]; try discriminate Hlt.
  destruct (octets (net_id (source h)))
    as [|b1 [|b2 [|b3 [|b4 [|b5 [|b6 [|? ?]]]]]]]; try discriminate Hls.
  reflexivity.
Qed.

Ltac eval_fields :=
  repeat match goal with
  | |- context [get_field ?t ?n ?b] =>
      let r := eval vm_compute in (get_field t n b) in
      change (get_field t n b) with r
  end.

Ltac all_bytes :=
  repeat (apply List.Forall_cons; [assumption|]); apply List.Forall_nil.

Ltac bytes_of_length H :=
  repeat (match type of H with
          | List.length ?l = _ =>
              destruct l as [|? l]; [discriminate H|];
              cbn [List.length] in H; apply Nat.succ_inj in H
          end);
  match type of H with
  | List.length ?l = O => destruct l; [clear H|discriminate H]
  end.

(** A buffer of exactly 32 bytes decodes to a valid header whose bytes are
    the buffer. *)
Lemma AoEHeader_of_32_bytes (buf : buffer) :
  List.length buf = 32%nat -> is_bytes buf ->
  exists h, AoEHeader_from_buffer buf = Py.Ok h
            /\ valid_AoEHeader h /\ AoEHeader_bytes h = buf.
Proof.
  intros Hlen Hb. bytes_of_length Hlen.
  eexists. split; [reflexivity|].
  unfold is_bytes in Hb. repeat (apply Forall_cons_iff in Hb as [? Hb]).
  match goal with |- ?V /\ _ => assert V as Hvalid end.
  { unfold valid_AoEHeader, valid_AmsAddr, valid_AmsNetId.
    cbn [target source net_id octets _port _command_id _state_flags aoe_length
         error_code invoke_id AmsAddr_from_buffer AmsNetId_from_buffer].
    eval_fields.
    refine (conj (conj (conj eq_refl _) _)
              (conj (conj (conj eq_refl _) _)
                 (conj _ (conj _ (conj _ (conj _ _))))));
      try all_bytes;
      match goal with
      | |- in_range _ (le_value ?l) => apply (le_value_bound l); all_bytes
      end. }
  split; [exact Hvalid|].
  rewrite AoEHeader_bytes_eq by exact Hvalid.
  cbn [target source net_id octets _port _command_id _state_flags aoe_length
       error_code invoke_id AmsAddr_from_buffer AmsNetId_from_buffer].
  eval_fields.
  repeat match goal with
  | |- context [le_bytes ?n (le_value ?l)] =>
      change (le_bytes n (le_value l)) with (le_bytes (List.length l) (le_value l));
      rewrite (le_bytes_le_value l) by all_bytes
  end.
  reflexivity.
Qed.

Lemma AoEHeader_bytes_length (h : AoEHeader) :
  valid_AoEHeader h -> List.length (AoEHeader_bytes h) = 32%nat.
Proof.
  intros Hh. rewrite AoEHeader_bytes_eq by exact Hh.
  destruct Hh as ([[Hlt _] _] & [[Hls _] _] & _).
  rewrite !length_app, !le_bytes_length, Hlt, Hls. reflexivity.
Qed.

Lemma le_bytes_in_range (n : nat) (v : Z) : Forall (in_range 1) (le_bytes n v).
Proof.
  revert v. induction n as [|n IH]; intros v; simpl; constructor; [|apply IH].
  unfold in_range. change (2 ^ (8 * Z.of_nat 1)) with 256.
  apply Z.mod_pos_bound. lia.
Qed.

Lemma AoEHeader_bytes_is_bytes (h : AoEHeader) :
  valid_AoEHeader h -> is_bytes (AoEHeader_bytes h).
Proof.
  intros Hh. rewrite AoEHeader_bytes_eq by exact Hh.
  destruct Hh as ([[_ Ht] _] & [[_ Hs] _] & _).
  unfold is_bytes. repeat (apply Forall_app; split); try assumption;
    apply le_bytes_in_range.
Qed.

Lemma AoEHeader_bytes_inj (h h' : AoEHeader) :
  valid_AoEHeader h -> valid_AoEHeader h' ->
  AoEHeader_bytes h = AoEHeader_bytes h' -> h = h'.
Proof.
  intros Hh Hh' E.
  rewrite (AoEHeader_bytes_eq h Hh), (AoEHeader_bytes_eq h' Hh') in E.
  destruct Hh as ([[Hlt _] Hpt] & [[Hls _] Hps] & Hc & Hf & Hl & He & Hi).
  destruct Hh' as ([[Hlt' _] Hpt'] & [[Hls' _] Hps'] & Hc' & Hf' & Hl' & He' & Hi').
  destruct h as [[[ot] pt] [[os] ps] cmd fl len err inv].
  destruct h' as [[[ot'] pt'] [[os'] ps'] cmd' fl' len' err' inv'].
  cbn [target source net_id octets _port _command_id _state_flags aoe_length
       error_code invoke_id] in *.
  assert (forall (n : nat) (a b x y : list Z),
            List.length a = n -> List.length b = n ->
            a ++ x = b ++ y -> a = b /\ x = y) as Hsplit.
  { intros n a b x y Ha Hb Hab. apply app_inj_1 in Hab; [exact Hab|congruence]. }
  rewrite <- !app_assoc in E.
  apply (Hsplit 6%nat) in E as [-> E]; try assumption.
  apply (Hsplit 2%nat) in E as [E1 E]; try apply le_bytes_length.
  apply (Hsplit 6%nat) in E as [-> E]; try assumption.
  apply (Hsplit 2%nat) in E as [E2 E]; try apply le_bytes_length.
  apply (Hsplit 2%nat) in E as [E3 E]; try apply le_bytes_length.
  apply (Hsplit 2%nat) in E as [E4 E]; try apply le_bytes_length.
  apply (Hsplit 4%nat) in E as [E5 E]; try apply le_bytes_length.
  apply (Hsplit 4%nat) in E as [E6 E7]; try apply le_bytes_length.
  assert (forall n a b, in_range n a -> in_range n b ->
            le_bytes n a = le_bytes n b -> a = b) as Hinj.
  { intros n a b Ha Hb Hab.
    rewrite <- (le_value_le_bytes n a Ha), <- (le_value_le_bytes n b Hb).
    now rewrite Hab. }
  apply Hinj in E1, E2, E3, E4, E5, E6, E7; try assumption.
  now subst.
Qed.

(** X3.  Decoding and encoding an [AoEHeader] are inverse to each other:
    the bytes of a valid header, with any payload behind them, decode to
    that header; every buffer of 32 bytes decodes to a valid header that
    encodes to the same bytes; a shorter buffer is refused with
    [ValueError]. *)
Theorem AoEHeader_from_buffer_round_trip :
  forall (h : AoEHeader) (payload buf : buffer),
    valid_AoEHeader h -> List.length buf = 32%nat -> is_bytes buf ->
    AoEHeader_from_buffer (AoEHeader_bytes h ++ payload) = Py.Ok h
    /\ (exists h', AoEHeader_from_buffer buf = Py.Ok h'
                   /\ valid_AoEHeader h' /\ AoEHeader_bytes h' = buf)
    /\ (forall short, (List.length short < 32)%nat ->
                      AoEHeader_from_buffer short = Py.Raise Py.ValueError).
Proof.
  intros h payload buf Hh Hlen Hb. split; [|split].
  - pose proof (AoEHeader_bytes_length h Hh) as Hl.
    destruct (AoEHeader_of_32_bytes (AoEHeader_bytes h) Hl
                (AoEHeader_bytes_is_bytes h Hh)) as (h' & Hdec & Hv' & Hbytes).
    assert (h' = h) as -> by (now apply AoEHeader_bytes_inj).
    unfold AoEHeader_from_buffer, from_buffer in *.
    change (sizeof AoEHeader_t) with 32%nat in *.
    rewrite length_app, Hl in *.
    replace (32 + List.length payload <? 32)%nat with false
      by (symmetry; apply Nat.ltb_ge; lia).
    change (32 <? 32)%nat with false in Hdec.
    rewrite <- Hl at 1. rewrite firstn_app, Nat.sub_diag, firstn_all. simpl firstn.
    rewrite app_nil_r. rewrite <- Hl in Hdec at 1. rewrite firstn_all in Hdec.
    exact Hdec.
  - now apply AoEHeader_of_32_bytes.
  - intros short Hs. unfold AoEHeader_from_buffer, from_buffer.
    change (sizeof AoEHeader_t) with 32%nat.
    apply Nat.ltb_lt in Hs. now rewrite Hs.
Qed.

Lemma AoEHeader_from_buffer_round_trip_witness :
  AoEHeader_from_buffer (AoEHeader_bytes Samples.example_AoEHeader ++ [1; 2; 3])
  = Py.Ok Samples.example_AoEHeader.
Proof.
  refine (proj1 (AoEHeader_from_buffer_round_trip Samples.example_AoEHeader [1; 2; 3]
                   (repeat 0 32) example_AoEHeader_valid eq_refl _)).
  repeat constructor; unfold in_range; simpl; lia.
Defined.

(** *** Enum-backed fields in strict mode *)

Lemma member_of_value_spec (members : list (string * Z)) (v : Z) (n : string) (w : Z) :
  member_of_value members v = Some (n, w) -> w = v /\ In (n, v) members.
Proof.
  induction members as [|[n' w'] members IH]; simpl; [discriminate|].
  destruct (Z.eqb w' v) eqn:E.
  - intros H. inversion H; subst. apply Z.eqb_eq in E. subst. split; [reflexivity|now left].
  - intros H. destruct (IH H) as [-> Hin]. split; [reflexivity|now right].
Qed.

(** X4.  A strict enum property accepts exactly what its enum class
    accepts, whatever the class: the setter stores the value of the member
    the class returns, and reading gives that member back; what the class
    refuses, the setter and the getter refuse with the same exception.
    For an [Enum] or [IntEnum] class, whose values are its named members,
    these are the values of the members: a value without member is refused
    with [ValueError] on both sides.  A flag class also accepts
    combinations of its members, and so does its property. *)
Theorem strict_enum_property_round_trip :
  forall (enum_cls : pyval -> Py.result pyval) (members : list (string * Z))
         (bytes : nat) (v : Z),
    in_range bytes v ->
    (forall x m, enum_cls x = Py.Ok m -> pyval_int m = v ->
       fset_of enum_cls true bytes x = Py.Ok v
       /\ (enum_cls (PyInt v) = Py.Ok m ->
           fget_of enum_cls true v = Py.Ok m
           /\ Py.bind (fset_of enum_cls true bytes x) (fget_of enum_cls true) = Py.Ok m))
    /\ (forall x e, enum_cls x = Py.Raise e ->
          fset_of enum_cls true bytes x = Py.Raise e)
    /\ (forall e, enum_cls (PyInt v) = Py.Raise e ->
          fget_of enum_cls true v = Py.Raise e)
    /\ (forall strict x,
          fget members strict v = fget_of (Structs.enum_cls members) strict v
          /\ fset members strict bytes x
             = fset_of (Structs.enum_cls members) strict bytes x)
    /\ (forall n w, member_of_value members v = Some (n, w) ->
          fset members true bytes (PyInt v) = Py.Ok v
          /\ fset members true bytes (PyEnum n v) = Py.Ok v
          /\ fget members true v = Py.Ok (PyEnum n v)
          /\ Py.bind (fset members true bytes (PyInt v)) (fget members true)
             = Py.Ok (PyEnum n v))
    /\ (member_of_value members v = None ->
        (forall n, fset members true bytes (PyEnum n v) = Py.Raise Py.ValueError)
        /\ fset members true bytes (PyInt v) = Py.Raise Py.ValueError
        /\ fget members true v = Py.Raise Py.ValueError).
Proof.
  intros cls members bytes v Hv.
  split; [|split; [|split; [|split; [|split]]]].
  - intros x m Hx Hm. unfold fset_of. rewrite Hx. simpl. rewrite Hm.
    rewrite (wrap_in_range bytes v Hv). split; [reflexivity|].
    intros Hback. unfold fget_of. simpl. rewrite Hback. split; reflexivity.
  - intros x e Hx. unfold fset_of. now rewrite Hx.
  - intros e He. unfold fget_of. rewrite He. destruct e; reflexivity.
  - intros strict x. split; reflexivity.
  - intros n w Hm. destruct (member_of_value_spec _ _ _ _ Hm) as [-> _].
    unfold fset, fget, Structs.enum_cls. simpl. rewrite Hm. simpl.
    rewrite (wrap_in_range bytes v Hv). simpl. rewrite Hm. repeat split.
  - intros Hm. unfold fset, fget, Structs.enum_cls. simpl. rewrite Hm.
    repeat split.
Qed.

Lemma strict_enum_property_round_trip_witness :
  fget [("SERVERCYCLE"%string, 3); ("SERVERONCHA"%string, 4)] true 4
  = Py.Ok (PyEnum "SERVERONCHA" 4)
  /\ fset [("SERVERCYCLE"%string, 3); ("SERVERONCHA"%string, 4)] true 4 (PyInt 5)
     = Py.Raise Py.ValueError.
Proof.
  pose proof (strict_enum_property_round_trip
                (Structs.enum_cls [("SERVERCYCLE"%string, 3); ("SERVERONCHA"%string, 4)])
                [("SERVERCYCLE"%string, 3); ("SERVERONCHA"%string, 4)] 4 4
                ltac:(unfold in_range; simpl; lia)) as (_ & _ & _ & _ & H & _).
  split; [|reflexivity].
  exact (proj1 (proj2 (proj2 (H "SERVERONCHA"%string 4 eq_refl)))).
Defined.

(** *** [from_sdo] *)

Lemma testbit_small (a : Z) (k n : Z) :
  0 <= a < 2 ^ k -> 0 <= k <= n -> Z.testbit a n = false.
Proof.
  intros Ha Hk. destruct (Z.eq_dec a 0) as [->|Hne]; [apply Z.bits_0|].
  apply Z.bits_above_log2; [lia|].
  apply Z.lt_le_trans with k; [|lia].
  apply Z.log2_lt_pow2; lia.
Qed.

Lemma sdo_offset_parts (i s : Z) :
  0 <= i < 2 ^ 16 -> 0 <= s < 2 ^ 16 ->
  Z.shiftr (Z.lor (Z.shiftl i 16) s) 16 = i
  /\ Z.land (Z.lor (Z.shiftl i 16) s) (2 ^ 16 - 1) = s
  /\ 0 <= Z.lor (Z.shiftl i 16) s < 2 ^ 32.
Proof.
  intros Hi Hs. split; [|split].
  - apply Z.bits_inj'. intros n Hn.
    rewrite Z.shiftr_spec, Z.lor_spec, Z.shiftl_spec by lia.
    rewrite (testbit_small s 16 (n + 16)) by lia.
    rewrite orb_false_r. f_equal. lia.
  - change (2 ^ 16 - 1) with (Z.ones 16). rewrite Z.land_ones by lia.
    apply Z.bits_inj'. intros n Hn.
    destruct (Z.lt_ge_cases n 16) as [Hlt|Hge].
    + rewrite Z.mod_pow2_bits_low by lia.
      rewrite Z.lor_spec, Z.shiftl_spec_low by lia. reflexivity.
    + rewrite Z.mod_pow2_bits_high by lia.
      symmetry. apply (testbit_small s 16 n); lia.
  - assert (Z.lor (Z.shiftl i 16) s = i * 2 ^ 16 + s) as ->.
    { rewrite <- Z.shiftl_mul_pow2 by lia.
      rewrite <- Z.lxor_lor, <- Z.add_nocarry_lxor; try reflexivity;
        apply Z.bits_inj'; intros n Hn; rewrite Z.land_spec, Z.bits_0;
        destruct (Z.lt_ge_cases n 16) as [Hlt|Hge];
        try (rewrite Z.shiftl_spec_low by lia; reflexivity);
        rewrite (testbit_small s 16 n) by lia; apply andb_false_r. }
    change (2 ^ 32) with (2 ^ 16 * 2 ^ 16). nia.
Qed.

(** X5.  [from_sdo] packs the SDO index into the upper and the sub-index
    into the lower 16 bits of the offset: for 16-bit arguments both are
    read back from the stored offset, so different pairs give different
    offsets. *)
Theorem from_sdo_packs_index_and_sub_index :
  forall (SDO_UPLOAD sdo_index sdo_sub_index data_length : Z),
    0 <= sdo_index < 2 ^ 16 -> 0 <= sdo_sub_index < 2 ^ 16 ->
    Z.shiftr (offset (from_sdo SDO_UPLOAD sdo_index sdo_sub_index data_length)) 16
    = sdo_index
    /\ Z.land (offset (from_sdo SDO_UPLOAD sdo_index sdo_sub_index data_length))
         (2 ^ 16 - 1) = sdo_sub_index
    /\ (forall i' s', 0 <= i' < 2 ^ 16 -> 0 <= s' < 2 ^ 16 ->
          offset (from_sdo SDO_UPLOAD i' s' data_length)
          = offset (from_sdo SDO_UPLOAD sdo_index sdo_sub_index data_length) ->
          i' = sdo_index /\ s' = sdo_sub_index).
Proof.
  intros SDO i s len Hi Hs.
  assert (forall a b, 0 <= a < 2 ^ 16 -> 0 <= b < 2 ^ 16 ->
            offset (from_sdo SDO a b len) = Z.lor (Z.shiftl a 16) b) as Hoff.
  { intros a b Ha Hb. unfold from_sdo. cbn [offset].
    apply wrap_in_range. unfold in_range.
    destruct (sdo_offset_parts a b Ha Hb) as (_ & _ & H). exact H. }
  rewrite (Hoff i s Hi Hs).
  destruct (sdo_offset_parts i s Hi Hs) as (H1 & H2 & _).
  split; [exact H1|]. split; [exact H2|].
  intros i' s' Hi' Hs' E. rewrite (Hoff i' s' Hi' Hs') in E.
  destruct (sdo_offset_parts i' s' Hi' Hs') as (H1' & H2' & _).
  rewrite E in H1', H2'. split; congruence.
Qed.

Lemma from_sdo_packs_index_and_sub_index_witness :
  offset (from_sdo 61697 24576 1 4) = 1610612737
  /\ Z.shiftr 1610612737 16 = 24576.
Proof.
  split; [reflexivity|].
  exact (proj1 (from_sdo_packs_index_and_sub_index 61697 24576 1 4
                  ltac:(lia) ltac:(lia))).
Defined.

(** *** [from_buffer_extended] *)

Lemma AdsReadWriteRequest_bytes_eq (r : AdsReadWriteRequest) :
  AdsReadWriteRequest_bytes r
  = le_bytes 4 (rw__index_group r) ++ le_bytes 4 (rw_index_offset r)
    ++ le_bytes 4 (rw_read_length r) ++ le_bytes 4 (rw_write_length r).
Proof. reflexivity. Qed.

(** X6.  [from_buffer_extended] refuses a buffer shorter than the 16 bytes
    of the fixed part with [ValueError]; otherwise it never fails, and the
    data are the bytes behind the fixed part, as many as [write_length]
    says or as many as there are if the buffer ends before.  The bytes of
    a valid request followed by its data decode to the request with these
    data, whatever follows. *)
Theorem from_buffer_extended_reads_declared_data :
  forall (r : AdsReadWriteRequest) (data rest buf : list Z),
    valid_AdsReadWriteRequest r -> rw_write_length r = Z.of_nat (List.length data) ->
    from_buffer_extended (AdsReadWriteRequest_bytes r ++ data ++ rest)
    = Py.Ok {| rw__index_group := rw__index_group r;
               rw_index_offset := rw_index_offset r;
               rw_read_length := rw_read_length r;
               rw_write_length := rw_write_length r;
               rw_data := Some data |}
    /\ ((List.length buf < 16)%nat ->
        from_buffer_extended buf = Py.Raise Py.ValueError)
    /\ ((16 <= List.length buf)%nat ->
        exists r', from_buffer_extended buf = Py.Ok r'
                   /\ rw_data r'
                      = Some (firstn (Z.to_nat (rw_write_length r')) (skipn 16 buf))
                   /\ (forall d, rw_data r' = Some d ->
                         List.length d
                         = Nat.min (Z.to_nat (rw_write_length r'))
                             (List.length buf - 16))).
Proof.
  intros r data rest buf (Hg & Ho & Hr & Hw) Hlen. split; [|split].
  - rewrite AdsReadWriteRequest_bytes_eq.
    destruct (le_bytes 4 (rw__index_group r)) as [|g0 [|g1 [|g2 [|g3 [|]]]]] eqn:Eg;
      try (apply (f_equal (@List.length Z)) in Eg; rewrite le_bytes_length in Eg;
           discriminate Eg).
    destruct (le_bytes 4 (rw_index_offset r)) as [|o0 [|o1 [|o2 [|o3 [|]]]]] eqn:Eo;
      try (apply (f_equal (@List.length Z)) in Eo; rewrite le_bytes_length in Eo;
           discriminate Eo).
    destruct (le_bytes 4 (rw_read_length r)) as [|r0 [|r1 [|r2 [|r3 [|]]]]] eqn:Er;
      try (apply (f_equal (@List.length Z)) in Er; rewrite le_bytes_length in Er;
           discriminate Er).
    destruct (le_bytes 4 (rw_write_length r)) as [|w0 [|w1 [|w2 [|w3 [|]]]]] eqn:Ew;
      try (apply (f_equal (@List.length Z)) in Ew; rewrite le_bytes_length in Ew;
           discriminate Ew).
    unfold from_buffer_extended, from_buffer.
    change (sizeof AdsReadWriteRequest_t) with 16%nat.
    cbn [app List.length Nat.ltb Nat.leb firstn Py.bind].
    eval_fields. cbn [offsetof struct_layout AdsReadWriteRequest_t].
    change (offsetof (layout _pack_ AdsReadWriteRequest_fields 0) "_data_start")
      with (Some (16%nat, 0%nat)). cbv beta iota.
    rewrite <- Eg, <- Eo, <- Er, <- Ew.
    rewrite !le_value_le_bytes by assumption.
    f_equal. f_equal. f_equal. unfold slice.
    rewrite Hlen, Nat2Z.id.
    replace (16 + List.length data - 16)%nat with (List.length data) by lia.
    cbn [skipn app]. rewrite drop_0.
    now rewrite firstn_app, Nat.sub_diag, firstn_all, app_nil_r.
  - intros Hs. unfold from_buffer_extended, from_buffer.
    change (sizeof AdsReadWriteRequest_t) with 16%nat.
    apply Nat.ltb_lt in Hs. now rewrite Hs.
  - intros Hl. unfold from_buffer_extended, from_buffer.
    change (sizeof AdsReadWriteRequest_t) with 16%nat.
    replace (List.length buf <? 16)%nat with false
      by (symmetry; apply Nat.ltb_ge; lia).
    cbn [Py.bind].
    change (offsetof (struct_layout AdsReadWriteRequest_t) "_data_start")
      with (Some (16%nat, 0%nat)). cbv beta iota.
    eexists. split; [reflexivity|]. cbn [rw_data rw_write_length]. unfold slice.
    split.
    + do 2 f_equal. lia.
    + intros d Hd. inversion Hd; subst.
      rewrite length_take, length_drop. lia.
Qed.

Lemma from_buffer_extended_reads_declared_data_witness :
  from_buffer_extended
    ([3; 240; 0; 0; 0; 0; 0; 0; 4; 0; 0; 0; 2; 0; 0; 0] ++ [77; 0] ++ [9])
  = Py.Ok {| rw__index_group := 61443; rw_index_offset := 0; rw_read_length := 4;
             rw_write_length := 2; rw_data := Some [77; 0] |}.
Proof.
  refine (proj1 (from_buffer_extended_reads_declared_data
                   {| rw__index_group := 61443; rw_index_offset := 0;
                      rw_read_length := 4; rw_write_length := 2; rw_data := None |}
                   [77; 0] [9] [] _ eq_refl)).
  unfold valid_AdsReadWriteRequest, in_range. simpl. lia.
Defined.

(** *** The registry of command structures *)

(** X7.  Registering a class for a command and direction makes
    [get_struct_by_command] return it for exactly that command and
    direction, replacing an earlier registration there and leaving every
    other lookup as it was; a lookup that was never registered raises
    [KeyError].  Once the module is loaded, the response of
    [READ_DEVICE_INFO] is [AdsDeviceInfo] and its request is not
    registered. *)
Theorem get_struct_by_command_after_use_for :
  forall (_commands : gmap Z (gmap string string)) (command_id other_id : Z)
         (cls : string) (request : bool),
    get_struct_by_command command_id false (use_for_response command_id cls _commands)
    = Py.Ok cls
    /\ get_struct_by_command command_id true (use_for_request command_id cls _commands)
       = Py.Ok cls
    /\ get_struct_by_command command_id true (use_for_response command_id cls _commands)
       = get_struct_by_command command_id true _commands
    /\ get_struct_by_command command_id false (use_for_request command_id cls _commands)
       = get_struct_by_command command_id false _commands
    /\ (other_id <> command_id ->
        get_struct_by_command other_id request (use_for_response command_id cls _commands)
        = get_struct_by_command other_id request _commands
        /\ get_struct_by_command other_id request
             (use_for_request command_id cls _commands)
           = get_struct_by_command other_id request _commands)
    /\ get_struct_by_command command_id request ∅ = Py.Raise Py.KeyError
    /\ (forall READ_DEVICE_INFO READ_WRITE READ_STATE,
          READ_DEVICE_INFO <> READ_WRITE -> READ_DEVICE_INFO <> READ_STATE ->
          READ_WRITE <> READ_STATE ->
          get_struct_by_command READ_DEVICE_INFO false
            (_commands_loaded READ_DEVICE_INFO READ_WRITE READ_STATE)
          = Py.Ok "AdsDeviceInfo"%string
          /\ get_struct_by_command READ_DEVICE_INFO true
               (_commands_loaded READ_DEVICE_INFO READ_WRITE READ_STATE)
             = Py.Raise Py.KeyError
          /\ get_struct_by_command READ_WRITE true
               (_commands_loaded READ_DEVICE_INFO READ_WRITE READ_STATE)
             = Py.Ok "AdsReadWriteRequest"%string
          /\ get_struct_by_command READ_STATE false
               (_commands_loaded READ_DEVICE_INFO READ_WRITE READ_STATE)
             = Py.Ok "AdsReadStateResponse"%string).
Proof.
  intros reg cid other cls request.
  assert (Hsame : forall (key : string) (r : gmap Z (gmap string string)),
             <[key := cls]> (default ∅ (r !! cid)) !! key = Some cls)
    by (intros; apply lookup_insert_eq).
  assert (Hkey : forall (key key' : string) (r : gmap Z (gmap string string)),
             key <> key' ->
             match <[key := cls]> (default ∅ (r !! cid)) !! key' with
             | Some c => Py.Ok c | None => Py.Raise Py.KeyError end
             = match r !! cid with
               | Some by_key => match by_key !! key' with
                                | Some c => Py.Ok c | None => Py.Raise Py.KeyError end
               | None => Py.Raise Py.KeyError
               end).
  { intros key key' r Hne. rewrite lookup_insert_ne by exact Hne.
    destruct (r !! cid); [reflexivity|]. simpl. now rewrite lookup_empty. }
  unfold get_struct_by_command, use_for_response, use_for_request, _use_for.
  split; [now rewrite lookup_insert_eq, Hsame|].
  split; [now rewrite lookup_insert_eq, Hsame|].
  split; [rewrite lookup_insert_eq; apply Hkey; discriminate|].
  split; [rewrite lookup_insert_eq; apply Hkey; discriminate|].
  split; [intros Hne; split; now rewrite lookup_insert_ne by congruence|].
  split; [now rewrite lookup_empty|].
  intros D W S Hdw Hds Hws.
  unfold _commands_loaded, use_for_response, use_for_request, _use_for.
  split; [|split; [|split]].
  - rewrite lookup_insert_ne by congruence. rewrite lookup_insert_ne by congruence.
    rewrite lookup_insert_eq. now rewrite lookup_insert_eq.
  - rewrite lookup_insert_ne by congruence. rewrite lookup_insert_ne by congruence.
    rewrite lookup_insert_eq. rewrite lookup_insert_ne by discriminate.
    rewrite lookup_empty. simpl. now rewrite lookup_empty.
  - rewrite lookup_insert_ne by congruence. rewrite lookup_insert_eq.
    now rewrite lookup_insert_eq.
  - rewrite lookup_insert_eq. now rewrite lookup_insert_eq.
Qed.

(** *** [AmsNetId.from_string] and [AmsNetId.from_ipv4] *)

Lemma split_no_sep (sep : ascii) (p : string) :
  no_sep sep p = true -> Py.split sep p = [p].
Proof.
  unfold no_sep. induction p as [|c p IH]; simpl; [reflexivity|].
  intros H. apply andb_prop in H as [Hc Hp].
  destruct (Ascii.eqb c sep); [discriminate|]. now rewrite IH.
Qed.

Lemma split_app_sep (sep : ascii) (p t : string) :
  no_sep sep p = true ->
  Py.split sep (p ++ String sep t) = p :: Py.split sep t.
Proof.
  unfold no_sep. induction p as [|c p IH]; simpl.
  - intros _. now rewrite Ascii.eqb_refl.
  - intros H. apply andb_prop in H as [Hc Hp].
    destruct (Ascii.eqb c sep); [discriminate|]. now rewrite IH.
Qed.

(** Joining parts that are free of the separator and splitting again gives
    the parts back. *)
Lemma split_join (sep : ascii) (parts : list string) :
  parts <> [] -> forallb (no_sep sep) parts = true ->
  Py.split sep (Py.join (String sep EmptyString) parts) = parts.
Proof.
  induction parts as [|p parts IH]; [congruence|]. intros _ H.
  simpl in H. apply andb_prop in H as [Hp Hps].
  destruct parts as [|q parts].
  - simpl. now apply split_no_sep.
  - rewrite join_cons by discriminate.
    change (String sep EmptyString ++ ?x)%string with (String sep x).
    rewrite split_app_sep by exact Hp. f_equal. apply IH; [discriminate|exact Hps].
Qed.

Lemma all_octets_checked :
  forallb (fun v => match Py.int (Py.str v) with
                    | Py.Ok w => (w =? v) && canonical_octet (Py.str v)
                                 && no_sep "." (Py.str v)
                    | Py.Raise _ => false
                    end) all_octets = true.
Proof. vm_compute. reflexivity. Qed.

Lemma in_all_octets (v : Z) : in_range 1 v -> In v all_octets.
Proof.
  unfold in_range, all_octets. intros H. apply in_map_iff.
  exists (Z.to_nat v). split; [lia|]. apply in_seq.
  change (2 ^ (8 * Z.of_nat 1)) with 256 in H. lia.
Qed.

Lemma octet_str (v : Z) :
  in_range 1 v ->
  Py.int (Py.str v) = Py.Ok v /\ canonical_octet (Py.str v) = true
  /\ no_sep "." (Py.str v) = true.
Proof.
  intros H. pose proof all_octets_checked as Hall.
  rewrite forallb_forall in Hall. specialize (Hall v (in_all_octets v H)).
  destruct (Py.int (Py.str v)) as [w|]; [|discriminate].
  apply andb_prop in Hall as [Hall Hn]. apply andb_prop in Hall as [Hw Hc].
  apply Z.eqb_eq in Hw. subst w. repeat split; assumption.
Qed.

Lemma octets_str (l : list Z) :
  Forall (in_range 1) l ->
  Py.map_result Py.int (map Py.str l) = Py.Ok l
  /\ forallb canonical_octet (map Py.str l) = true
  /\ forallb (no_sep ".") (map Py.str l) = true.
Proof.
  induction 1 as [|v l Hv _ (IH1 & IH2 & IH3)]; simpl; [repeat split|].
  destruct (octet_str v Hv) as (H1 & H2 & H3).
  rewrite H1, IH1, H2, IH2, H3, IH3. repeat split.
Qed.

Lemma int_raises_ValueError (s : string) (e : Py.exn) :
  Py.int s = Py.Raise e -> e = Py.ValueError.
Proof.
  unfold Py.int. cbv zeta.
  destruct (match Py.strip (list_ascii_of_string s) with
            | [] => _ | _ => _ end); [|congruence].
  destruct (Py.int_max_str_digits <? _); [congruence|discriminate].
Qed.

Lemma map_int_raises_ValueError (l : list string) (e : Py.exn) :
  Py.map_result Py.int l = Py.Raise e -> e = Py.ValueError.
Proof.
  induction l as [|s l IH]; simpl; [discriminate|].
  destruct (Py.int s) eqn:E; simpl.
  - destruct (Py.map_result Py.int l); simpl; [discriminate|].
    intros H. apply IH. exact H.
  - intros H. inversion H; subst. now apply int_raises_ValueError in E.
Qed.

Lemma wrap_range (n : nat) (v : Z) : in_range n (wrap n v).
Proof. unfold in_range, wrap. apply Z.mod_pos_bound. lia. Qed.

Lemma AmsNetId_new_six (parts : list Z) :
  List.length parts = 6%nat ->
  AmsNetId_new parts = Py.Ok {| octets := map (wrap 1) parts |}
  /\ valid_AmsNetId {| octets := map (wrap 1) parts |}.
Proof.
  intros Hl. unfold AmsNetId_new, array_init. rewrite Hl. simpl.
  rewrite app_nil_r. split; [reflexivity|]. split; simpl.
  - now rewrite length_map.
  - apply List.Forall_forall. intros x Hx. apply in_map_iff in Hx as (y & <- & _).
    apply wrap_range.
Qed.

Lemma from_string_repr (n : AmsNetId) :
  valid_AmsNetId n ->
  from_string (AmsNetId_repr n) = Py.Ok n
  /\ NetIdString.valid (AmsNetId_repr n) = true.
Proof.
  destruct n as [o]. intros [Hl Hr]. simpl in Hl, Hr.
  destruct (octets_str o Hr) as (H1 & H2 & H3).
  assert (Hs : Py.split "." (AmsNetId_repr {| octets := o |}) = map Py.str o).
  { unfold AmsNetId_repr. cbn [octets]. apply split_join; [|exact H3].
    destruct o; [discriminate Hl|discriminate]. }
  split.
  - unfold from_string. rewrite Hs, H1. cbn [Py.bind]. rewrite Hl. simpl.
    destruct (AmsNetId_new_six o Hl) as [-> _].
    now rewrite map_wrap_in_range by exact Hr.
  - unfold NetIdString.valid. rewrite Hs, length_map, Hl, H2. reflexivity.
Qed.

(** X8.  On every string of code points below 256 [from_string] raises
    nothing but [ValueError], and whatever it accepts it normalises: the
    result has six octets below 256, each the parsed number modulo 256,
    and its printed form is a canonical net id string that [from_string]
    reads back to the same net id. *)
Theorem from_string_normalises :
  forall (s : string),
    (forall e, from_string s = Py.Raise e -> e = Py.ValueError)
    /\ (forall n, from_string s = Py.Ok n ->
          valid_AmsNetId n
          /\ (exists parts, Py.map_result Py.int (Py.split "." s) = Py.Ok parts
                            /\ octets n = map (wrap 1) parts)
          /\ NetIdString.valid (AmsNetId_repr n) = true
          /\ from_string (AmsNetId_repr n) = Py.Ok n).
Proof.
  intros s. unfold from_string.
  destruct (Py.map_result Py.int (Py.split "." s)) as [parts|e0] eqn:E; cbn [Py.bind].
  - destruct (List.length parts =? 6)%nat eqn:El; cbn [negb].
    + apply Nat.eqb_eq in El. destruct (AmsNetId_new_six parts El) as [Hn Hv].
      rewrite Hn. split; [discriminate|].
      intros n H. inversion H; subst n. split; [exact Hv|].
      split; [exists parts; split; reflexivity|].
      destruct (from_string_repr _ Hv) as [H1 H2]. split; assumption.
    + split; [congruence|discriminate].
  - apply map_int_raises_ValueError in E. subst e0. split; [congruence|discriminate].
Qed.

Lemma parse_octet_checked :
  forallb (fun p => match _parse_octet p with
                    | Py.Ok v => canonical_octet p
                                 && match Py.int p with
                                    | Py.Ok w => (w =? v) && (0 <=? v) && (v <=? 255)
                                    | Py.Raise _ => false
                                    end
                    | Py.Raise e => match e with Py.ValueError => true | _ => false end
                    end) short_parts = true.
Proof. vm_compute. reflexivity. Qed.

Lemma all_digits_short (p : string) :
  forallb is_digit (list_ascii_of_string p) = true ->
  (1 <= List.length (list_ascii_of_string p) <= 3)%nat -> In p short_parts.
Proof.
  intros Hd Hl.
  destruct p as [|a [|b [|c [|d rest]]]]; simpl in Hl; try lia; simpl in Hd;
    repeat match goal with
           | H : _ && _ = true |- _ => apply andb_prop in H as [? ?]
           end;
    repeat match goal with
           | H : is_digit _ = true |- _ => apply is_digit_chars in H
           end;
    unfold short_parts.
  - apply in_or_app. left. apply in_map_iff. eauto.
  - apply in_or_app. right. apply in_or_app. left.
    apply in_flat_map. exists a. split; [assumption|]. apply in_map_iff. eauto.
  - apply in_or_app. right. apply in_or_app. right.
    apply in_flat_map. exists a. split; [assumption|].
    apply in_flat_map. exists b. split; [assumption|]. apply in_map_iff. eauto.
Qed.

Lemma parse_octet_cases (p : string) :
  (exists v, _parse_octet p = Py.Ok v /\ canonical_octet p = true
             /\ Py.int p = Py.Ok v /\ in_range 1 v)
  \/ _parse_octet p = Py.Raise Py.ValueError.
Proof.
  destruct (forallb is_digit (list_ascii_of_string p)) eqn:Hd.
  - destruct (3 <? List.length (list_ascii_of_string p))%nat eqn:Hl.
    + right. unfold _parse_octet.
      destruct (list_ascii_of_string p); [reflexivity|]. now rewrite Hd, Hl.
    + destruct (list_ascii_of_string p) as [|c0 l0] eqn:Hp.
      * right. unfold _parse_octet. now rewrite Hp.
      * assert (Hin : In p short_parts).
        { apply all_digits_short; rewrite Hp; [exact Hd|].
          apply Nat.ltb_ge in Hl. simpl in *. lia. }
        pose proof parse_octet_checked as Hall.
        rewrite forallb_forall in Hall. specialize (Hall p Hin).
        destruct (_parse_octet p) as [v|e].
        -- left. exists v. apply andb_prop in Hall as [Hc Hi].
           destruct (Py.int p) as [w|]; [|discriminate].
           apply andb_prop in Hi as [Hi H255]. apply andb_prop in Hi as [Hw H0].
           apply Z.eqb_eq in Hw. subst w. repeat split; try assumption.
           ++ lia.
           ++ change (2 ^ (8 * Z.of_nat 1)) with 256. lia.
        -- right. destruct e; try discriminate. reflexivity.
  - right. unfold _parse_octet.
    destruct (list_ascii_of_string p); [reflexivity|]. now rewrite Hd.
Qed.

Lemma map_parse_octet (l : list string) :
  (exists vs, Py.map_result _parse_octet l = Py.Ok vs
              /\ Py.map_result Py.int l = Py.Ok vs
              /\ Forall (in_range 1) vs /\ map Py.str vs = l)
  \/ Py.map_result _parse_octet l = Py.Raise Py.ValueError.
Proof.
  induction l as [|p l IH]; simpl.
  - left. exists []. repeat split. constructor.
  - destruct (parse_octet_cases p) as [(v & Hp & Hc & Hi & Hv)|Hp]; rewrite Hp; simpl.
    + destruct IH as [(vs & H1 & H2 & H3 & H4)|H1]; rewrite H1; simpl.
      * left. exists (v :: vs). rewrite Hi, H2. simpl.
        repeat split; [now constructor|].
        destruct (canonical_octet_round_trips p Hc) as (w & Hw & _ & Hs).
        rewrite Hi in Hw. inversion Hw; subst w. now rewrite Hs, H4.
      * now right.
    + now right.
Qed.

Lemma string_app_assoc (a b c : string) :
  ((a ++ b) ++ c)%string = (a ++ b ++ c)%string.
Proof.
  induction a as [|x a IH]; [reflexivity|].
  change (String x ((a ++ b) ++ c) = String x (a ++ b ++ c))%string.
  f_equal. exact IH.
Qed.

(** X9.  With both extra octets below 256, [from_ipv4] on a string raises
    nothing but [ValueError]; when it returns, the net id is the one
    [from_string] reads from the address followed by the two octets, and
    it prints as exactly that string. *)
Theorem from_ipv4_agrees_with_from_string :
  forall (ip : string) (octet5 octet6 : Z),
    in_range 1 octet5 -> in_range 1 octet6 ->
    (forall e, from_ipv4 ip octet5 octet6 = Py.Raise e -> e = Py.ValueError)
    /\ (forall n, from_ipv4 ip octet5 octet6 = Py.Ok n ->
          valid_AmsNetId n
          /\ from_string (dotted ip octet5 octet6) = Py.Ok n
          /\ AmsNetId_repr n = dotted ip octet5 octet6).
Proof.
  intros ip o5 o6 H5 H6. unfold from_ipv4, IPv4Address_packed.
  destruct (List.length (Py.split "." ip) =? 4)%nat eqn:El; cbn [negb];
    [|split; [cbn [Py.bind]; congruence|discriminate]].
  apply Nat.eqb_eq in El.
  destruct (map_parse_octet (Py.split "." ip)) as [(vs & H1 & H2 & H3 & H4)|H1];
    rewrite H1; cbn [Py.bind]; [|split; [congruence|discriminate]].
  assert (Hl : List.length (vs ++ [o5; o6]) = 6%nat).
  { rewrite length_app. apply map_result_length in H1. simpl. lia. }
  assert (Hr : Forall (in_range 1) (vs ++ [o5; o6])).
  { apply Forall_app. split; [exact H3|].
    apply List.Forall_cons; [exact H5|]. apply List.Forall_cons; [exact H6|].
    apply List.Forall_nil. }
  destruct (AmsNetId_new_six _ Hl) as [Hn Hv]. rewrite Hn.
  rewrite map_wrap_in_range in * by exact Hr.
  split; [discriminate|]. intros n H. inversion H; subst n. clear H.
  split; [exact Hv|].
  assert (Hrepr : AmsNetId_repr {| octets := vs ++ [o5; o6] |} = dotted ip o5 o6).
  { unfold AmsNetId_repr, dotted. cbn [octets]. rewrite map_app, H4.
    rewrite <- (join_split "."%char ip) at 2.
    generalize (split_nonempty "."%char ip).
    generalize (Py.split "." ip). intros l Hne. unfold Py.join.
    induction l as [|p l IH]; [congruence|].
    destruct l as [|q l].
    - reflexivity.
    - change ((p :: q :: l) ++ map Py.str [o5; o6]) with (p :: (q :: l) ++ map Py.str [o5; o6]).
      cbn [String.concat app]. cbn [String.concat app] in IH.
      rewrite IH by discriminate.
      now rewrite !string_app_assoc. }
  split; [|exact Hrepr].
  rewrite <- Hrepr. apply from_string_repr. exact Hv.
Qed.

Lemma from_ipv4_agrees_with_from_string_witness :
  from_string "192.168.0.10.1.1" = Py.Ok {| octets := [192; 168; 0; 10; 1; 1] |}.
Proof.
  refine (proj1 (proj2 (proj2 (from_ipv4_agrees_with_from_string "192.168.0.10" 1 1
                                 _ _) _ eq_refl)));
    unfold in_range; simpl; lia.
Defined.

End RecordFacts.

(** ** More of the client *)

Section SessionFacts.

Import Client Logic Session.

Ltac stable_tac := let v := fresh in let c := fresh in let H := fresh in
  intros v c H; exact H.

(** *** [send] *)

(** What [send] does in each of its three outcomes. *)
Lemma send_cases items e port h (c : AsyncioClient) :
  send items e port h c
  = match writer c with
    | None =>
        (Py.Raise Py.AttributeError,
         match h with
         | Some h =>
             set__response_handlers
               (<[next_invoke_id c :=
                    default [] (_response_handlers c !! next_invoke_id c) ++ [h]]>
                  (_response_handlers c))
         | None => fun c => c
         end (set_next_invoke_id (next_invoke_id c + 1) c))
    | Some w =>
        (if drain_fails w then Py.Raise Py.OSError else Py.Ok (next_invoke_id c),
         set_writer
           (Some {| written :=
                      if closed w then written w
                      else written w ++
                           [{| fr_invoke_id := next_invoke_id c; fr_items := items;
                               fr_ads_error := e;
                               fr_port := port_or port (their_port c) |}];
                    closed := closed w; drain_fails := drain_fails w;
                    close_fails := close_fails w |})
           (match h with
            | Some h =>
                set__response_handlers
                  (<[next_invoke_id c :=
                       default [] (_response_handlers c !! next_invoke_id c) ++ [h]]>
                     (_response_handlers c))
            | None => fun c => c
            end (set_next_invoke_id (next_invoke_id c + 1) c)))
    end.
Proof.
  unfold send, mbind, get, request_to_wire. simpl.
  destruct h as [h|]; simpl; unfold writer_write, writer_drain; simpl;
    destruct (writer c) as [w|]; simpl; try reflexivity;
    destruct (drain_fails w); reflexivity.
Qed.

(** X10.  When [send] fails, because the client has no writer yet
    ([AttributeError]) or because draining the transport fails ([OSError]),
    the call has already taken the next invocation id and registered the
    response handler under it: the handler stays in the table, and in the
    second case the frame was handed to the transport as well. *)
Theorem send_failure_leaves_handler_registered :
  forall (c : AsyncioClient) (items : list request) (e : Z) (port : option Z)
         (h : handler),
    writer c = None \/ (exists w, writer c = Some w /\ drain_fails w = true) ->
    fst (send items e port (Some h) c)
    = Py.Raise (match writer c with
                | None => Py.AttributeError
                | Some _ => Py.OSError
                end)
    /\ next_invoke_id (snd (send items e port (Some h) c)) = next_invoke_id c + 1
    /\ handlers_for (next_invoke_id c) (snd (send items e port (Some h) c))
       = handlers_for (next_invoke_id c) c ++ [h]
    /\ frames_written (snd (send items e port (Some h) c))
       = match writer c with
         | None => []
         | Some w =>
             if closed w then written w
             else written w ++
                  [{| fr_invoke_id := next_invoke_id c; fr_items := items;
                      fr_ads_error := e; fr_port := port_or port (their_port c) |}]
         end.
Proof.
  intros c items e port h Hw. rewrite send_cases.
  destruct Hw as [Hw|(w & Hw & Hd)]; rewrite Hw; [|rewrite Hd];
    unfold handlers_for, frames_written; simpl; rewrite ?Hw;
    rewrite lookup_insert_eq; repeat split; reflexivity.
Qed.

Lemma send_failure_leaves_handler_registered_witness :
  fst (send [get_device_information_request] NOERR None (Some (got_response 0%nat))
         (__init__ 851 (Some 10)))
  = Py.Raise Py.AttributeError
  /\ handlers_for 0
       (snd (send [get_device_information_request] NOERR None
               (Some (got_response 0%nat)) (__init__ 851 (Some 10))))
     = [got_response 0%nat].
Proof.
  pose proof (send_failure_leaves_handler_registered (__init__ 851 (Some 10))
                [get_device_information_request] NOERR None (got_response 0%nat)
                (or_introl eq_refl)) as (H1 & _ & H2 & _).
  split; [exact H1|exact H2].
Defined.

(** *** [Symbol.release] *)

(** X11.  On an open connection [Symbol.release] of a symbol that holds a
    handle sends exactly one frame, a release of that handle to the default
    port with no response handler, and clears the handle; releasing again
    changes nothing.  When the send fails, the handle is kept. *)
Theorem Symbol_release_sends_once :
  forall (c : AsyncioClient) (s : ref) (sym : Symbol) (h : Z) (w : StreamWriter),
    symbol_store c !! s = Some sym -> sym_handle sym = Some h ->
    writer c = Some w -> closed w = false ->
    (drain_fails w = false ->
     fst (Symbol_release s c) = Py.Ok tt
     /\ frames_written (snd (Symbol_release s c))
        = written w ++ [sent_frame (next_invoke_id c) [release_handle_request h] None c]
     /\ symbol_store (snd (Symbol_release s c))
        = <[s := set_sym_handle None sym]> (symbol_store c)
     /\ _response_handlers (snd (Symbol_release s c)) = _response_handlers c
     /\ Symbol_release s (snd (Symbol_release s c))
        = (Py.Ok tt, snd (Symbol_release s c)))
    /\ (drain_fails w = true ->
        fst (Symbol_release s c) = Py.Raise Py.OSError
        /\ symbol_store (snd (Symbol_release s c)) = symbol_store c)
    /\ (fst (Symbol_release s (set_writer None c)) = Py.Raise Py.AttributeError
        /\ symbol_store (snd (Symbol_release s (set_writer None c))) = symbol_store c).
Proof.
  intros c s sym h w Hs Hh Hw Hc.
  assert (Hlt : (s < List.length (symbol_store c))%nat)
    by (apply lookup_lt_is_Some; eauto).
  split; [|split].
  - intros Hd. rewrite (Symbol_release_eq s c sym Hs), Hh.
    unfold release_handle, mbind. rewrite send_cases, Hw, Hd, Hc. simpl.
    unfold the_symbol. simpl. rewrite Hs. simpl.
    split; [reflexivity|]. split; [reflexivity|]. split; [reflexivity|].
    split; [reflexivity|].
    match goal with |- Symbol_release s ?c1 = _ =>
      rewrite (Symbol_release_eq s c1 (set_sym_handle None sym))
    end; [reflexivity|].
    simpl. now apply list_lookup_insert_eq.
  - intros Hd. rewrite (Symbol_release_eq s c sym Hs), Hh.
    unfold release_handle, mbind. rewrite send_cases, Hw, Hd. simpl.
    split; reflexivity.
  - rewrite (Symbol_release_eq s (set_writer None c) sym Hs), Hh.
    unfold release_handle, mbind. rewrite send_cases. simpl.
    split; reflexivity.
Qed.

Lemma Symbol_release_sends_once_witness :
  map fr_items (frames_written (snd (Symbol_release 0%nat Scenario.two_symbols)))
  = [[release_handle_request 11]]
  /\ Symbol_release 0%nat (snd (Symbol_release 0%nat Scenario.two_symbols))
     = (Py.Ok tt, snd (Symbol_release 0%nat Scenario.two_symbols)).
Proof.
  pose proof (Symbol_release_sends_once Scenario.two_symbols 0%nat
                (set_sym_handle (Some 11) (Symbol_init "MAIN.a")) 11 fresh_writer
                eq_refl eq_refl eq_refl eq_refl) as (H & _).
  destruct (H eq_refl) as (_ & H1 & _ & _ & H2).
  split; [rewrite H1; reflexivity|exact H2].
Defined.

(** *** [prune_unknown_notifications] *)

Lemma prune_unknown_notifications_eq (unknown : list ((string * Z) * Z)) :
  forall (c : AsyncioClient) (w : StreamWriter),
    writer c = Some w -> drain_fails w = false -> closed w = false ->
    exists c' w',
      prune_unknown_notifications unknown c = (Py.Ok tt, c')
      /\ writer c' = Some w' /\ drain_fails w' = false /\ closed w' = false
      /\ written w'
         = written w
           ++ imap (fun i entry =>
                      sent_frame (next_invoke_id c + Z.of_nat i)
                        [remove_notification_request (snd entry)]
                        (Some (snd (fst entry))) c) unknown
      /\ next_invoke_id c' = next_invoke_id c + Z.of_nat (List.length unknown)
      /\ their_port c' = their_port c
      /\ _response_handlers c' = _response_handlers c
      /\ notification_store c' = notification_store c
      /\ handle_to_notification c' = handle_to_notification c.
Proof.
  induction unknown as [|entry unknown IH]; intros c w Hw Hd Hc.
  - exists c, w. simpl. rewrite app_nil_r, Z.add_0_r. repeat split; assumption.
  - unfold prune_unknown_notifications. cbn [for_each]. unfold mbind at 1 2.
    rewrite send_cases, Hw, Hd, Hc. cbn [ret].
    match goal with |- context [for_each unknown ?f ?c1] =>
      destruct (IH c1 _ eq_refl eq_refl eq_refl)
        as (c' & w' & Heq & Hw' & Hd' & Hc' & Hwr & Hid & Hp & Hh & Hn & Hm)
    end.
    exists c', w'. unfold prune_unknown_notifications in Heq. rewrite Heq.
    split; [reflexivity|]. split; [exact Hw'|]. split; [exact Hd'|].
    split; [exact Hc'|]. simpl in Hwr, Hid, Hp, Hh, Hn, Hm.
    split.
    + rewrite Hwr, <- app_assoc. f_equal. simpl. f_equal.
      * unfold sent_frame. now rewrite Z.add_0_r.
      * apply imap_ext. intros i x _. unfold sent_frame. simpl. f_equal. lia.
    + repeat split; try assumption. rewrite Hid. simpl. lia.
Qed.

(** X12.  On an open connection [prune_unknown_notifications] sends one
    remove-notification frame for every entry, in order, under consecutive
    invocation ids and to the entry's port (the default port when that
    port is 0), and registers no response handler; no subscription of the
    client is touched. *)
Theorem prune_unknown_notifications_sends_each :
  forall (unknown : list ((string * Z) * Z)) (c : AsyncioClient) (w : StreamWriter),
    writer c = Some w -> drain_fails w = false -> closed w = false ->
    fst (prune_unknown_notifications unknown c) = Py.Ok tt
    /\ frames_written (snd (prune_unknown_notifications unknown c))
       = written w
         ++ imap (fun i entry =>
                    {| fr_invoke_id := next_invoke_id c + Z.of_nat i;
                       fr_items := [remove_notification_request (snd entry)];
                       fr_ads_error := NOERR;
                       fr_port := if snd (fst entry) =? 0 then their_port c
                                  else snd (fst entry) |}) unknown
    /\ next_invoke_id (snd (prune_unknown_notifications unknown c))
       = next_invoke_id c + Z.of_nat (List.length unknown)
    /\ _response_handlers (snd (prune_unknown_notifications unknown c))
       = _response_handlers c
    /\ notification_store (snd (prune_unknown_notifications unknown c))
       = notification_store c
    /\ handle_to_notification (snd (prune_unknown_notifications unknown c))
       = handle_to_notification c.
Proof.
  intros unknown c w Hw Hd Hc.
  destruct (prune_unknown_notifications_eq unknown c w Hw Hd Hc)
    as (c' & w' & Heq & Hw' & _ & _ & Hwr & Hid & _ & Hh & Hn & Hm).
  rewrite Heq. simpl. unfold frames_written. rewrite Hw', Hwr.
  repeat split; assumption.
Qed.

Lemma prune_unknown_notifications_sends_each_witness :
  frames_written
    (snd (prune_unknown_notifications
            [(("172.21.148.227.1.1"%string, 851), 5); (("172.21.148.227.1.1"%string, 0), 9)]
            connected_client))
  = [{| fr_invoke_id := 0; fr_items := [remove_notification_request 5];
        fr_ads_error := NOERR; fr_port := 851 |};
     {| fr_invoke_id := 1; fr_items := [remove_notification_request 9];
        fr_ads_error := NOERR; fr_port := 851 |}].
Proof.
  exact (proj1 (proj2 (prune_unknown_notifications_sends_each
                         [(("172.21.148.227.1.1"%string, 851), 5);
                          (("172.21.148.227.1.1"%string, 0), 9)]
                         connected_client fresh_writer eq_refl eq_refl eq_refl))).
Defined.

(** *** [Notification.clear] *)

Lemma set_notification_store_id (n : ref) (self : Notification) (c : AsyncioClient) :
  notification_store c !! n = Some self ->
  set_notification_store (<[n := self]> (notification_store c)) c = c.
Proof.
  intros H. destruct c. unfold set_notification_store. simpl in *.
  now rewrite list_insert_id.
Qed.

Lemma set_notification_store_twice (l l' : list Notification) (c : AsyncioClient) :
  set_notification_store l (set_notification_store l' c) = set_notification_store l c.
Proof. reflexivity. Qed.

Lemma for_each_remove_callback (n : ref) (tokens : list nat) :
  forall (c : AsyncioClient) (self : Notification),
    notification_store c !! n = Some self ->
    for_each tokens (remove_callback n) c
    = (Py.Ok tt,
       set_notification_store
         (<[n := after_clear tokens self]> (notification_store c)) c).
Proof.
  induction tokens as [|token tokens IH]; intros c self Hs.
  - simpl. unfold ret. now rewrite set_notification_store_id.
  - cbn [for_each]. unfold mbind. rewrite (remove_callback_eq n token c self Hs).
    assert (Hlt : (n < List.length (notification_store c))%nat)
      by (eapply lookup_lt_Some; exact Hs).
    rewrite (IH _ (after_remove_callback token self))
      by (simpl; now apply list_lookup_insert_eq).
    simpl. now rewrite list_insert_insert_eq.
Qed.

Lemma after_remove_callback_callbacks (token : nat) (self : Notification) :
  callbacks (after_remove_callback token self)
  = List.filter (fun cb => negb (Nat.eqb (fst cb) token)) (callbacks self).
Proof.
  unfold after_remove_callback. destruct (no_callbacks _); reflexivity.
Qed.

Lemma after_remove_callback_empty (token : nat) (self : Notification) :
  callbacks (after_remove_callback token self) = [] ->
  handle (after_remove_callback token self) = None
  /\ most_recent_notification (after_remove_callback token self) = None
  /\ needs_reactivation (after_remove_callback token self) = Some false.
Proof.
  unfold after_remove_callback, no_callbacks.
  destruct (callbacks (CallbackHandler_remove_callback token self)) eqn:E.
  - repeat split.
  - simpl. intros H. unfold CallbackHandler_remove_callback in E. simpl in E.
    congruence.
Qed.

Lemma after_clear_callbacks (tokens : list nat) :
  forall self,
    (forall cb, In cb (callbacks self) -> In (fst cb) tokens) ->
    callbacks (after_clear tokens self) = [].
Proof.
  induction tokens as [|token tokens IH]; intros self Hall.
  - simpl. destruct (callbacks self) as [|cb l]; [reflexivity|].
    destruct (Hall cb (or_introl eq_refl)).
  - cbn [after_clear fold_left]. apply IH. intros cb Hin.
    rewrite after_remove_callback_callbacks in Hin.
    apply filter_In in Hin as [Hin Hne].
    destruct (Hall cb Hin) as [Heq|Ht]; [|exact Ht].
    subst token. now rewrite Nat.eqb_refl in Hne.
Qed.

Lemma after_clear_snoc (tokens : list nat) (token : nat) (self : Notification) :
  after_clear (tokens ++ [token]) self
  = after_remove_callback token (after_clear tokens self).
Proof. unfold after_clear. now rewrite fold_left_app. Qed.

(** X13.  [Notification.clear] never raises and sends nothing.  It leaves
    the notification without callbacks; if there were any, the handle and
    the cached sample are gone with them, and still no remove-notification
    command went out.  On a notification without callbacks it does nothing
    at all, even when a handle is assigned. *)
Theorem clear_removes_every_callback :
  forall (c : AsyncioClient) (n : ref) (self : Notification),
    notification_store c !! n = Some self ->
    fst (clear n c) = Py.Ok tt
    /\ writer (snd (clear n c)) = writer c
    /\ next_invoke_id (snd (clear n c)) = next_invoke_id c
    /\ user_callback_executor (snd (clear n c)) = user_callback_executor c
    /\ callbacks <$> notification_store (snd (clear n c)) !! n = Some []
    /\ (callbacks self <> [] ->
        handle_of n (snd (clear n c)) = Some None
        /\ most_recent_of n (snd (clear n c)) = Some None)
    /\ (callbacks self = [] -> snd (clear n c) = c).
Proof.
  intros c n self Hs.
  assert (Hlt : (n < List.length (notification_store c))%nat)
    by (eapply lookup_lt_Some; exact Hs).
  unfold clear, mbind. rewrite (the_notification_eq n c self Hs).
  rewrite (for_each_remove_callback n _ c self Hs). cbn [fst snd].
  assert (Hcb : callbacks (after_clear (map fst (callbacks self)) self) = []).
  { apply after_clear_callbacks. intros cb Hin. now apply in_map. }
  split; [reflexivity|]. split; [reflexivity|]. split; [reflexivity|].
  split; [reflexivity|]. split; [|split].
  - simpl. rewrite list_lookup_insert_eq by exact Hlt. simpl. now rewrite Hcb.
  - intros Hne. unfold handle_of, most_recent_of. simpl.
    rewrite list_lookup_insert_eq by exact Hlt. simpl.
    destruct (exists_last (l := map fst (callbacks self))) as (ts & t & Hts).
    { destruct (callbacks self); [congruence|discriminate]. }
    rewrite Hts, after_clear_snoc in *.
    destruct (after_remove_callback_empty _ _ Hcb) as (-> & -> & _).
    split; reflexivity.
  - intros ->. simpl. now apply set_notification_store_id.
Qed.

Lemma clear_removes_every_callback_witness :
  handle_of 0%nat Scenario.sampled = Some (Some 42)
  /\ handle_of 0%nat (snd (clear 0%nat Scenario.sampled)) = Some None
  /\ frames_written (snd (clear 0%nat Scenario.sampled))
     = frames_written Scenario.sampled.
Proof.
  pose proof (clear_removes_every_callback Scenario.sampled 0%nat _ eq_refl)
    as (_ & Hw & _ & _ & _ & H & _).
  split; [reflexivity|]. split.
  - apply H. discriminate.
  - unfold frames_written. now rewrite Hw.
Defined.

(** *** [Notification.process] *)

Lemma set_user_callback_executor_id (c : AsyncioClient) :
  set_user_callback_executor (user_callback_executor c ++ []) c = c.
Proof. destruct c. unfold set_user_callback_executor. simpl. now rewrite app_nil_r. Qed.

Lemma for_each_submit {A} (l : list A) (j : A -> job) :
  forall c,
    for_each l (fun x => submit (j x)) c
    = (Py.Ok tt, set_user_callback_executor (user_callback_executor c ++ map j l) c).
Proof.
  induction l as [|x l IH]; intros c.
  - simpl. unfold ret. now rewrite set_user_callback_executor_id.
  - cbn [for_each]. unfold mbind, submit at 1, modify. rewrite IH. simpl.
    now rewrite <- app_assoc.
Qed.

Lemma process_eq (n : ref) header ts sample (c : AsyncioClient) (self : Notification) :
  notification_store c !! n = Some self ->
  process n header ts sample c
  = (Py.Ok tt,
     set_notification_store
       (<[n := set_most_recent_notification
                 (Some {| nd_header := header; nd_timestamp := ts;
                          nd_sample := sample |}) self]> (notification_store c))
       (set_user_callback_executor
          (user_callback_executor c
           ++ fan_out n self {| nd_header := header; nd_timestamp := ts;
                                nd_sample := sample |})
          (set_log (log c ++ ["Notification update"%string]) c))).
Proof.
  intros Hs. unfold process, mbind, log_message, modify. cbn [fst snd].
  unfold the_notification at 1. cbn [notification_store set_log]. rewrite Hs.
  unfold CallbackHandler_process. rewrite for_each_submit.
  unfold the_notification. cbn [notification_store set_user_callback_executor set_log].
  rewrite Hs. reflexivity.
Qed.

(** X14.  [Notification.process] submits every registered callback once,
    in registration order and with the new sample, and then caches that
    sample in place of the previous one; the handle, the callbacks and the
    connection are left alone.  A callback added afterwards to a
    notification that has callbacks is given this latest sample. *)
Theorem process_fans_out_and_caches :
  forall (c : AsyncioClient) (n : ref) (self : Notification)
         (header : Structs.AoEHeader) (timestamp : Z) (sample : list Z) (f : func),
    notification_store c !! n = Some self ->
    fst (process n header timestamp sample c) = Py.Ok tt
    /\ user_callback_executor (snd (process n header timestamp sample c))
       = user_callback_executor c
         ++ fan_out n self {| nd_header := header; nd_timestamp := timestamp;
                              nd_sample := sample |}
    /\ notification_store (snd (process n header timestamp sample c))
       = <[n := set_most_recent_notification
                  (Some {| nd_header := header; nd_timestamp := timestamp;
                           nd_sample := sample |}) self]> (notification_store c)
    /\ writer (snd (process n header timestamp sample c)) = writer c
    /\ _response_handlers (snd (process n header timestamp sample c))
       = _response_handlers c
    /\ (callbacks self <> [] ->
        user_callback_executor
          (snd (add_callback n f (snd (process n header timestamp sample c))))
        = user_callback_executor (snd (process n header timestamp sample c))
          ++ [call f n {| nd_header := header; nd_timestamp := timestamp;
                          nd_sample := sample |}]).
Proof.
  intros c n self header ts sample f Hs.
  assert (Hlt : (n < List.length (notification_store c))%nat)
    by (eapply lookup_lt_Some; exact Hs).
  rewrite (process_eq n header ts sample c self Hs). cbn [fst snd].
  split; [reflexivity|]. split; [reflexivity|]. split; [reflexivity|].
  split; [reflexivity|]. split; [reflexivity|].
  intros Hne.
  erewrite add_callback_eq
    by (cbn [notification_store set_notification_store];
        apply list_lookup_insert_eq; exact Hlt).
  cbn [snd user_callback_executor set_user_callback_executor set_notification_store].
  unfold no_callbacks. cbn [callbacks set_most_recent_notification].
  destruct (callbacks self); [congruence|reflexivity].
Qed.

Lemma process_fans_out_and_caches_witness :
  user_callback_executor
    (snd (process 0%nat (response_header 0) 2000 [4; 5] Scenario.sampled))
  = user_callback_executor Scenario.sampled
    ++ [call 7%nat 0%nat {| nd_header := response_header 0; nd_timestamp := 2000;
                            nd_sample := [4; 5] |}]
  /\ most_recent_of 0%nat
       (snd (process 0%nat (response_header 0) 2000 [4; 5] Scenario.sampled))
     = Some (Some {| nd_header := response_header 0; nd_timestamp := 2000;
                     nd_sample := [4; 5] |}).
Proof.
  pose proof (process_fans_out_and_caches Scenario.sampled 0%nat _
                (response_header 0) 2000 [4; 5] 8%nat eq_refl)
    as (_ & H1 & H2 & _).
  split; [exact H1|]. unfold most_recent_of. now rewrite H2.
Defined.

(** *** Frames and pending requests *)







(** *** A callback removed before its subscription is sent *)

Lemma try_except_ok {A} (m : M A) caught handler (c : AsyncioClient) (a : A) :
  fst (m c) = Py.Ok a -> try_except m caught handler c = m c.
Proof.
  unfold try_except. destruct (m c) as [[a'|e] c']; simpl; [reflexivity|discriminate].
Qed.

Lemma callbacks_of_preserved (n : ref) (l : list (nat * func)) h header it :
  preserves (fun c => callbacks_of n c = Some l) (call_handler h header it).
Proof.
  destruct h as [r|m]; simpl.
  - apply preserves_got_response. stable_tac.
  - intros c Hc. unfold Notification__response_handler, mbind, the_notification.
    destruct (notification_store c !! m) as [self|] eqn:E; [|exact Hc].
    destruct (item_result it) as [r|e]; [|exact Hc].
    destruct (r =? NOERR); [|exact Hc].
    destruct (item_handle it) as [hd|e]; [|exact Hc].
    simpl. unfold callbacks_of in *. simpl.
    destruct (decide (m = n)) as [->|Hne].
    + rewrite list_lookup_insert_eq by (eapply lookup_lt_Some; exact E).
      rewrite E in Hc. exact Hc.
    + now rewrite list_lookup_insert_ne.
Qed.

Lemma frame_confirms (n : ref) hc header (h : Z) (c : AsyncioClient) (v : option Z) :
  handle_of n c = Some v ->
  In (_response_handler n)
     (default [] (_response_handlers c !! Structs.invoke_id header)) ->
  handle_of n (snd (_handle_command hc header (AoENotificationHandleResponse NOERR h) c))
  = Some (Some h).
Proof.
  intros Hv Hin.
  destruct (_handle_command_eq hc header (AoENotificationHandleResponse NOERR h) c)
    as (c1 & Hc1 & ->).
  apply (confirm_loop n header h _ c1 v); [|right; exact Hin].
  destruct Hc1 as [->|[msg ->]]; exact Hv.
Qed.

(** X16.  The subscribe job does not look at the callbacks again: when the
    first callback is removed before the dispatcher runs the job, the
    add-notification command is sent all the same, and the confirmation
    assigns a handle to a notification that has no callback; nothing is
    sent to give the subscription up. *)
Theorem subscription_outlives_removed_callback :
  forall (c : AsyncioClient) (w : StreamWriter) (g o l m d t : Z) (p : option Z)
         (f : func) (h : Z) (hc : Py.result unit),
    writer c = Some w -> drain_fails w = false -> closed w = false ->
    fst (add_callback (List.length (notification_store c)) f
           (after_add_notification_by_index g o l m d t p c)) = Py.Ok 0%nat
    /\ callbacks_of (List.length (notification_store c))
         (removed_before_subscribe g o l m d t p f c) = Some []
    /\ frames_written (removed_before_subscribe g o l m d t p f c)
       = written w
         ++ [sent_frame (next_invoke_id c) [add_notification_by_index_request g o l m d t]
               p c]
    /\ handle_of (List.length (notification_store c))
         (snd (_handle_command hc (response_header (next_invoke_id c))
                 (AoENotificationHandleResponse NOERR h)
                 (removed_before_subscribe g o l m d t p f c)))
       = Some (Some h)
    /\ callbacks_of (List.length (notification_store c))
         (snd (_handle_command hc (response_header (next_invoke_id c))
                 (AoENotificationHandleResponse NOERR h)
                 (removed_before_subscribe g o l m d t p f c)))
       = Some []
    /\ frames_written
         (snd (_handle_command hc (response_header (next_invoke_id c))
                 (AoENotificationHandleResponse NOERR h)
                 (removed_before_subscribe g o l m d t p f c)))
       = frames_written (removed_before_subscribe g o l m d t p f c).
Proof.
  intros c w g o l m d t p f h hc Hw Hd Hc.
  unfold removed_before_subscribe. cbv zeta.
  set (n := List.length (notification_store c)).
  set (cmd := add_notification_by_index_request g o l m d t).
  set (c1 := after_add_notification_by_index g o l m d t p c).
  assert (Hs1 : notification_store c1 !! n = Some (Notification_init cmd p)).
  { subst c1 n. unfold after_add_notification_by_index, add_notification_by_index.
    simpl. now rewrite list_lookup_middle by reflexivity. }
  rewrite (add_callback_eq n f c1 _ Hs1). cbn [fst snd].
  split; [reflexivity|].
  set (added := snd (CallbackHandler_add_callback f (Notification_init cmd p))).
  set (c2 := set_user_callback_executor _ _).
  assert (Hs2 : notification_store c2 !! n = Some added).
  { subst c2. simpl. apply list_lookup_insert_eq. eapply lookup_lt_Some. exact Hs1. }
  rewrite (remove_callback_eq n 0 c2 added Hs2). cbn [snd].
  set (x := after_remove_callback 0 added).
  set (c3 := set_notification_store _ c2).
  assert (Hs3 : notification_store c3 !! n = Some x).
  { subst c3. simpl. apply list_lookup_insert_eq. rewrite length_insert.
    eapply lookup_lt_Some. exact Hs1. }
  assert (Hw3 : writer c3 = Some w) by exact Hw.
  destruct (subscribe_body_eq n c3 x w Hs3 Hw3 Hd Hc) as (Hok & Hfr & Hh).
  assert (Hrun : run_job (subscribe n) c3 = subscribe_body n c3).
  { simpl. eapply try_except_ok. exact Hok. }
  rewrite Hrun.
  set (c4 := snd (subscribe_body n c3)) in *.
  assert (Hs4 : notification_store c4 = notification_store c3).
  { apply (preserves_snd (fun c' => notification_store c' = notification_store c3));
      [|reflexivity].
    apply preserves_subscribe_body; stable_tac. }
  assert (Hcb4 : callbacks_of n c4 = Some []).
  { unfold callbacks_of. unfold ref in *. now rewrite Hs4, Hs3. }
  split; [exact Hcb4|]. split.
  { rewrite Hfr. unfold frames_written. now rewrite Hw3. }
  split; [|split].
  - apply (frame_confirms n hc _ h c4 None).
    + unfold handle_of. unfold ref in *. now rewrite Hs4, Hs3.
    + change (Structs.invoke_id (response_header (next_invoke_id c)))
        with (next_invoke_id c3).
      rewrite Hh. simpl. apply in_or_app. right. now left.
  - apply (preserves_snd (fun c' => callbacks_of n c' = Some [])); [|exact Hcb4].
    apply preserves__handle_command; [stable_tac|].
    intros h0. apply callbacks_of_preserved.
  - apply (preserves_snd (fun c' => frames_written c' = frames_written c4));
      [|reflexivity].
    apply preserves__handle_command; [stable_tac|].
    intros h0. apply preserves_call_handler; stable_tac.
Qed.

Lemma subscription_outlives_removed_callback_witness :
  handle_of 0%nat
    (snd (_handle_command (Py.Raise Py.MissingHandlerError) (response_header 0)
            (AoENotificationHandleResponse NOERR 42)
            (removed_before_subscribe 1 65535 255 3 1 100 (Some 100) 7%nat
               connected_client)))
  = Some (Some 42)
  /\ callbacks_of 0%nat
       (snd (_handle_command (Py.Raise Py.MissingHandlerError) (response_header 0)
               (AoENotificationHandleResponse NOERR 42)
               (removed_before_subscribe 1 65535 255 3 1 100 (Some 100) 7%nat
                  connected_client)))
     = Some [].
Proof.
  pose proof (subscription_outlives_removed_callback connected_client fresh_writer
                1 65535 255 3 1 100 (Some 100) 7%nat 42
                (Py.Raise Py.MissingHandlerError) eq_refl eq_refl eq_refl)
    as (_ & _ & _ & H1 & H2 & _).
  split; [exact H1|exact H2].
Defined.

(** *** The symbol cache *)

Lemma dict_get_app_miss {V} (d d' : list (string * V)) (k : string) :
  dict_get d k = None -> dict_get (d ++ d') k = dict_get d' k.
Proof.
  induction d as [|[k' v'] d IH]; simpl; [reflexivity|].
  destruct (String.eqb k' k); [discriminate|exact IH].
Qed.

Lemma get_symbol_by_name_named (name : string) (c : AsyncioClient) :
  symbols_named c ->
  symbols_named (snd (get_symbol_by_name name c))
  /\ exists s, fst (get_symbol_by_name name c) = Py.Ok s
               /\ dict_get (_symbols (snd (get_symbol_by_name name c))) name = Some s.
Proof.
  intros Hn. unfold get_symbol_by_name.
  destruct (dict_get (_symbols c) name) as [s|] eqn:E; simpl.
  - split; [exact Hn|]. exists s. split; [reflexivity|exact E].
  - split.
    + intros name' s' Hget. simpl in Hget.
      destruct (dict_get (_symbols c) name') as [s0|] eqn:E'.
      * rewrite (dict_get_app _ _ _ _ E') in Hget. inversion Hget; subst s0.
        destruct (Hn _ _ E') as (sym & Hsym & Hname).
        exists sym. split; [|exact Hname]. simpl.
        now apply lookup_app_l_Some.
      * rewrite (dict_get_app_miss _ _ _ E') in Hget. simpl in Hget.
        destruct (String.eqb name name') eqn:En; [|discriminate].
        apply String.eqb_eq in En. subst name'. inversion Hget; subst s'.
        exists (Symbol_init name). split; [|reflexivity]. simpl.
        now rewrite list_lookup_middle by reflexivity.
    + exists (List.length (symbol_store c)). split; [reflexivity|].
      now apply dict_get_snoc.
Qed.

(** X17.  Symbols looked up under different names are different
    instances, and each carries the name it was looked up with: the cache
    never hands one symbol out for two names.  This holds from
    [__init__] on, since every lookup keeps the cache in order. *)
Theorem get_symbol_by_name_distinct_names :
  forall (c : AsyncioClient) (name1 name2 : string),
    symbols_named c -> name1 <> name2 ->
    exists s1 s2 sym1 sym2,
      fst (get_symbol_by_name name1 c) = Py.Ok s1
      /\ fst (get_symbol_by_name name2 (snd (get_symbol_by_name name1 c))) = Py.Ok s2
      /\ s1 <> s2
      /\ symbol_store (snd (get_symbol_by_name name2 (snd (get_symbol_by_name name1 c))))
         !! s1 = Some sym1
      /\ sym_name sym1 = Some name1
      /\ symbol_store (snd (get_symbol_by_name name2 (snd (get_symbol_by_name name1 c))))
         !! s2 = Some sym2
      /\ sym_name sym2 = Some name2
      /\ symbols_named (snd (get_symbol_by_name name2 (snd (get_symbol_by_name name1 c))))
      /\ (forall server_port reconnect, symbols_named (__init__ server_port reconnect)).
Proof.
  intros c name1 name2 Hn Hne.
  destruct (get_symbol_by_name_named name1 c Hn) as (Hn1 & s1 & Hs1 & Hd1).
  set (c1 := snd (get_symbol_by_name name1 c)) in *.
  destruct (get_symbol_by_name_named name2 c1 Hn1) as (Hn2 & s2 & Hs2 & Hd2).
  set (c2 := snd (get_symbol_by_name name2 c1)) in *.
  assert (Hd1' : dict_get (_symbols c2) name1 = Some s1).
  { apply (preserves_snd (fun c' => dict_get (_symbols c') name1 = Some s1));
      [apply cached_preserved|exact Hd1]. }
  destruct (Hn2 _ _ Hd1') as (sym1 & Hsym1 & Hname1).
  destruct (Hn2 _ _ Hd2) as (sym2 & Hsym2 & Hname2).
  exists s1, s2, sym1, sym2. repeat split; try assumption.
  - intros ->. unfold ref in *. rewrite Hsym1 in Hsym2. congruence.
  - intros server_port reconnect name s H. discriminate H.
Qed.

Lemma get_symbol_by_name_distinct_names_witness :
  fst (get_symbol_by_name "MAIN.b" (snd (get_symbol_by_name "MAIN.a" connected_client)))
  <> fst (get_symbol_by_name "MAIN.a" connected_client).
Proof.
  destruct (get_symbol_by_name_distinct_names connected_client "MAIN.a" "MAIN.b"
              ltac:(intros name s H; discriminate H) ltac:(discriminate))
    as (s1 & s2 & _ & _ & H1 & H2 & Hne & _).
  rewrite H1, H2. congruence.
Defined.

(** *** [Symbol.read] and [Symbol.initialize] *)

Lemma the_symbol_eq (s : ref) (c : AsyncioClient) (sym : Symbol) :
  symbol_store c !! s = Some sym -> the_symbol s c = (Py.Ok sym, c).
Proof. intros H. unfold the_symbol. now rewrite H. Qed.

Lemma write_and_read_enter_sends it port (c : AsyncioClient) (w : StreamWriter) :
  writer c = Some w -> drain_fails w = false -> closed w = false ->
  fst (write_and_read_enter it port c) = Py.Ok (List.length (request_store c))
  /\ frames_written (snd (write_and_read_enter it port c))
     = written w ++ [sent_frame (next_invoke_id c) [it] port c]
  /\ symbol_store (snd (write_and_read_enter it port c)) = symbol_store c.
Proof.
  intros Hw Hd Hc. unfold write_and_read_enter, mbind at 1, get.
  unfold mbind at 1, modify. unfold mbind.
  erewrite send_eq by (simpl; eassumption). simpl. rewrite Hc. repeat split.
Qed.

(** X18.  [Symbol.read] of a symbol known by name only starts by asking
    for the symbol's info by that name.  When the info carries an index
    group the enum knows, [initialize] stores group and offset, and an
    initialized symbol is read by handle with the size of the info; once
    it was released it cannot be read again, the next [read] and
    [initialize] raise [NotImplementedError] and send nothing.  When the
    group has no member, [initialize] raises [ValueError] with the info
    stored but neither group nor handle, and the next [read] asks for
    the info again. *)
Theorem read_after_release_is_refused :
  forall (AdsIndexGroup : list (string * Z)) (c : AsyncioClient) (s : ref)
         (sym : Symbol) (name : string) (info : symbol_info) (h : Z)
         (w : StreamWriter),
    symbol_store c !! s = Some sym ->
    sym_name sym = Some name -> sym_index_group sym = None -> sym_handle sym = None ->
    writer c = Some w -> drain_fails w = false -> closed w = false ->
    (fst (read_enter s c) = Py.Ok (List.length (request_store c))
     /\ frames_written (snd (read_enter s c))
        = written w
          ++ [sent_frame (next_invoke_id c) [get_symbol_info_by_name_request name] None c])
    /\ (Structs.member_of_value AdsIndexGroup (info_index_group info) <> None ->
        fst (initialize_finish AdsIndexGroup s info h c) = Py.Ok tt
        /\ (fst (read_enter s (initialized AdsIndexGroup s info h c))
            = Py.Ok (List.length (request_store c))
            /\ frames_written (snd (read_enter s (initialized AdsIndexGroup s info h c)))
               = written w
                 ++ [sent_frame (next_invoke_id c)
                       [get_value_by_handle_request h (info_size info)] None c])
        /\ fst (Symbol_release s (initialized AdsIndexGroup s info h c)) = Py.Ok tt
        /\ read_enter s (snd (Symbol_release s (initialized AdsIndexGroup s info h c)))
           = (Py.Raise Py.NotImplementedError,
              snd (Symbol_release s (initialized AdsIndexGroup s info h c)))
        /\ initialize_enter s
             (snd (Symbol_release s (initialized AdsIndexGroup s info h c)))
           = (Py.Raise Py.NotImplementedError,
              snd (Symbol_release s (initialized AdsIndexGroup s info h c))))
    /\ (Structs.member_of_value AdsIndexGroup (info_index_group info) = None ->
        fst (initialize_finish AdsIndexGroup s info h c) = Py.Raise Py.ValueError
        /\ symbol_store (initialized AdsIndexGroup s info h c) !! s
           = Some {| sym_name := Some name; sym_index_group := None;
                     sym_index_offset := sym_index_offset sym;
                     sym_info := Some info; sym_handle := None;
                     sym_string_encoding := sym_string_encoding sym |}
        /\ fst (read_enter s (initialized AdsIndexGroup s info h c))
           = Py.Ok (List.length (request_store c))
        /\ frames_written (snd (read_enter s (initialized AdsIndexGroup s info h c)))
           = written w
             ++ [sent_frame (next_invoke_id c) [get_symbol_info_by_name_request name]
                   None c]).
Proof.
  intros G c s sym name info h w Hs Hname Hig Hh Hw Hd Hc.
  assert (Hlt : (s < List.length (symbol_store c))%nat)
    by (eapply lookup_lt_Some; exact Hs).
  split.
  { assert (read_enter s c
            = write_and_read_enter (get_symbol_info_by_name_request name) None c) as ->.
    { unfold read_enter, mbind at 1. rewrite (the_symbol_eq s c sym Hs), Hh.
      unfold initialize_enter, mbind at 1.
      now rewrite (the_symbol_eq s c sym Hs), Hig, Hname. }
    destruct (write_and_read_enter_sends (get_symbol_info_by_name_request name) None
                c w Hw Hd Hc) as (H1 & H2 & _).
    split; assumption. }
  split.
  - intros Hmem.
    destruct (Structs.member_of_value G (info_index_group info)) as [[gn gv]|] eqn:Eg;
      [clear Hmem|congruence].
    set (sym' := {| sym_name := sym_name sym;
                    sym_index_group := Some gv;
                    sym_index_offset := Some (info_index_offset info);
                    sym_info := Some info;
                    sym_handle := Some h;
                    sym_string_encoding := sym_string_encoding sym |}).
    assert (Hi : initialize_finish G s info h c
                 = (Py.Ok tt, set_symbol_store (<[s := sym']> (symbol_store c)) c)).
    { unfold initialize_finish, initialize_store_info, initialize_store_handle, mbind.
      rewrite (the_symbol_eq s c sym Hs). simpl.
      unfold Structs.fget, Structs.enum_cls. simpl. rewrite Eg. simpl.
      unfold the_symbol. simpl.
      rewrite list_lookup_insert_eq by exact Hlt. simpl.
      rewrite list_lookup_insert_eq by (now rewrite length_insert). simpl.
      unfold put_symbol, modify. simpl. now rewrite !list_insert_insert_eq. }
    unfold initialized. rewrite Hi. cbn [fst snd].
    split; [reflexivity|].
    set (ci := set_symbol_store (<[s := sym']> (symbol_store c)) c).
    assert (Hsi : symbol_store ci !! s = Some sym')
      by (subst ci; simpl; now apply list_lookup_insert_eq).
    split.
    { assert (read_enter s ci
              = write_and_read_enter (get_value_by_handle_request h (info_size info))
                  None ci) as ->.
      { unfold read_enter, mbind at 1. now rewrite (the_symbol_eq s ci sym' Hsi). }
      destruct (write_and_read_enter_sends
                  (get_value_by_handle_request h (info_size info)) None ci w Hw Hd Hc)
        as (H1 & H2 & _).
      split; assumption. }
    assert (Hrel : Symbol_release s ci = (Py.Ok tt, snd (Symbol_release s ci))
                   /\ symbol_store (snd (Symbol_release s ci)) !! s
                      = Some (set_sym_handle None sym')).
    { rewrite (Symbol_release_eq s ci sym' Hsi). simpl.
      unfold release_handle, mbind. rewrite send_cases. simpl. rewrite Hw, Hd. simpl.
      unfold the_symbol. simpl. rewrite list_lookup_insert_eq by exact Hlt. simpl.
      split; [reflexivity|].
      rewrite list_insert_insert_eq. now apply list_lookup_insert_eq. }
    destruct Hrel as [Hrel Hsr].
    split; [now rewrite Hrel|].
    set (cr := snd (Symbol_release s ci)) in *.
    split.
    + unfold read_enter, mbind at 1. rewrite (the_symbol_eq s cr _ Hsr). simpl.
      unfold initialize_enter, mbind. now rewrite (the_symbol_eq s cr _ Hsr).
    + unfold initialize_enter, mbind. now rewrite (the_symbol_eq s cr _ Hsr).
  - intros Eg.
    set (sym' := {| sym_name := Some name; sym_index_group := None;
                    sym_index_offset := sym_index_offset sym;
                    sym_info := Some info; sym_handle := None;
                    sym_string_encoding := sym_string_encoding sym |}).
    assert (Hi : initialize_finish G s info h c
                 = (Py.Raise Py.ValueError,
                    set_symbol_store (<[s := sym']> (symbol_store c)) c)).
    { unfold initialize_finish, initialize_store_info, mbind.
      rewrite (the_symbol_eq s c sym Hs). simpl.
      unfold Structs.fget, Structs.enum_cls. simpl. rewrite Eg. simpl.
      subst sym'. now rewrite Hname, Hig, Hh. }
    unfold initialized. rewrite Hi. cbn [fst snd].
    split; [reflexivity|].
    set (ci := set_symbol_store (<[s := sym']> (symbol_store c)) c).
    assert (Hsi : symbol_store ci !! s = Some sym')
      by (subst ci; simpl; now apply list_lookup_insert_eq).
    split; [exact Hsi|].
    assert (read_enter s ci
            = write_and_read_enter (get_symbol_info_by_name_request name) None ci) as ->.
    { unfold read_enter, mbind at 1. rewrite (the_symbol_eq s ci sym' Hsi). simpl.
      unfold initialize_enter, mbind at 1.
      now rewrite (the_symbol_eq s ci sym' Hsi). }
    destruct (write_and_read_enter_sends (get_symbol_info_by_name_request name) None
                ci w Hw Hd Hc) as (H1 & H2 & _).
    split; assumption.
Qed.

Lemma read_after_release_is_refused_witness :
  fst (read_enter 0%nat
         (snd (Symbol_release 0%nat
                 (initialized [("SYM_VALBYHND"%string, 61445); ("PLC_MEMORY"%string, 16448)]
                    0%nat
                    {| info_index_group := 16448; info_index_offset := 8; info_size := 4 |}
                    11 (snd (get_symbol_by_name "MAIN.a" connected_client))))))
  = Py.Raise Py.NotImplementedError.
Proof.
  pose proof (read_after_release_is_refused
                [("SYM_VALBYHND"%string, 61445); ("PLC_MEMORY"%string, 16448)]
                (snd (get_symbol_by_name "MAIN.a" connected_client)) 0%nat
                (Symbol_init "MAIN.a") "MAIN.a"
                {| info_index_group := 16448; info_index_offset := 8; info_size := 4 |}
                11 fresh_writer eq_refl eq_refl eq_refl eq_refl eq_refl eq_refl eq_refl)
    as (_ & H & _).
  destruct H as (_ & _ & _ & H & _); [discriminate|].
  now rewrite H.
Defined.

(** *** Adding a callback and removing it again *)

Lemma filter_fresh_token (l : list (nat * func)) (sid : nat) (f : func) :
  Forall (fun cb => (fst cb < sid)%nat) l ->
  List.filter (fun cb => negb (Nat.eqb (fst cb) sid)) (l ++ [(sid, f)]) = l.
Proof.
  intros H. rewrite List.filter_app. simpl. rewrite Nat.eqb_refl. simpl.
  rewrite app_nil_r. induction H as [|cb l Hcb _ IH]; simpl; [reflexivity|].
  replace (fst cb =? sid)%nat with false by (symmetry; apply Nat.eqb_neq; lia).
  simpl. now rewrite IH.
Qed.

(** X19.  Removing a callback with the token [add_callback] returned for
    it undoes the registration and nothing else, as when an iteration
    over the notification ends: the callbacks registered before are all
    still there, in order, and if there were any the handle and the cached
    sample are untouched.  If it was the only callback, the subscribe job
    it caused stays queued while handle and cached sample are cleared.
    Nothing is sent either way. *)
Theorem remove_callback_undoes_add_callback :
  forall (c : AsyncioClient) (n : ref) (self : Notification) (f : func),
    notification_store c !! n = Some self -> tokens_fresh self ->
    fst (add_callback n f c) = Py.Ok (_callback_id self)
    /\ callbacks_of n (snd (remove_callback n (_callback_id self) (snd (add_callback n f c))))
       = Some (callbacks self)
    /\ writer (snd (remove_callback n (_callback_id self) (snd (add_callback n f c))))
       = writer c
    /\ next_invoke_id (snd (remove_callback n (_callback_id self) (snd (add_callback n f c))))
       = next_invoke_id c
    /\ (callbacks self <> [] ->
        handle_of n (snd (remove_callback n (_callback_id self) (snd (add_callback n f c))))
        = Some (handle self)
        /\ most_recent_of n
             (snd (remove_callback n (_callback_id self) (snd (add_callback n f c))))
           = Some (most_recent_notification self))
    /\ (callbacks self = [] ->
        handle_of n (snd (remove_callback n (_callback_id self) (snd (add_callback n f c))))
        = Some None
        /\ most_recent_of n
             (snd (remove_callback n (_callback_id self) (snd (add_callback n f c))))
           = Some None
        /\ user_callback_executor
             (snd (remove_callback n (_callback_id self) (snd (add_callback n f c))))
           = user_callback_executor c ++ [subscribe n]).
Proof.
  intros c n self f Hs Hfresh.
  assert (Hlt : (n < List.length (notification_store c))%nat)
    by (eapply lookup_lt_Some; exact Hs).
  rewrite (add_callback_eq n f c self Hs). cbn [fst snd].
  split; [reflexivity|].
  set (added := snd (CallbackHandler_add_callback f self)).
  set (c1 := set_user_callback_executor _ _).
  assert (Hs1 : notification_store c1 !! n = Some added)
    by (subst c1; simpl; now apply list_lookup_insert_eq).
  rewrite (remove_callback_eq n (_callback_id self) c1 added Hs1). cbn [snd].
  assert (Hcb : callbacks (CallbackHandler_remove_callback (_callback_id self) added)
                = callbacks self).
  { subst added. simpl. now apply filter_fresh_token. }
  unfold callbacks_of, handle_of, most_recent_of.
  cbn [notification_store set_notification_store].
  rewrite list_lookup_insert_eq
    by (subst c1; simpl; now rewrite length_insert).
  cbn [fmap option_fmap option_map].
  split; [|split; [reflexivity|split; [reflexivity|split]]].
  - rewrite after_remove_callback_callbacks. f_equal. exact Hcb.
  - intros Hne. unfold after_remove_callback, no_callbacks. rewrite Hcb.
    destruct (callbacks self); [congruence|]. split; reflexivity.
  - intros He. unfold after_remove_callback, no_callbacks. rewrite Hcb, He.
    split; [reflexivity|]. split; [reflexivity|].
    subst c1. simpl. unfold no_callbacks. now rewrite He.
Qed.

Lemma remove_callback_undoes_add_callback_witness :
  callbacks_of 0%nat
    (snd (remove_callback 0%nat 1%nat (snd (add_callback 0%nat 8%nat Scenario.sampled))))
  = Some [(0%nat, 7%nat)]
  /\ handle_of 0%nat
       (snd (remove_callback 0%nat 1%nat (snd (add_callback 0%nat 8%nat Scenario.sampled))))
     = Some (Some 42).
Proof.
  pose proof (remove_callback_undoes_add_callback Scenario.sampled 0%nat _ 8%nat eq_refl)
    as H.
  destruct H as (_ & H1 & _ & _ & H2 & _).
  { repeat constructor. }
  split; [exact H1|]. apply H2. discriminate.
Defined.

End SessionFacts.
